(** * The streaming chat pipeline of the multi-provider relay server

    A shallow embedding of the [/api/chat] route of the backend server
    (the Express application that follows the CORS options in
    [backend/cors-config.js]) and of the Gemini call of the Cloudflare
    worker.

    Conventions of the embedding.
    - A JavaScript string is a [string]: a sequence of characters.  Text
      that comes from a request or a backend is read as a sequence of code
      units below 256; the literals of the source are kept byte for byte.
    - A thrown [Error] is its message ([Throw msg]); the handlers only ever
      read [error.message].
    - The response object [res] is the chronological trace of the calls made
      on it ([Write frame] / [End]); a frame is the object handed to
      [JSON.stringify] inside the [data: ...] line.
    - [console.error] is a list of labels; [console.log] is not modelled.
    - Collaborators that are not part of the server file (the JSON parser,
      axios, the Gemini SDK, pdf-parse, the knowledge loader, the persona
      object) are fields of an environment record.

    The embedding then goes on to the rest of the code: the health, model
    and settings routes of the server ([Proc]), its knowledge routes
    ([Admin]) and its origin check ([Cors]); the Cloudflare worker
    ([Api]); and the helpers of the minutes ([Meeting]) and the keywords
    of the research manager ([Research]), which cut texts by the position
    and therefore work on lists of UTF-16 code units. *)

From Stdlib Require Import String Ascii List Bool Arith ZArith Lia QArith DecimalString.
From Stdlib Require DecimalNat DecimalPos.
Import ListNotations.
Set Warnings "-register-all,-abstract-large-number".
Open Scope string_scope.
Open Scope nat_scope.

(** ** JavaScript string methods *)

Module Js.

(** [s.startsWith(p)] *)
Definition startsWith (s p : string) : bool := String.prefix p s.

(** [s.includes(p)] *)
Fixpoint includes (s p : string) : bool :=
  String.prefix p s ||
  match s with
  | EmptyString => false
  | String _ s' => includes s' p
  end.

(** [s.slice(n)] for [0 <= n] *)
Fixpoint slice_from (n : nat) (s : string) : string :=
  match n, s with
  | 0, _ => s
  | S n', String _ s' => slice_from n' s'
  | S _, EmptyString => EmptyString
  end.

(** [s.substring(0, n)] *)
Fixpoint substring0 (n : nat) (s : string) : string :=
  match n, s with
  | S n', String c s' => String c (substring0 n' s')
  | _, _ => EmptyString
  end.

(** [s.endsWith(p)] *)
Definition endsWith (s p : string) : bool :=
  (String.length p <=? String.length s) &&
  String.eqb (slice_from (String.length s - String.length p) s) p.

(** [s.split(c)] for a one-character separator *)
Fixpoint split (c : ascii) (s : string) : list string :=
  match s with
  | EmptyString => [EmptyString]
  | String a s' =>
      if Ascii.eqb a c then EmptyString :: split c s'
      else match split c s' with
           | [] => [String a EmptyString]
           | w :: ws => String a w :: ws
           end
  end.

(** The members of the regular-expression class [\s] below 256. *)
Definition is_space (a : ascii) : bool :=
  let n := nat_of_ascii a in
  ((9 <=? n) && (n <=? 13)) || (n =? 32) || (n =? 160).

Fixpoint trimStart (s : string) : string :=
  match s with
  | String a s' => if is_space a then trimStart s' else s
  | EmptyString => EmptyString
  end.

(** Drops the trailing white space: a character is kept when something
    that is not white space follows it or it is not white space itself. *)
Fixpoint trimEnd (s : string) : string :=
  match s with
  | EmptyString => EmptyString
  | String a s' =>
      match trimEnd s' with
      | EmptyString => if is_space a then EmptyString else String a EmptyString
      | t => String a t
      end
  end.

(** [s.trim()] *)
Definition trim (s : string) : string := trimEnd (trimStart s).

(** A string is truthy when it is not empty. *)
Definition truthy_str (s : string) : bool :=
  match s with EmptyString => false | _ => true end.

(** [a || b] on possibly undefined strings *)
Definition or_else (a : option string) (b : string) : string :=
  match a with
  | Some s => if truthy_str s then s else b
  | None => b
  end.

(** [`${n}`] for a non-negative integer *)
Definition of_nat (n : nat) : string :=
  NilEmpty.string_of_uint (Nat.to_uint n).

(** [`${v}`] for a possibly undefined string *)
Definition interp (a : option string) : string :=
  match a with Some s => s | None => "undefined" end.

End Js.

(** ** JavaScript values as produced by [JSON.parse]

    Numbers are integers here: the handlers only test a number for
    truthiness, and a number with a fraction is truthy like any integer
    that is not zero. *)

Inductive JsVal : Type :=
| VUndefined
| VNull
| VBool (b : bool)
| VNum (z : Z)
| VStr (s : string)
| VArr (l : list JsVal)
| VObj (fields : list (string * JsVal)).

Inductive Result (A : Type) : Type :=
| Ok (a : A)
| Throw (msg : string).
Arguments Ok {A} a.
Arguments Throw {A} msg.

Module Val.

Definition truthy (v : JsVal) : bool :=
  match v with
  | VUndefined | VNull => false
  | VBool b => b
  | VNum z => negb (Z.eqb z 0)
  | VStr s => Js.truthy_str s
  | VArr _ | VObj _ => true
  end.

Fixpoint lookup (k : string) (fs : list (string * JsVal)) : JsVal :=
  match fs with
  | [] => VUndefined
  | (k', v) :: fs' =>
      (* a later duplicate key wins in JSON.parse *)
      match lookup k fs' with
      | VUndefined => if String.eqb k k' then v else VUndefined
      | w => w
      end
  end.

(** [v.k]: reading a property of [null] or [undefined] is a TypeError. *)
Definition get (v : JsVal) (k : string) : Result JsVal :=
  match v with
  | VUndefined | VNull => Throw "Cannot read properties"
  | VObj fs => Ok (lookup k fs)
  | _ => Ok VUndefined
  end.

(** [v?.k] *)
Definition get_opt (v : JsVal) (k : string) : JsVal :=
  match v with
  | VObj fs => lookup k fs
  | _ => VUndefined
  end.

(** [v[0]] *)
Definition index0 (v : JsVal) : Result JsVal :=
  match v with
  | VUndefined | VNull => Throw "Cannot read properties"
  | VArr (x :: _) => Ok x
  | VObj fs => Ok (lookup "0" fs)
  | VStr (String c _) => Ok (VStr (String c EmptyString))
  | _ => Ok VUndefined
  end.

(** [a || b] *)
Definition or (a b : JsVal) : JsVal := if truthy a then a else b.

End Val.

(** ** Provider router *)

(** [getProviderFromModel] *)
Definition getProviderFromModel (model : string) : string :=
  if Js.startsWith model "gemini" || Js.includes model "gemini" then "gemini"
  else if Js.startsWith model "gpt" then "openai"
  else "ollama".

(** The three arms of the [switch (provider)] of the chat route; [None] is
    its [default] arm. *)
Inductive Handler : Type := HGemini | HOpenAI | HOllama.

Definition switch_provider (provider : string) : option Handler :=
  if String.eqb provider "gemini" then Some HGemini
  else if String.eqb provider "openai" then Some HOpenAI
  else if String.eqb provider "ollama" then Some HOllama
  else None.

(** ** A reader for a fragment of JSON

    [JSON.parse] is a field of the environment; the general theorems hold
    for every parser.  The concrete runs below use this reader of a
    fragment of JSON: objects, arrays, strings (with the escapes of the
    quote, the backslash and the newline), integers, [true], [false] and
    [null]. *)

Module Json.

Definition dquote : ascii := "034"%char.

(** A JSON string literal for a text without quotes or backslashes. *)
Definition q (s : string) : string :=
  String dquote (s ++ String dquote EmptyString).

Definition is_ws (a : ascii) : bool :=
  let n := nat_of_ascii a in
  (n =? 32) || (n =? 9) || (n =? 10) || (n =? 13).

Fixpoint skip_ws (s : string) : string :=
  match s with
  | String a s' => if is_ws a then skip_ws s' else s
  | EmptyString => EmptyString
  end.

Definition is_digit (a : ascii) : bool :=
  let n := nat_of_ascii a in (48 <=? n) && (n <=? 57).

Fixpoint digits (acc : Z) (s : string) : Z * string :=
  match s with
  | String a s' =>
      if is_digit a
      then digits (10 * acc + Z.of_nat (nat_of_ascii a - 48))%Z s'
      else (acc, s)
  | EmptyString => (acc, s)
  end.

(** The text after an opening quote, up to the closing one. *)
Fixpoint str_body (s : string) : option (string * string) :=
  match s with
  | EmptyString => None
  | String a s' =>
      if Ascii.eqb a dquote then Some (EmptyString, s')
      else if Ascii.eqb a "\"%char then
        match s' with
        | String b s'' =>
            let c := if Ascii.eqb b "n"%char then Some "010"%char
                     else if Ascii.eqb b dquote || Ascii.eqb b "\"%char
                          then Some b else None in
            match c, str_body s'' with
            | Some c, Some (t, r) => Some (String c t, r)
            | _, _ => None
            end
        | EmptyString => None
        end
      else if nat_of_ascii a <? 32 then None
      else match str_body s' with
           | Some (t, r) => Some (String a t, r)
           | None => None
           end
  end.

Fixpoint value (fuel : nat) (s : string) {struct fuel}
  : option (JsVal * string) :=
  match fuel with
  | 0 => None
  | S f =>
      let s := skip_ws s in
      if String.prefix "null" s then Some (VNull, Js.slice_from 4 s)
      else if String.prefix "true" s then Some (VBool true, Js.slice_from 4 s)
      else if String.prefix "false" s then Some (VBool false, Js.slice_from 5 s)
      else
        match s with
        | EmptyString => None
        | String a s' =>
            if Ascii.eqb a dquote then
              match str_body s' with
              | Some (t, r) => Some (VStr t, r)
              | None => None
              end
            else if Ascii.eqb a "["%char then
              match skip_ws s' with
              | String b r =>
                  if Ascii.eqb b "]"%char then Some (VArr [], r)
                  else match elements f s' with
                       | Some (vs, r) => Some (VArr vs, r)
                       | None => None
                       end
              | EmptyString => None
              end
            else if Ascii.eqb a "{"%char then
              match skip_ws s' with
              | String b r =>
                  if Ascii.eqb b "}"%char then Some (VObj [], r)
                  else match members f s' with
                       | Some (fs, r) => Some (VObj fs, r)
                       | None => None
                       end
              | EmptyString => None
              end
            else if Ascii.eqb a "-"%char then
              match s' with
              | String b _ =>
                  if is_digit b
                  then let (z, r) := digits 0 s' in Some (VNum (- z), r)
                  else None
              | EmptyString => None
              end
            else if is_digit a
            then let (z, r) := digits 0 s in Some (VNum z, r)
            else None
        end
  end
with elements (fuel : nat) (s : string) {struct fuel}
  : option (list JsVal * string) :=
  match fuel with
  | 0 => None
  | S f =>
      match value f s with
      | Some (v, r) =>
          match skip_ws r with
          | String b r' =>
              if Ascii.eqb b ","%char then
                match elements f r' with
                | Some (vs, r'') => Some (v :: vs, r'')
                | None => None
                end
              else if Ascii.eqb b "]"%char then Some ([v], r')
              else None
          | EmptyString => None
          end
      | None => None
      end
  end
with members (fuel : nat) (s : string) {struct fuel}
  : option (list (string * JsVal) * string) :=
  match fuel with
  | 0 => None
  | S f =>
      match skip_ws s with
      | String a s' =>
          if Ascii.eqb a dquote then
            match str_body s' with
            | Some (k, r) =>
                match skip_ws r with
                | String c r1 =>
                    if Ascii.eqb c ":"%char then
                      match value f r1 with
                      | Some (v, r2) =>
                          match skip_ws r2 with
                          | String b r3 =>
                              if Ascii.eqb b ","%char then
                                match members f r3 with
                                | Some (fs, r4) => Some ((k, v) :: fs, r4)
                                | None => None
                                end
                              else if Ascii.eqb b "}"%char
                              then Some ([(k, v)], r3)
                              else None
                          | EmptyString => None
                          end
                      | None => None
                      end
                    else None
                | EmptyString => None
                end
            | None => None
            end
          else None
      | EmptyString => None
      end
  end.

(** [None] stands for the SyntaxError that [JSON.parse] throws. *)
Definition parse (s : string) : option JsVal :=
  match value (2 * String.length s + 2) s with
  | Some (v, r) =>
      match skip_ws r with
      | EmptyString => Some v
      | _ => None
      end
  | None => None
  end.

End Json.

(** ** The request, the response stream and the collaborators *)

Definition LF : string := String "010"%char EmptyString.

Record Msg : Type := { role : string; content : string }.

Module File.
Record t : Type := { name : string; type : option string; data : option string }.
End File.

Module UserProfile.
Record t : Type :=
  { name : option string; department : option string; context : option string }.
End UserProfile.

(** The body of a [POST /api/chat] request after its defaults are filled. *)
Record Body : Type := {
  message : string;
  model : string;
  history : list Msg;
  userProfile : option UserProfile.t;
  useKnowledge : bool;
  files : list File.t
}.

(** The object that a [data:] line of the event stream carries. *)
Inductive Frame : Type :=
| FContent (v : JsVal)
| FDone
| FError (msg : string).

Inductive ResOp : Type :=
| Write (f : Frame)
| End.

(** A part of a Gemini request. *)
Inductive Part : Type :=
| InlineData (mimeType data : string)
| Text (text : string).

(** A request sent to a model backend. *)
Inductive BackendReq : Type :=
| OllamaGenerate (model prompt : string)
| OpenAIChat (model : string) (messages : list Msg)
| GeminiGenerate (modelName : string) (parts : list Part).

Definition Doc : Type := string.

(** A call on the knowledge loader. *)
Inductive KbCall : Type :=
| KbNew
| KbInitialize
| KbLoadDocuments
| KbSearchDocuments (query : string)
| KbGenerateContext.

(** What a turn can change. *)
Record World : Type := {
  res : list ResOp;                      (* calls on [res], oldest first *)
  backend : list BackendReq;             (* requests sent, oldest first *)
  kbCalls : list KbCall;                 (* calls on the loader, oldest first *)
  knowledgeLoader : option (list Doc);   (* [null], or the loader's documents *)
  errors : list string;                  (* [console.error], oldest first *)
  draws : nat                            (* calls of [Math.random] so far *)
}.

(** A computation that may call [Math.random]: the sequence of the draws
    of the process and the number already made go in, the number made
    comes out. *)
Definition Rand (A : Type) : Type := (nat -> Q) -> nat -> A * nat.

(** The persona object ([aiyu-personality.js] is not part of the server
    file). *)
Record Persona : Type := {
  enhancePrompt : string -> Rand (Result string);
  processResponse : string -> string -> Rand (Result string)
}.

(** Configuration and collaborators. *)
Record Env : Type := {
  OPENAI_API_KEY : option string;
  genAI : bool;                          (* [genAI] is not null *)
  JSON_parse : string -> option JsVal;   (* [None]: a SyntaxError *)
  axios_post : BackendReq -> Result (list string);   (* the chunks *)
  generateContent : string -> list Part -> Result string;
  pdf : string -> Result string;         (* [pdfData.text || ''] *)
  kb_new : Result unit;
  kb_initialize : Result unit;           (* a synchronous throw only *)
  kb_loadDocuments : Result (list Doc);
  kb_searchDocuments : list Doc -> string -> Result (list Doc);
  kb_generateContext : list Doc -> Result (option string);
  Math_random : nat -> Q;
  aiyuPersonality : Persona
}.

(** ** State and exceptions *)

Definition M (A : Type) : Type := World -> Result A * World.

Definition ret {A} (a : A) : M A := fun w => (Ok a, w).

Definition throw {A} (msg : string) : M A := fun w => (Throw msg, w).

Definition bind {A B} (m : M A) (k : A -> M B) : M B :=
  fun w =>
    match m w with
    | (Ok a, w') => k a w'
    | (Throw e, w') => (Throw e, w')
    end.

(** [try { m } catch (error) { h error.message }] *)
Definition try_catch {A} (m : M A) (h : string -> M A) : M A :=
  fun w =>
    match m w with
    | (Ok a, w') => (Ok a, w')
    | (Throw e, w') => h e w'
    end.

Definition lift {A} (r : Result A) : M A := fun w => (r, w).

Declare Scope m_scope.
Delimit Scope m_scope with M.
Notation "x <- c ;; k" := (bind c (fun x => k))
  (at level 61, c at next level, right associativity) : m_scope.
Notation "c ;;; k" := (bind c (fun _ => k))
  (at level 61, right associativity) : m_scope.
Open Scope m_scope.

Fixpoint for_each {A} (l : list A) (f : A -> M unit) : M unit :=
  match l with
  | [] => ret tt
  | x :: l' => f x ;;; for_each l' f
  end.

Definition res_write (f : Frame) : M unit :=
  fun w => (Ok tt,
    {| res := res w ++ [Write f]; backend := backend w; kbCalls := kbCalls w;
       knowledgeLoader := knowledgeLoader w; errors := errors w;
       draws := draws w |}).

Definition res_end : M unit :=
  fun w => (Ok tt,
    {| res := res w ++ [End]; backend := backend w; kbCalls := kbCalls w;
       knowledgeLoader := knowledgeLoader w; errors := errors w;
       draws := draws w |}).

Definition console_error (label : string) : M unit :=
  fun w => (Ok tt,
    {| res := res w; backend := backend w; kbCalls := kbCalls w;
       knowledgeLoader := knowledgeLoader w; errors := errors w ++ [label];
       draws := draws w |}).

Definition send (r : BackendReq) : M unit :=
  fun w => (Ok tt,
    {| res := res w; backend := backend w ++ [r]; kbCalls := kbCalls w;
       knowledgeLoader := knowledgeLoader w; errors := errors w;
       draws := draws w |}).

Definition kb_call (c : KbCall) : M unit :=
  fun w => (Ok tt,
    {| res := res w; backend := backend w; kbCalls := kbCalls w ++ [c];
       knowledgeLoader := knowledgeLoader w; errors := errors w;
       draws := draws w |}).

Definition set_knowledgeLoader (l : option (list Doc)) : M unit :=
  fun w => (Ok tt,
    {| res := res w; backend := backend w; kbCalls := kbCalls w;
       knowledgeLoader := l; errors := errors w; draws := draws w |}).

Definition get_knowledgeLoader : M (option (list Doc)) :=
  fun w => (Ok (knowledgeLoader w), w).

Definition random {A} (E : Env) (f : Rand (Result A)) : M A :=
  fun w =>
    let (r, n) := f (Math_random E) (draws w) in
    (r, {| res := res w; backend := backend w; kbCalls := kbCalls w;
           knowledgeLoader := knowledgeLoader w; errors := errors w;
           draws := n |}).

(** [l.slice(-n)] *)
Definition slice_last {A} (n : nat) (l : list A) : list A :=
  skipn (length l - n) l.

(** ** Attachments *)

(** [/[\x00-\x08\x0B\x0C\x0E-\x1F\x7F]/] *)
Definition is_control (a : ascii) : bool :=
  let n := nat_of_ascii a in
  (n <=? 8) || (n =? 11) || (n =? 12) || ((14 <=? n) && (n <=? 31))
  || (n =? 127).

(** [.replace(/[\x00-\x08\x0B\x0C\x0E-\x1F\x7F]/g, '')] *)
Fixpoint strip_control (s : string) : string :=
  match s with
  | EmptyString => EmptyString
  | String a s' =>
      if is_control a then strip_control s' else String a (strip_control s')
  end.

(** [.replace(/\s+/g, ' ')]: of a run of white space only the last
    character is kept, as a blank. *)
Fixpoint collapse_ws (s : string) : string :=
  match s with
  | EmptyString => EmptyString
  | String a s' =>
      if Js.is_space a then
        match s' with
        | String b _ =>
            if Js.is_space b then collapse_ws s'
            else String " "%char (collapse_ws s')
        | EmptyString => " "
        end
      else String a (collapse_ws s')
  end.

Definition sanitize (s : string) : string :=
  Js.trim (collapse_ws (strip_control s)).

Definition pdf_header (name : string) : string :=
  LF ++ "=== PDFファイル: " ++ name ++ " ===" ++ LF.

Definition file_footer : string := "=== ファイル終了 ===" ++ LF.

Definition pdf_omitted (n : nat) : string :=
  LF ++ "... (残り " ++ Js.of_nat n ++ " 文字省略) ..." ++ LF.

(** What is added for a text that was extracted and is not empty. *)
Definition pdf_text (text : string) : string :=
  let pdfContent := sanitize text in
  "内容 (" ++ Js.of_nat (String.length pdfContent) ++ "文字):" ++ LF
  ++ Js.substring0 5000 pdfContent ++ LF
  ++ (if 5000 <? String.length pdfContent
      then pdf_omitted (String.length pdfContent - 5000)
      else EmptyString).

Definition pdf_image_hint : string :=
  "(PDFにテキストが含まれていません - 画像ベースのPDFの可能性があります)" ++ LF
  ++ LF ++ "【ヒント】" ++ LF
  ++ "• このPDFは画像やスキャンデータのみで構成されている可能性があります" ++ LF
  ++ "• テキスト選択可能なPDFに変換してから再度お試しください" ++ LF
  ++ "• または、PDFの内容を画像として送信していただければ、Geminiモデルで読み取れる場合があります"
  ++ LF.

Definition pdf_failure (reason : string) : string :=
  "(PDFの読み込みに失敗しました: " ++ reason ++ ")" ++ LF
  ++ "ヒント: PDFが画像ベースの場合、テキスト抽出ができない場合があります。" ++ LF.

(** [file.data.split(',')[1]] *)
Definition base64_of (data : string) : option string :=
  nth_error (Js.split ","%char data) 1.

(** The body of the outer [try] of the PDF branch: what it adds to
    [fileContext], or what it throws. *)
Definition pdf_try (E : Env) (file : File.t) : M string :=
  match File.data file with
  | Some d =>
      if Js.truthy_str d && Js.startsWith d "data:" then
        match base64_of d with
        | Some (String c b) =>
            try_catch
              (pdfContent <- lift (pdf E (String c b)) ;;
               if 0 <? String.length pdfContent
               then ret (pdf_text pdfContent)
               else ret pdf_image_hint)
              (fun parseError =>
                 console_error "PDF parse error:" ;;;
                 throw ("PDF解析エラー: " ++ parseError))
        | _ => throw "Invalid PDF data format"
        end
      else ret ("(PDFデータ形式が不正です)" ++ LF)
  | None => ret ("(PDFデータ形式が不正です)" ++ LF)
  end.

(** The PDF branch of the loop over the files. *)
Definition process_pdf (E : Env) (file : File.t) : M string :=
  body <- try_catch (pdf_try E file)
            (fun pdfError =>
               console_error ("PDF processing error for " ++ File.name file ++ ":") ;;;
               console_error "Error stack:" ;;;
               ret (pdf_failure pdfError)) ;;
  ret (pdf_header (File.name file) ++ body ++ file_footer).

Definition type_truthy (file : File.t) : bool :=
  match File.type file with Some t => Js.truthy_str t | None => false end.

Definition type_is (file : File.t) (p : string -> bool) : bool :=
  match File.type file with Some t => p t | None => false end.

Definition is_text_file (file : File.t) : bool :=
  type_truthy file &&
  (type_is file (fun t => Js.startsWith t "text/")
   || type_is file (fun t => String.eqb t "application/json")
   || Js.endsWith (File.name file) ".md"
   || Js.endsWith (File.name file) ".txt").

Definition is_image_file (file : File.t) : bool :=
  type_truthy file && type_is file (fun t => Js.startsWith t "image/").

Definition is_pdf_file (file : File.t) : bool :=
  type_is file (fun t => String.eqb t "application/pdf")
  || Js.endsWith (File.name file) ".pdf".

Definition text_fragment (file : File.t) : string :=
  LF ++ "=== ファイル名: " ++ File.name file ++ " ===" ++ LF
  ++ "ファイルタイプ: " ++ Js.or_else (File.type file) "unknown" ++ LF
  ++ "内容:" ++ LF ++ Js.interp (File.data file) ++ LF
  ++ file_footer.

Definition image_fragment (file : File.t) : string :=
  LF ++ "[画像ファイル: " ++ File.name file ++ "]" ++ LF.

Definition other_fragment (file : File.t) : string :=
  LF ++ "[ファイル: " ++ File.name file ++ " (タイプ: "
  ++ Js.or_else (File.type file) "unknown" ++ ")]" ++ LF.

(** One round of [for (const file of files)]: what it adds to
    [fileContext]. *)
Definition process_file (E : Env) (file : File.t) : M string :=
  if is_text_file file then ret (text_fragment file)
  else if is_image_file file then ret (image_fragment file)
  else if is_pdf_file file then process_pdf E file
  else ret (other_fragment file).

Fixpoint process_files (E : Env) (fs : list File.t) (fileContext : string)
  : M string :=
  match fs with
  | [] => ret fileContext
  | file :: fs' =>
      frag <- process_file E file ;;
      process_files E fs' (fileContext ++ frag)
  end.

Definition files_intro : string :=
  LF ++ LF ++ "以下のファイルが添付されています：" ++ LF.

(** [if (files && files.length > 0) { ... enhancedMessage += fileContext }] *)
Definition attach (E : Env) (fs : list File.t) (enhancedMessage : string)
  : M string :=
  match fs with
  | [] => ret enhancedMessage
  | _ =>
      fileContext <- process_files E fs files_intro ;;
      ret (enhancedMessage ++ fileContext)
  end.

(** ** Knowledge base *)

(** The block under [if (useKnowledge === true)]: the context to add, if
    any. *)
Definition retrieve (E : Env) (message : string) : M (option string) :=
  loader <- get_knowledgeLoader ;;
  docs0 <-
    match loader with
    | Some docs => ret docs
    | None =>
        kb_call KbNew ;;; lift (kb_new E) ;;;
        set_knowledgeLoader (Some []) ;;;
        kb_call KbInitialize ;;; lift (kb_initialize E) ;;;
        ret []
    end ;;
  docs <-
    match docs0 with
    | [] =>
        kb_call KbLoadDocuments ;;;
        loaded <- lift (kb_loadDocuments E) ;;
        set_knowledgeLoader (Some loaded) ;;;
        ret loaded
    | _ => ret docs0
    end ;;
  kb_call (KbSearchDocuments message) ;;;
  relevantDocs <- lift (kb_searchDocuments E docs message) ;;
  kb_call KbGenerateContext ;;;
  lift (kb_generateContext E relevantDocs).

Definition add_knowledge (E : Env) (b : Body) (enhancedMessage : string)
  : M string :=
  if useKnowledge b then
    knowledgeContext <- retrieve E (message b) ;;
    match knowledgeContext with
    | Some k => if Js.truthy_str k then ret (enhancedMessage ++ k)
                else ret enhancedMessage
    | None => ret enhancedMessage
    end
  else ret enhancedMessage.

(** ** User profile *)

Definition profile_line (p : UserProfile.t) (ctx : string) : string :=
  "ユーザー情報: " ++ Js.or_else (UserProfile.name p) "不明" ++ ", "
  ++ Js.or_else (UserProfile.department p) "不明" ++ ", " ++ ctx ++ LF ++ LF.

(** The context of the profile when the test
    [userProfile && userProfile.context && userProfile.context.trim() !== '']
    passes. *)
Definition profile_context (u : option UserProfile.t) : option string :=
  match u with
  | Some p =>
      match UserProfile.context p with
      | Some c =>
          if Js.truthy_str c && Js.truthy_str (Js.trim c) then Some c else None
      | None => None
      end
  | None => None
  end.

Definition add_profile (u : option UserProfile.t) (enhancedMessage : string)
  : string :=
  match u, profile_context u with
  | Some p, Some c => profile_line p c ++ enhancedMessage
  | _, _ => enhancedMessage
  end.

(** The first half of the [try] of the route: from [message] to the
    [enhancedMessage] that is handed to the provider. *)
Definition augment (E : Env) (b : Body) : M string :=
  withFiles <- attach E (files b) (message b) ;;
  withKnowledge <- add_knowledge E b withFiles ;;
  ret (add_profile (userProfile b) withKnowledge).

(** ** Provider handlers *)

(** The lines of a chunk: [chunk.toString().split('\n').filter(line => line.trim())] *)
Definition lines_of (chunk : string) : list string :=
  filter (fun line => Js.truthy_str (Js.trim line)) (Js.split "010"%char chunk).

Definition parse_json (E : Env) (text : string) : M JsVal :=
  match JSON_parse E text with
  | Some v => ret v
  | None => throw "Unexpected token"
  end.

(** *** Ollama *)

Definition history_line (user assistant : string) (msg : Msg) : string :=
  if String.eqb (role msg) "user" then user ++ content msg ++ LF
  else if String.eqb (role msg) "assistant" then assistant ++ content msg ++ LF
  else EmptyString.

(** The text that the loop over [recentHistory] adds. *)
Definition transcript (user assistant : string) (recentHistory : list Msg)
  : string :=
  String.concat EmptyString (map (history_line user assistant) recentHistory).

(** [formatPrompt] *)
Definition formatPrompt (E : Env) (message : string) (history : list Msg)
  : M string :=
  persona <- random E (enhancePrompt (aiyuPersonality E) message) ;;
  ret (persona ++ LF ++ LF
       ++ transcript "User: " "Assistant: " (slice_last 6 history)
       ++ "User: " ++ message ++ LF ++ "Assistant: ").

(** One round of the loop over the lines of an Ollama chunk. *)
Definition ollama_line (E : Env) (line : string) : M unit :=
  data <- parse_json E line ;;
  response <- lift (Val.get data "response") ;;
  (if Val.truthy response then res_write (FContent response) else ret tt) ;;;
  done <- lift (Val.get data "done") ;;
  if Val.truthy done then res_write FDone ;;; res_end else ret tt.

(** The listener of [response.data.on('data', ...)] of the Ollama handler. *)
Definition ollama_on_data (E : Env) (chunk : string) : M unit :=
  try_catch
    (for_each (lines_of chunk) (ollama_line E))
    (fun _ => console_error "Error parsing Ollama response:").

(** [handleOllamaChat], followed by the chunks that the backend delivers. *)
Definition handleOllamaChat (E : Env) (message model : string)
    (history : list Msg) : M unit :=
  prompt <- formatPrompt E message history ;;
  send (OllamaGenerate model prompt) ;;;
  chunks <- lift (axios_post E (OllamaGenerate model prompt)) ;;
  for_each chunks (ollama_on_data E).

(** *** OpenAI *)

(** [parsed.choices[0]?.delta?.content || ''] *)
Definition openai_content (parsed : JsVal) : Result JsVal :=
  match Val.get parsed "choices" with
  | Ok choices =>
      match Val.index0 choices with
      | Ok first =>
          Ok (Val.or (Val.get_opt (Val.get_opt first "delta") "content")
                     (VStr EmptyString))
      | Throw e => Throw e
      end
  | Throw e => Throw e
  end.

(** One round of the loop over the lines of an OpenAI chunk. *)
Definition openai_line (E : Env) (line : string) : M unit :=
  if Js.startsWith line "data: " then
    let data := Js.slice_from 6 line in
    if String.eqb data "[DONE]" then res_write FDone ;;; res_end
    else
      try_catch
        (parsed <- parse_json E data ;;
         content <- lift (openai_content parsed) ;;
         if Val.truthy content then res_write (FContent content) else ret tt)
        (fun _ => console_error "Error parsing OpenAI response:")
  else ret tt.

(** The listener of [response.data.on('data', ...)] of the OpenAI handler. *)
Definition openai_on_data (E : Env) (chunk : string) : M unit :=
  for_each (lines_of chunk) (openai_line E).

Definition openai_messages (system : string) (message : string)
    (history : list Msg) : list Msg :=
  ({| role := "system"; content := system |}
   :: map (fun msg => {| role := role msg; content := content msg |}) history
   ++ [{| role := "user"; content := message |}])%list.

Definition key_configured (E : Env) : bool :=
  match OPENAI_API_KEY E with
  | Some k => Js.truthy_str k
  | None => false
  end.

(** [handleOpenAIChat], followed by the chunks that the backend delivers. *)
Definition handleOpenAIChat (E : Env) (message model : string)
    (history : list Msg) : M unit :=
  if negb (key_configured E) then throw "OpenAI API key not configured"
  else
    system <- random E (enhancePrompt (aiyuPersonality E) message) ;;
    let messages := openai_messages system message history in
    send (OpenAIChat model messages) ;;;
    chunks <- lift (axios_post E (OpenAIChat model messages)) ;;
    for_each chunks (openai_on_data E).

(** *** Gemini *)

(** [modelMap[model] || 'gemini-1.5-flash'] *)
Definition gemini_model_name (model : string) : string :=
  if String.eqb model "gemini-2.0-flash" then "gemini-2.0-flash-exp"
  else if String.eqb model "gemini-1.5-pro" then "gemini-1.5-pro"
  else if String.eqb model "gemini-1.5-flash" then "gemini-1.5-flash"
  else if String.eqb model "gemini-flash" then "gemini-2.0-flash-exp"
  else "gemini-1.5-flash".

Definition gemini_history (history : list Msg) : string :=
  match slice_last 10 history with
  | [] => EmptyString
  | recentHistory =>
      "以下は最近の会話履歴です：" ++ LF
      ++ transcript "ユーザー: " "アシスタント: " recentHistory ++ LF
  end.

(** The inline parts of the image files. *)
Fixpoint image_parts (fs : list File.t) : list Part :=
  match fs with
  | [] => []
  | file :: fs' =>
      match File.type file, File.data file with
      | Some t, Some d =>
          if Js.truthy_str t && Js.startsWith t "image/" && Js.truthy_str d
          then
            let base64Data :=
              Js.or_else (nth_error (Js.split ","%char d) 1) d in
            InlineData t base64Data :: image_parts fs'
          else image_parts fs'
      | _, _ => image_parts fs'
      end
  end.

(** [handleGeminiChat] *)
Definition handleGeminiChat (E : Env) (message model : string)
    (history : list Msg) (fs : list File.t) : M unit :=
  if negb (genAI E) then throw "Gemini API key not configured"
  else
    try_catch
      (let modelName := gemini_model_name model in
       persona <- random E (enhancePrompt (aiyuPersonality E) message) ;;
       let fullPrompt :=
         persona ++ gemini_history history
         ++ "ユーザー: " ++ message ++ LF ++ "アシスタント: " in
       let parts := (image_parts fs ++ [Text fullPrompt])%list in
       try_catch
         (send (GeminiGenerate modelName parts) ;;;
          text <- lift (generateContent E modelName parts) ;;
          enhancedText <-
            random E (processResponse (aiyuPersonality E) message text) ;;
          res_write (FContent (VStr enhancedText)) ;;;
          res_write FDone ;;;
          res_end)
         (fun apiError =>
            console_error "Gemini API error:" ;;;
            console_error "Error details:" ;;;
            throw apiError))
      (fun error =>
         console_error "Gemini chat error:" ;;;
         res_write (FError ("Gemini APIエラー: " ++ error)) ;;;
         res_end).

(** ** The chat route *)

(** [switch (provider)] *)
Definition dispatch (E : Env) (b : Body) (enhancedMessage : string) : M unit :=
  match switch_provider (getProviderFromModel (model b)) with
  | Some HGemini =>
      handleGeminiChat E enhancedMessage (model b) (history b) (files b)
  | Some HOpenAI => handleOpenAIChat E enhancedMessage (model b) (history b)
  | Some HOllama => handleOllamaChat E enhancedMessage (model b) (history b)
  | None => throw "Unknown provider"
  end.

(** [app.post('/api/chat', ...)], from the [try] on. *)
Definition chat (E : Env) (b : Body) : M unit :=
  try_catch
    (enhancedMessage <- augment E b ;;
     dispatch E b enhancedMessage)
    (fun error =>
       console_error "Error in chat:" ;;;
       res_write (FError error) ;;;
       res_end).

(** The state in which a request finds the process: nothing written on
    its [res] yet. *)
Definition fresh (loader : option (list Doc)) (n : nat) : World :=
  {| res := []; backend := []; kbCalls := []; knowledgeLoader := loader;
     errors := []; draws := n |}.

(** ** The Gemini call of the Cloudflare worker *)

Module Worker.

(** What [fetch] resolves to: [response.ok], [response.text()] and
    [response.json()]. *)
Record Response : Type := { ok : bool; text : string; json : Result JsVal }.

(** [Math.random() < 0.3] *)
Definition below_threshold (r : Q) : bool := negb (Qle_bool (3 # 10) r).

(** The template of [systemPrompt]. *)
Definition persona_prompt (addWan : bool) : string :=
  LF ++ "あなたは「アイユーくん」という柴犬の精霊です。" ++ LF
  ++ "- 親しみやすく、元気で前向きな性格" ++ LF
  ++ "- 丁寧語で話しますが、堅すぎない" ++ LF
  ++ "- 相手を励まし、応援する" ++ LF
  ++ (if addWan then "- 今回は語尾に「ワン」をつけてください"
      else "- 今回は「ワン」は控えめに") ++ LF
  ++ "- 絵文字は控えめに使用" ++ LF ++ LF.

(** [systemPrompt], with the draw that it takes when the persona is on. *)
Definition systemPrompt (usePersonality : bool) : Rand string :=
  fun draws n =>
    if usePersonality
    then (persona_prompt (below_threshold (draws n)), S n)
    else (EmptyString, n).

(** The [switch (model)] that gives [apiModel]. *)
Definition apiModel (model : string) : string :=
  if String.eqb model "gemini-2.5-flash" then "gemini-2.0-flash-exp"
  else if String.eqb model "gemini-2.5-pro" then "gemini-1.5-pro-latest"
  else if String.eqb model "gemini-2.0-flash-exp" then "gemini-2.0-flash-exp"
  else if String.eqb model "gemini-1.5-flash-latest" then "gemini-1.5-flash-latest"
  else if String.eqb model "gemini-1.5-pro-latest" then "gemini-1.5-pro-latest"
  else "gemini-2.0-flash-exp".

(** [v?.[0]] *)
Definition index0_opt (v : JsVal) : JsVal :=
  match Val.index0 v with Ok x => x | Throw _ => VUndefined end.

(** [data.candidates?.[0]?.content?.parts?.[0]?.text || '...'] *)
Definition reply_of (data : JsVal) : Result JsVal :=
  match Val.get data "candidates" with
  | Ok candidates =>
      Ok (Val.or
            (Val.get_opt
               (index0_opt
                  (Val.get_opt
                     (Val.get_opt (index0_opt candidates) "content") "parts"))
               "text")
            (VStr "エラー: 応答がありません"))
  | Throw e => Throw e
  end.

(** [callGemini]: the text sent to the model [apiModel], and what the
    call returns or throws. *)
Definition callGemini (fetch : string -> string -> Response)
    (message model : string) (usePersonality : bool)
  : Rand (string * Result JsVal) :=
  fun draws n =>
    let (prompt, n') := systemPrompt usePersonality draws n in
    let sent := prompt ++ message in
    let response := fetch (apiModel model) sent in
    (sent,
     if negb (ok response) then Throw ("Gemini API error: " ++ text response)
     else match json response with
          | Ok data => reply_of data
          | Throw e => Throw e
          end,
     n').

End Worker.

(** ** The persona object *)

(** Modelled from the spec: the persona object of [aiyu-personality.js],
    which the server requires and which is not among the sources.  The
    prompt hook, when the persona is enabled, prepends a fixed preamble to
    the prompt, and the directive of the preamble about the trailing
    suffix is chosen by a uniform draw, the suffix with probability 0.3;
    the response hook, when enabled, is applied once to the assembled
    reply and appends the verbal tic or not.  The design notes of the
    spec say that in the source the two hooks make two independent draws,
    and the two calls of the handler share nothing but the message: each
    hook takes the next draw of the process.  Disabled, both hooks are
    the identity. *)
Definition spec_persona (enabled : bool) (preamble : bool -> string)
    (tic : string) : Persona :=
  {| enhancePrompt := fun prompt draws n =>
       if enabled
       then (Ok (preamble (Worker.below_threshold (draws n)) ++ prompt), S n)
       else (Ok prompt, n);
     processResponse := fun _ reply draws n =>
       if enabled
       then (Ok (if Worker.below_threshold (draws n)
                 then reply ++ tic else reply), S n)
       else (Ok reply, n) |}.

(** ** Concrete collaborators for the runs *)

Module Demo.

(** A persona object that makes no draw: a fixed preamble, the reply
    unchanged. *)
Definition plain_persona : Persona :=
  {| enhancePrompt := fun _ _ n => (Ok "PERSONA", n);
     processResponse := fun _ text _ n => (Ok text, n) |}.

(** Both keys configured, a backend that answers with an empty stream, a
    knowledge loader that finds one document and no context. *)
Definition base : Env :=
  {| OPENAI_API_KEY := Some "sk-test";
     genAI := true;
     JSON_parse := Json.parse;
     axios_post := fun _ => Ok [];
     generateContent := fun _ _ => Ok "Hello";
     pdf := fun _ => Ok EmptyString;
     kb_new := Ok tt;
     kb_initialize := Ok tt;
     kb_loadDocuments := Ok ["doc"];
     kb_searchDocuments := fun docs _ => Ok docs;
     kb_generateContext := fun _ => Ok None;
     Math_random := fun _ => 0%Q;
     aiyuPersonality := plain_persona |}.

Definition with_key (k : option string) (E : Env) : Env :=
  {| OPENAI_API_KEY := k; genAI := genAI E; JSON_parse := JSON_parse E;
     axios_post := axios_post E; generateContent := generateContent E;
     pdf := pdf E; kb_new := kb_new E; kb_initialize := kb_initialize E;
     kb_loadDocuments := kb_loadDocuments E;
     kb_searchDocuments := kb_searchDocuments E;
     kb_generateContext := kb_generateContext E;
     Math_random := Math_random E; aiyuPersonality := aiyuPersonality E |}.

Definition with_streams (ollama openai : Result (list string)) (E : Env)
  : Env :=
  {| OPENAI_API_KEY := OPENAI_API_KEY E; genAI := genAI E;
     JSON_parse := JSON_parse E;
     axios_post := fun req =>
                     match req with
                     | OllamaGenerate _ _ => ollama
                     | _ => openai
                     end;
     generateContent := generateContent E;
     pdf := pdf E; kb_new := kb_new E; kb_initialize := kb_initialize E;
     kb_loadDocuments := kb_loadDocuments E;
     kb_searchDocuments := kb_searchDocuments E;
     kb_generateContext := kb_generateContext E;
     Math_random := Math_random E; aiyuPersonality := aiyuPersonality E |}.


Definition with_knowledge (search : Result (list Doc))
    (ctx : Result (option string)) (E : Env) : Env :=
  {| OPENAI_API_KEY := OPENAI_API_KEY E; genAI := genAI E;
     JSON_parse := JSON_parse E;
     axios_post := axios_post E; generateContent := generateContent E;
     pdf := pdf E; kb_new := kb_new E; kb_initialize := kb_initialize E;
     kb_loadDocuments := kb_loadDocuments E;
     kb_searchDocuments := fun _ _ => search;
     kb_generateContext := fun _ => ctx;
     Math_random := Math_random E; aiyuPersonality := aiyuPersonality E |}.

Definition with_persona (draws : nat -> Q) (p : Persona) (E : Env) : Env :=
  {| OPENAI_API_KEY := OPENAI_API_KEY E; genAI := genAI E;
     JSON_parse := JSON_parse E;
     axios_post := axios_post E; generateContent := generateContent E;
     pdf := pdf E; kb_new := kb_new E; kb_initialize := kb_initialize E;
     kb_loadDocuments := kb_loadDocuments E;
     kb_searchDocuments := kb_searchDocuments E;
     kb_generateContext := kb_generateContext E;
     Math_random := draws; aiyuPersonality := p |}.

(** A request body with the defaults of the route. *)
Definition body (message model : string) : Body :=
  {| message := message; model := model; history := []; userProfile := None;
     useKnowledge := false; files := [] |}.

Definition with_history (h : list Msg) (b : Body) : Body :=
  {| message := message b; model := model b; history := h;
     userProfile := userProfile b; useKnowledge := useKnowledge b;
     files := files b |}.

Definition with_files (fs : list File.t) (b : Body) : Body :=
  {| message := message b; model := model b; history := history b;
     userProfile := userProfile b; useKnowledge := useKnowledge b;
     files := fs |}.


Definition with_useKnowledge (k : bool) (b : Body) : Body :=
  {| message := message b; model := model b; history := history b;
     userProfile := userProfile b; useKnowledge := k;
     files := files b |}.

(** Twenty turns, m1 to m20, the user and the assistant in turn. *)
Definition history20 : list Msg :=
  map (fun i => {| role := if Nat.odd i then "user" else "assistant";
                   content := "m" ++ Js.of_nat i |})
      (seq 1 20).


Definition notes : File.t :=
  {| File.name := "notes.txt"; File.type := Some "text/plain";
     File.data := Some "alpha" |}.




(** A loader whose search fails. *)
Definition with_broken_search (E : Env) : Env :=
  with_knowledge (Throw "index unavailable") (Ok None) E.

(** A line of an Ollama stream. *)
Definition ollama_json (response : string) (done : bool) : string :=
  "{" ++ Json.q "response" ++ ":" ++ Json.q response ++ ","
  ++ Json.q "done" ++ ":" ++ (if done then "true" else "false") ++ "}".

(** A data line of an OpenAI stream. *)
Definition openai_data (content : string) : string :=
  "data: {" ++ Json.q "choices" ++ ":[{" ++ Json.q "delta" ++ ":{"
  ++ Json.q "content" ++ ":" ++ Json.q content ++ "}}]}".

Definition openai_done : string := "data: [DONE]".





(** One chunk: a line that is not JSON, then two well-formed lines. *)
Definition ollama_garbled : list string :=
  [ "upstream timeout" ++ LF
    ++ ollama_json "Hi" false ++ LF
    ++ ollama_json EmptyString true ++ LF ].

Definition openai_garbled : list string :=
  [ "data: upstream timeout" ++ LF
    ++ openai_data "Hi" ++ LF
    ++ openai_done ++ LF ].

(** The state after a turn on a fresh stream. *)
Definition run (E : Env) (b : Body) : World := snd (chat E b (fresh None 0)).

(** The persona of the spec with the preamble of the worker and its tic. *)
Definition aiyu : Persona := spec_persona true Worker.persona_prompt "ワン".

(** Draws of the process: [first], then [later] for ever. *)
Definition draws_of (first later : Q) (n : nat) : Q :=
  match n with 0 => first | S _ => later end.

(** A Gemini backend for the worker that answers [reply]. *)
Definition worker_fetch (reply : string) (_ _ : string) : Worker.Response :=
  {| Worker.ok := true; Worker.text := EmptyString;
     Worker.json :=
       Ok (VObj [("candidates",
                  VArr [VObj [("content",
                               VObj [("parts",
                                      VArr [VObj [("text", VStr reply)]])])]])]) |}.



End Demo.

(** ** Vocabulary of the properties *)

(** The kinds of calls on [res]. *)
Definition is_content (op : ResOp) : bool :=
  match op with Write (FContent _) => true | _ => false end.

Definition is_error (op : ResOp) : bool :=
  match op with Write (FError _) => true | _ => false end.



(** How many calls of a kind a trace has. *)
Definition count (p : ResOp -> bool) (t : list ResOp) : nat :=
  length (filter p t).



(** The calls on [res] that a well-formed Ollama line gives rise to. *)
Definition ollama_frames (E : Env) (line : string) : list ResOp :=
  match JSON_parse E line with
  | Some data =>
      ((if Val.truthy (Val.get_opt data "response")
        then [Write (FContent (Val.get_opt data "response"))] else [])
       ++ (if Val.truthy (Val.get_opt data "done")
           then [Write FDone; End] else []))%list
  | None => []
  end.

(** A line that parses to a value whose properties can be read. *)
Definition ollama_well_formed (E : Env) (line : string) : bool :=
  match JSON_parse E line with
  | Some VNull | Some VUndefined | None => false
  | Some _ => true
  end.


(** The calls on [res] that an OpenAI line gives rise to. *)
Definition openai_frames (E : Env) (line : string) : list ResOp :=
  if Js.startsWith line "data: " then
    if String.eqb (Js.slice_from 6 line) "[DONE]" then [Write FDone; End]
    else
      match JSON_parse E (Js.slice_from 6 line) with
      | Some parsed =>
          match openai_content parsed with
          | Ok content =>
              if Val.truthy content then [Write (FContent content)] else []
          | Throw _ => []
          end
      | None => []
      end
  else [].









(** A computation that returns and adds [ops] to the calls on [res]. *)
Definition appends {A} (m : M A) (ops : list ResOp) : Prop :=
  forall w, (exists a, fst (m w) = Ok a) /\ res (snd (m w)) = (res w ++ ops)%list.


(** ** Vocabulary of the further properties *)

(** A computation adds at most one request to the log of the backends,
    and that request satisfies [P]. *)
Definition sends {A} (P : BackendReq -> Prop) (m : M A) : Prop :=
  forall w,
    exists reqs,
      backend (snd (m w)) = (backend w ++ reqs)%list
      /\ length reqs <= 1
      /\ Forall P reqs.

(** The request that the handler chosen for a turn may send. *)
Definition routed_request (b : Body) (r : BackendReq) : Prop :=
  match switch_provider (getProviderFromModel (model b)) with
  | Some HGemini =>
      exists prompt,
        r = GeminiGenerate (gemini_model_name (model b))
              (image_parts (files b) ++ [Text prompt])%list
  | Some HOpenAI =>
      exists system enhancedMessage,
        r = OpenAIChat (model b)
              (openai_messages system enhancedMessage (history b))
  | Some HOllama => exists prompt, r = OllamaGenerate (model b) prompt
  | None => False
  end.

(** The test of the loop over the files of [handleGeminiChat]. *)
Definition has_image_data (file : File.t) : bool :=
  match File.type file, File.data file with
  | Some t, Some d =>
      Js.truthy_str t && Js.startsWith t "image/" && Js.truthy_str d
  | _, _ => false
  end.

(** An inline part whose type is an image type. *)
Definition is_image_part (p : Part) : bool :=
  match p with
  | InlineData mimeType _ => Js.startsWith mimeType "image/"
  | Text _ => false
  end.

(** The persona hooks return on every input. *)
Definition persona_returns (p : Persona) : Prop :=
  (forall prompt draws n, exists s n', enhancePrompt p prompt draws n = (Ok s, n'))
  /\ (forall prompt reply draws n,
        exists s n', processResponse p prompt reply draws n = (Ok s, n')).

Module Sample.

(** A picture sent as a data URL. *)
Definition photo : File.t :=
  {| File.name := "photo.png"; File.type := Some "image/png";
     File.data := Some "data:image/png;base64,iVBORw0KGgo=" |}.

(** A note sent without a type. *)
Definition untyped_notes : File.t :=
  {| File.name := "notes.txt"; File.type := None; File.data := Some "alpha" |}.

(** The answer of an Ollama that has two models. *)
Definition tags : JsVal :=
  VObj [("models", VArr [VObj [("name", VStr "llama2:latest")];
                         VObj [("name", VStr "gpt-oss:20b")]])].

End Sample.

(** The character occurs in the string. *)
Fixpoint mentions (c : ascii) (s : string) : bool :=
  match s with
  | EmptyString => false
  | String a s' => Ascii.eqb a c || mentions c s'
  end.


(** A history entry that the prompts of Ollama and Gemini render. *)
Definition speaks (msg : Msg) : bool :=
  String.eqb (role msg) "user" || String.eqb (role msg) "assistant".

(** The part of the state that belongs to the knowledge loader. *)
Definition kb_state (w : World) : list KbCall * option (list Doc) :=
  (kbCalls w, knowledgeLoader w).

(** What [retrieve] adds to the calls after the search was asked. *)
Definition after_search (E : Env) (docs : list Doc) (q : string) : list KbCall :=
  match kb_searchDocuments E docs q with
  | Ok _ => [KbGenerateContext]
  | Throw _ => []
  end.

(** What the loop over the files adds for one file, whatever the state. *)
Definition fragment_of (E : Env) (file : File.t) : string :=
  match fst (process_file E file (fresh None 0)) with
  | Ok frag => frag
  | Throw _ => EmptyString
  end.

(** A process whose Gemini calls fail. *)
Definition gemini_down_env : Env :=
  {| OPENAI_API_KEY := OPENAI_API_KEY Demo.base; genAI := genAI Demo.base;
     JSON_parse := JSON_parse Demo.base;
     axios_post := axios_post Demo.base;
     generateContent := fun _ _ => Throw "connect ECONNREFUSED";
     pdf := pdf Demo.base; kb_new := kb_new Demo.base;
     kb_initialize := kb_initialize Demo.base;
     kb_loadDocuments := kb_loadDocuments Demo.base;
     kb_searchDocuments := kb_searchDocuments Demo.base;
     kb_generateContext := kb_generateContext Demo.base;
     Math_random := Math_random Demo.base;
     aiyuPersonality := aiyuPersonality Demo.base |}.

(** ** The other routes of the server *)

(** [`${v}`]: the string of a value in a template. *)
Fixpoint to_string (v : JsVal) : string :=
  match v with
  | VUndefined => "undefined"
  | VNull => "null"
  | VBool true => "true"
  | VBool false => "false"
  | VNum z => NilZero.string_of_int (Z.to_int z)
  | VStr s => s
  | VArr l =>
      (fix join (l : list JsVal) : string :=
         match l with
         | [] => EmptyString
         | x :: r =>
             (match x with
              | VUndefined | VNull => EmptyString
              | _ => to_string x
              end)
             ++ match r with
                | [] => EmptyString
                | _ => "," ++ join r
                end
         end) l
  | VObj _ => "[object Object]"
  end.

(** The environment of the chat route with other keys. *)
Definition with_keys (openai : option string) (gemini : bool) (E : Env) : Env :=
  {| OPENAI_API_KEY := openai; genAI := gemini;
     JSON_parse := JSON_parse E;
     axios_post := axios_post E; generateContent := generateContent E;
     pdf := pdf E; kb_new := kb_new E; kb_initialize := kb_initialize E;
     kb_loadDocuments := kb_loadDocuments E;
     kb_searchDocuments := kb_searchDocuments E;
     kb_generateContext := kb_generateContext E;
     Math_random := Math_random E; aiyuPersonality := aiyuPersonality E |}.

(** [process.env] and the objects made from it when the process starts. *)
Module Proc.

Record t : Type := {
  GEMINI_API_KEY : option string;
  OPENAI_API_KEY : option string;
  genAI : bool                     (* [genAI] is not null *)
}.

Definition set (v : option string) : bool :=
  match v with Some s => Js.truthy_str s | None => false end.

(** The start of the process: [genAI] is made when the Gemini key is set. *)
Definition start (gemini openai : option string) : t :=
  {| GEMINI_API_KEY := gemini; OPENAI_API_KEY := openai; genAI := set gemini |}.

(** The environment of the chat route in a process. *)
Definition env (P : t) (E : Env) : Env :=
  with_keys (OPENAI_API_KEY P) (genAI P) E.

(** [POST /api/admin/settings]: what it does to [process.env]. *)
Definition settings (geminiApiKey openaiApiKey : option string) (P : t) : t :=
  {| GEMINI_API_KEY := if set geminiApiKey then geminiApiKey
                       else GEMINI_API_KEY P;
     OPENAI_API_KEY := if set openaiApiKey then openaiApiKey
                       else OPENAI_API_KEY P;
     genAI := genAI P |}.

(** [GET /api/health]: the [providers] of the answer. *)
Record Providers : Type := { ollama : bool; gemini : bool; openai : bool }.

Definition health (P : t) : Providers :=
  {| ollama := true; gemini := set (GEMINI_API_KEY P);
     openai := set (OPENAI_API_KEY P) |}.

(** An entry of [GET /api/models]. *)
Record Entry : Type := { name : JsVal; provider : string; description : string }.

(** The rounds of [response.data.models.forEach] up to the first element
    whose [name] cannot be read. *)
Fixpoint ollama_entries (models : list JsVal) : list Entry :=
  match models with
  | [] => []
  | m :: rest =>
      match Val.get m "name" with
      | Ok n =>
          {| name := n; provider := "ollama";
             description := "Ollama " ++ to_string n ++ " (ローカル)" |}
          :: ollama_entries rest
      | Throw _ => []
      end
  end.

(** What the [try] of the route adds for the answer of [/api/tags];
    [tags] is [response.data], or the failure of the request. *)
Definition ollama_models (tags : Result JsVal) : list Entry :=
  match tags with
  | Ok data =>
      if Val.truthy data then
        match Val.get_opt data "models" with
        | VArr models => ollama_entries models
        | _ => []
        end
      else []
  | Throw _ => []
  end.

(** [GET /api/models]: the [models] of the answer. *)
Definition models (P : t) (tags : Result JsVal) : list Entry :=
  ((if set (GEMINI_API_KEY P)
    then [ {| name := VStr "gemini-1.5-pro"; provider := "gemini";
              description := "Google Gemini 1.5 Pro" |};
           {| name := VStr "gemini-1.5-flash"; provider := "gemini";
              description := "Google Gemini 1.5 Flash" |} ]
    else [])
   ++ (if set (OPENAI_API_KEY P)
       then [ {| name := VStr "gpt-3.5-turbo"; provider := "openai";
                 description := "GPT-3.5 Turbo" |};
              {| name := VStr "gpt-4"; provider := "openai";
                 description := "GPT-4" |};
              {| name := VStr "gpt-4-turbo"; provider := "openai";
                 description := "GPT-4 Turbo (高速版)" |};
              {| name := VStr "gpt-4o"; provider := "openai";
                 description := "GPT-4o (最新・高速)" |};
              {| name := VStr "gpt-4o-mini"; provider := "openai";
                 description := "GPT-4o Mini (軽量版)" |} ]
       else [])
   ++ ollama_models tags)%list.

End Proc.

(** ** The Cloudflare worker

    The worker in its later version, with the date information and the
    research mode.  No operation of the worker
    depends on how a character is encoded (its strings are concatenated,
    compared and searched for literals), so a [string] stands here for the
    text in UTF-8, Japanese text included. *)

Module Api.

(** The bindings of the worker. *)
Record Bindings : Type := {
  SEARCH_API_KEY : option string;
  SEARCH_ENGINE_ID : option string;
  GEMINI_API_KEY : option string;
  OPENAI_API_KEY : option string
}.

(** What [fetch] resolves to for the OpenAI request. *)
Record Reply : Type := {
  ok : bool;
  status : nat;
  statusText : string;
  json : Result JsVal                 (* [response.json()] *)
}.

(** The network: the search request with [response.json()], which throw
    or give the data; the Gemini request; the OpenAI request, which throws
    when the connection fails. *)
Record Net : Type := {
  search : string -> Result JsVal;
  gemini : string -> string -> Worker.Response;
  openai : string -> string -> Result Reply
}.

(** A request that left the worker. *)
Inductive Call : Type :=
| SearchCall (query : string)
| GeminiCall (apiModel text : string)
| OpenAICall (model message : string).

Definition set (v : option string) : bool :=
  match v with Some s => Js.truthy_str s | None => false end.

(** [keywords.some(keyword => message.includes(keyword))] *)
Definition some_included (keywords : list string) (message : string) : bool :=
  existsb (Js.includes message) keywords.

(** [shouldSearch] *)
Definition shouldSearch (message : string) : bool :=
  some_included
    ["今日"; "本日"; "現在"; "最新"; "ニュース";
     "何時"; "何日"; "何月"; "何年"; "いつ";
     "株価"; "為替"; "天気"; "気温";
     "について教えて"; "とは何"; "どういう意味"] message.

(** [isDateQuery] *)
Definition isDateQuery (message : string) : bool :=
  some_included ["今日"; "本日"; "日付"; "何日"; "何月"; "何年"] message.

(** The fields of [jstTime] that [getCurrentDateInfo] reads:
    [getFullYear()], [getMonth()], [getDate()] and [getDay()]. *)
Record Jst : Type := { fullYear : nat; monthIndex : nat; dayOfMonth : nat; dayOfWeek : nat }.

Record DateInfo : Type := {
  year : nat; month : nat; date : nat; dayName : string;
  formatted : string; wareki : string; fullFormatted : string; iso : string
}.

(** [String(n).padStart(2, '0')] *)
Definition padStart2 (n : nat) : string :=
  let s := Js.of_nat n in
  match String.length s with
  | 0 => "00" ++ s
  | 1 => "0" ++ s
  | _ => s
  end.

Definition dayNames : list string :=
  ["日曜日"; "月曜日"; "火曜日"; "水曜日"; "木曜日"; "金曜日"; "土曜日"].

(** [getCurrentDateInfo], from the time in Japan. *)
Definition getCurrentDateInfo (jst : Jst) : DateInfo :=
  let year := fullYear jst in
  let month := monthIndex jst + 1 in
  let date := dayOfMonth jst in
  let dayName := nth (dayOfWeek jst) dayNames "undefined" in
  let reiwaYear := (Z.of_nat year - 2018)%Z in
  let wareki := "令和" ++ to_string (VNum reiwaYear) ++ "年" in
  {| year := year; month := month; date := date; dayName := dayName;
     formatted := Js.of_nat year ++ "年" ++ Js.of_nat month ++ "月"
                  ++ Js.of_nat date ++ "日（" ++ dayName ++ "）";
     wareki := wareki;
     fullFormatted := wareki ++ "（" ++ Js.of_nat year ++ "年）"
                      ++ Js.of_nat month ++ "月" ++ Js.of_nat date
                      ++ "日（" ++ dayName ++ "）";
     iso := Js.of_nat year ++ "-" ++ padStart2 month ++ "-" ++ padStart2 date |}.

(** One round of [data.items.map]: the text of the item of index [i]. *)
Definition item_text (i : nat) (item : JsVal) : Result string :=
  match Val.get item "title", Val.get item "snippet", Val.get item "link" with
  | Ok title, Ok snippet, Ok link =>
      Ok (Js.of_nat (i + 1) ++ ". " ++ to_string title ++ LF
          ++ to_string snippet ++ LF ++ "出典: " ++ to_string link)
  | Throw e, _, _ | _, Throw e, _ | _, _, Throw e => Throw e
  end.

Fixpoint items_text (i : nat) (items : list JsVal) : Result (list string) :=
  match items with
  | [] => Ok []
  | item :: rest =>
      match item_text i item with
      | Ok t =>
          match items_text (S i) rest with
          | Ok ts => Ok (t :: ts)
          | Throw e => Throw e
          end
      | Throw e => Throw e
      end
  end.

(** [x.length === 0] *)
Definition length_is_zero (v : JsVal) : bool :=
  match v with
  | VArr [] => true
  | VStr EmptyString => true
  | VObj fs => match Val.lookup "length" fs with VNum 0 => true | _ => false end
  | _ => false
  end.

(** The body of the [try] of [searchWeb], after the request. *)
Definition search_text (data : JsVal) : Result string :=
  match Val.get data "items" with
  | Ok items =>
      if negb (Val.truthy items) || length_is_zero items then Ok EmptyString
      else
        match items with
        | VArr l =>
            match items_text 0 l with
            | Ok ts => Ok (String.concat (LF ++ LF) ts)
            | Throw e => Throw e
            end
        | _ => Throw "data.items.map is not a function"
        end
  | Throw e => Throw e
  end.

(** [searchWeb]: the text found, and the requests made. *)
Definition searchWeb (env : Bindings) (net : Net) (query : string)
  : string * list Call :=
  if negb (set (SEARCH_API_KEY env)) || negb (set (SEARCH_ENGINE_ID env))
  then (EmptyString, [])
  else
    (match search net query with
     | Ok data =>
         match search_text data with
         | Ok t => t
         | Throw _ => EmptyString
         end
     | Throw _ => EmptyString
     end,
     [SearchCall query]).

Definition missing_key : string :=
  "OpenAI APIキーが設定されていません。環境変数OPENAI_API_KEYを設定してください。".
Definition invalid_key : string :=
  "OpenAI APIキーが無効です。正しいAPIキーを設定してください。".
Definition over_quota : string :=
  "OpenAI APIの使用量制限に達しました。しばらく待ってから再試行してください。".
Definition no_choice : string := "OpenAI APIから応答が返されませんでした".
Definition no_connection : string :=
  "OpenAI APIへの接続に失敗しました。ネットワーク接続を確認してください。".

(** [errorData.error?.message || fallback], as a text *)
Definition error_message (errorData : JsVal) (fallback : string)
  : Result string :=
  match Val.get errorData "error" with
  | Ok err => Ok (to_string (Val.or (Val.get_opt err "message") (VStr fallback)))
  | Throw e => Throw e
  end.

(** The body of the [try] of [callOpenAI], after the request. *)
Definition openai_reply (response : Reply) : Result JsVal :=
  if negb (ok response) then
    match json response with
    | Ok errorData =>
        if status response =? 401 then Throw invalid_key
        else if status response =? 429 then Throw over_quota
        else if status response =? 400 then
          match error_message errorData "不正なリクエストです" with
          | Ok m => Throw ("OpenAI APIリクエストエラー: " ++ m)
          | Throw e => Throw e
          end
        else
          match error_message errorData (statusText response) with
          | Ok m =>
              Throw ("OpenAI API error (" ++ Js.of_nat (status response)
                     ++ "): " ++ m)
          | Throw e => Throw e
          end
    | Throw e => Throw e
    end
  else
    match json response with
    | Ok data =>
        match Val.get data "choices" with
        | Ok choices =>
            if negb (Val.truthy choices) || length_is_zero choices
            then Throw no_choice
            else
              match Val.index0 choices with
              | Ok first =>
                  Ok (Val.or (Val.get_opt (Val.get_opt first "message") "content")
                             (VStr "エラー: 応答がありません"))
              | Throw e => Throw e
              end
        | Throw e => Throw e
        end
    | Throw e => Throw e
    end.

(** The [catch] of [callOpenAI]. *)
Definition openai_catch (r : Result JsVal) : Result JsVal :=
  match r with
  | Ok v => Ok v
  | Throw e => if Js.includes e "fetch" then Throw no_connection else Throw e
  end.

(** [callOpenAI]: what it returns or throws, and the requests made. *)
Definition callOpenAI (env : Bindings) (net : Net) (message model : string)
  : Result JsVal * list Call :=
  if negb (set (OPENAI_API_KEY env)) then (Throw missing_key, [])
  else
    (openai_catch
       (match openai net model message with
        | Ok response => openai_reply response
        | Throw e => Throw e
        end),
     [OpenAICall model message]).

(** The body of a chat request, its message and its model being strings. *)
Record ChatBody : Type := {
  message : string;
  model : option string;             (* [None]: the default model *)
  usePersonality : bool;
  useResearch : bool
}.

(** The message that is sent on, and the requests made for it. *)
Definition enhance (env : Bindings) (net : Net) (jst : Jst) (b : ChatBody)
  : string * list Call :=
  if isDateQuery (message b) then
    let dateInfo := getCurrentDateInfo jst in
    (message b ++ LF ++ LF ++ "現在の日付情報：今日は" ++ fullFormatted dateInfo
     ++ "です。西暦" ++ Js.of_nat (year dateInfo) ++ "年、" ++ wareki dateInfo
     ++ "です。この情報を使って正確に回答してください。", [])
  else if useResearch b || shouldSearch (message b) then
    let (searchResults, calls) := searchWeb env net (message b) in
    (if Js.truthy_str searchResults
     then message b ++ LF ++ LF ++ "関連情報：" ++ LF ++ searchResults
          ++ LF ++ LF ++ "上記の情報を参考に回答してください。"
     else message b,
     calls)
  else (message b, []).

Definition unsupported : string := "サポートされていないモデルです".

(** The provider that the chat route of the worker picks. *)
Definition route (model : string) : option Handler :=
  if Js.startsWith model "gemini" then Some HGemini
  else if Js.startsWith model "gpt" then Some HOpenAI
  else None.

(** The chat route, from the body on: the answer or what is thrown, the
    requests made, and the draws made. *)
Definition chat (env : Bindings) (net : Net) (jst : Jst) (b : ChatBody)
  : Rand (Result JsVal * list Call) :=
  fun draws n =>
    let model := match model b with Some m => m | None => "gemini-2.0-flash-exp" end in
    let (enhancedMessage, calls) := enhance env net jst b in
    match route model with
    | Some HGemini =>
        let '(sent, r, n') :=
          Worker.callGemini (gemini net) enhancedMessage model
            (usePersonality b) draws n in
        ((r, calls ++ [GeminiCall (Worker.apiModel model) sent])%list, n')
    | Some HOpenAI =>
        let (r, calls') := callOpenAI env net enhancedMessage model in
        ((r, calls ++ calls')%list, n)
    | _ => ((Throw unsupported, calls), n)
    end.

(** What the worker answers. *)
Inductive Content : Type :=
| CNull
| CText (text : string)
| CJson (v : JsVal).

Record Response : Type := {
  code : nat;
  headers : list (string * string);
  content : Content
}.

Record Request : Type := {
  method : string;
  pathname : string;
  body : Result ChatBody             (* [request.json()] *)
}.

Definition corsHeaders : list (string * string) :=
  [("Access-Control-Allow-Origin", "*");
   ("Access-Control-Allow-Methods", "GET, POST, OPTIONS");
   ("Access-Control-Allow-Headers", "Content-Type")].

Definition jsonHeaders : list (string * string) :=
  (corsHeaders ++ [("Content-Type", "application/json")])%list.

Definition listed : list (string * string) :=
  [("gemini-2.5-flash", "Gemini 2.5 Flash (最新・高速)");
   ("gemini-2.5-pro", "Gemini 2.5 Pro (最新・高性能)");
   ("gemini-2.0-flash-exp", "Gemini 2.0 Flash (実験版)");
   ("gemini-1.5-flash-latest", "Gemini 1.5 Flash");
   ("gemini-1.5-pro-latest", "Gemini 1.5 Pro");
   ("gpt-4o", "GPT-4 Omni (最新)");
   ("gpt-4o-mini", "GPT-4 Omni Mini");
   ("gpt-4-turbo", "GPT-4 Turbo");
   ("gpt-4", "GPT-4");
   ("gpt-3.5-turbo", "GPT-3.5 Turbo")].

(** [error.message || '...'] *)
Definition shown_error (e : string) : string :=
  if Js.truthy_str e then e else "エラーが発生しました".

Definition failure (e : string) : Response :=
  {| code := 500; headers := jsonHeaders;
     content := CJson (VObj [("error", VStr (shown_error e))]) |}.

(** [fetch]: the answer, the requests made and the draws made. *)
Definition fetch (env : Bindings) (net : Net) (jst : Jst) (request : Request)
  : Rand (Response * list Call) :=
  fun draws n =>
    if String.eqb (method request) "OPTIONS" then
      (({| code := 200; headers := corsHeaders; content := CNull |}, []), n)
    else if String.eqb (pathname request) "/api/health" then
      (({| code := 200; headers := jsonHeaders;
           content := CJson (VObj [("status", VStr "ok")]) |}, []), n)
    else if String.eqb (pathname request) "/api/models" then
      (({| code := 200; headers := jsonHeaders;
           content :=
             CJson (VObj [("models",
                           VArr (map (fun m =>
                                        VObj [("name", VStr (fst m));
                                              ("title", VStr (snd m))])
                                     listed))]) |}, []), n)
    else if String.eqb (pathname request) "/api/chat"
            && String.eqb (method request) "POST" then
      match body request with
      | Ok b =>
          let '(r, calls, n') := chat env net jst b draws n in
          ((match r with
            | Ok response =>
                {| code := 200; headers := jsonHeaders;
                   content := CJson (VObj [("response", response)]) |}
            | Throw e => failure e
            end, calls), n')
      | Throw e => ((failure e, []), n)
      end
    else
      (({| code := 404; headers := corsHeaders; content := CText "Not Found" |},
        []), n).

End Api.

(** ** The origin check of the CORS options *)

Module Cors.

Definition allowedOrigins : list string :=
  ["http://localhost:8080"; "http://localhost:3000";
   "http://192.168.6.26:8080"; "https://ai-chat-frontend-9g0.pages.dev"].

Definition is_alnum (a : ascii) : bool :=
  let n := nat_of_ascii a in
  ((48 <=? n) && (n <=? 57)) || ((65 <=? n) && (n <=? 90))
  || ((97 <=? n) && (n <=? 122)).

(** [[a-zA-Z0-9-]] *)
Definition is_label (a : ascii) : bool := is_alnum a || Ascii.eqb a "-"%char.

(** The longest start of [s] made of characters of the class, and what
    follows it. *)
Fixpoint span (p : ascii -> bool) (s : string) : string * string :=
  match s with
  | String a s' =>
      if p a then let (run, rest) := span p s' in (String a run, rest)
      else (EmptyString, s)
  | EmptyString => (EmptyString, EmptyString)
  end.

(** [/^https:\/\/[a-zA-Z0-9-]+\.ai-chat-frontend-[a-zA-Z0-9]+\.pages\.dev$/.test(origin)]:
    no character of a class is the dot that follows it, so each class
    matches the longest run. *)
Definition preview (origin : string) : bool :=
  if Js.startsWith origin "https://" then
    let (label, rest) := span is_label (Js.slice_from 8 origin) in
    Js.truthy_str label
    && Js.startsWith rest ".ai-chat-frontend-"
    && (let (id, tail) := span is_alnum (Js.slice_from 18 rest) in
        Js.truthy_str id && String.eqb tail ".pages.dev")
  else false.

(** What [origin(origin, callback)] does: the second argument of the
    call of [callback] (the first one is always [null]), and what it
    writes on the console. *)
Record Outcome : Type := { allow : bool; blocked_log : option string }.

Definition origin (o : option string) : Outcome :=
  match o with
  | None => {| allow := true; blocked_log := None |}
  | Some s =>
      if negb (Js.truthy_str s) then {| allow := true; blocked_log := None |}
      else if existsb (String.eqb s) allowedOrigins || preview s
      then {| allow := true; blocked_log := None |}
      else {| allow := true; blocked_log := Some s |}
  end.

End Cors.

Module Edge.

(** A worker with every binding set, a search that finds two pages, a
    Gemini that answers, an OpenAI that refuses the key. *)
Definition bindings : Api.Bindings :=
  {| Api.SEARCH_API_KEY := Some "search-key";
     Api.SEARCH_ENGINE_ID := Some "engine";
     Api.GEMINI_API_KEY := Some "AIza-key";
     Api.OPENAI_API_KEY := Some "sk-bad" |}.

Definition page (title snippet link : string) : JsVal :=
  VObj [("title", VStr title); ("snippet", VStr snippet); ("link", VStr link)].

Definition net : Api.Net :=
  {| Api.search := fun _ =>
       Ok (VObj [("items",
                  VArr [page "Rocq" "A proof assistant" "https://rocq-prover.org";
                        page "Node" "A runtime" "https://nodejs.org"])]);
     Api.gemini := Demo.worker_fetch "Hello";
     Api.openai := fun _ _ =>
       Ok {| Api.ok := false; Api.status := 401;
             Api.statusText := "Unauthorized";
             Api.json := Ok (VObj [("error",
                                    VObj [("message", VStr "Incorrect API key")])]) |} |}.

(** A Tuesday in Japan. *)
Definition jst : Api.Jst :=
  {| Api.fullYear := 2025; Api.monthIndex := 0; Api.dayOfMonth := 7;
     Api.dayOfWeek := 2 |}.

End Edge.

(** ** The knowledge routes of the administration page *)

Module Admin.

(** What [res.json] is given, with the status set before it. *)
Record Answer : Type := { status : nat; json : JsVal }.

(** The collaborators of the two routes: [fs.writeFile] on the path of
    the file in the knowledge folder, [getStatistics] of the loader, and
    the object that a document is. *)
Record Disk : Type := {
  writeFile : string -> string -> Result unit;
  getStatistics : list Doc -> Result JsVal;
  fields : Doc -> JsVal
}.

(** The callback of [knowledgeLoader.documents.map]. *)
Definition entry (F : Disk) (doc : Doc) : Result JsVal :=
  let d := fields F doc in
  match Val.get d "id", Val.get d "title", Val.get d "type",
        Val.get d "size", Val.get d "content" with
  | Ok id, Ok title, Ok type, Ok size, Ok content =>
      match content with
      | VStr c =>
          Ok (VObj [("id", id); ("title", title); ("type", type);
                    ("size", size);
                    ("preview", VStr (Js.substring0 100 c ++ "..."))])
      | VUndefined | VNull => Throw "Cannot read properties"
      | _ => Throw "doc.content.substring is not a function"
      end
  | Throw e, _, _, _, _ | _, Throw e, _, _, _ | _, _, Throw e, _, _
  | _, _, _, Throw e, _ | _, _, _, _, Throw e => Throw e
  end.

Fixpoint entries (F : Disk) (docs : list Doc) : Result (list JsVal) :=
  match docs with
  | [] => Ok []
  | doc :: rest =>
      match entry F doc with
      | Ok e =>
          match entries F rest with
          | Ok es => Ok (e :: es)
          | Throw err => Throw err
          end
      | Throw err => Throw err
      end
  end.

Definition no_documents : Answer :=
  {| status := 200;
     json := VObj [("documents", VArr []);
                   ("statistics", VObj [("totalDocuments", VNum 0);
                                        ("totalSize", VNum 0)])] |}.

(** [GET /api/knowledge].  The route has no [try]: what is thrown leaves
    the request without an answer. *)
Definition knowledge (E : Env) (F : Disk) : M Answer :=
  loader <- get_knowledgeLoader ;;
  match loader with
  | None => ret no_documents
  | Some docs0 =>
      docs <-
        match docs0 with
        | [] =>
            kb_call KbLoadDocuments ;;;
            loaded <- lift (kb_loadDocuments E) ;;
            set_knowledgeLoader (Some loaded) ;;;
            ret loaded
        | _ => ret docs0
        end ;;
      stats <- lift (getStatistics F docs) ;;
      documents <- lift (entries F docs) ;;
      ret {| status := 200;
             json := VObj [("documents", VArr documents);
                           ("statistics", stats)] |}
  end.

Definition given (v : option string) : bool :=
  match v with Some s => Js.truthy_str s | None => false end.

Definition fields_needed : Answer :=
  {| status := 400;
     json := VObj [("error", VStr "ファイル名と内容が必要です")] |}.

Definition upload_failed : Answer :=
  {| status := 500;
     json := VObj [("error", VStr "アップロードに失敗しました")] |}.

Definition uploaded (filename : string) (total : nat) : Answer :=
  {| status := 200;
     json := VObj [("success", VBool true);
                   ("message", VStr (filename ++ "を追加しました"));
                   ("totalDocuments", VNum (Z.of_nat total))] |}.

(** [POST /api/knowledge/upload]: the answer, and the files written, by
    name and content. *)
Definition upload (E : Env) (F : Disk) (filename content : option string)
  : M (Answer * list (string * string)) :=
  match filename, content with
  | Some f, Some c =>
      if negb (Js.truthy_str f) || negb (Js.truthy_str c)
      then ret (fields_needed, [])
      else
        match writeFile F f c with
        | Ok _ =>
            try_catch
              (loader <- get_knowledgeLoader ;;
               match loader with
               | None => throw "Cannot read properties of null"
               | Some _ =>
                   kb_call KbLoadDocuments ;;;
                   loaded <- lift (kb_loadDocuments E) ;;
                   set_knowledgeLoader (Some loaded) ;;;
                   ret (uploaded f (length loaded), [(f, c)])
               end)
              (fun _ =>
                 console_error "Upload error:" ;;;
                 ret (upload_failed, [(f, c)]))
        | Throw _ =>
            console_error "Upload error:" ;;;
            ret (upload_failed, [])
        end
  | _, _ => ret (fields_needed, [])
  end.

(** A request to one of the two routes. *)
Inductive Req : Type :=
| Listing
| Upload (filename content : option string).

Definition handle (E : Env) (F : Disk) (r : Req)
  : M (Answer * list (string * string)) :=
  match r with
  | Listing => a <- knowledge E F ;; ret (a, [])
  | Upload filename content => upload E F filename content
  end.

(** Requests served one after the other by a process that goes on. *)
Fixpoint serve (E : Env) (F : Disk) (rs : list Req) (w : World)
  : list (Result (Answer * list (string * string))) * World :=
  match rs with
  | [] => ([], w)
  | r :: rest =>
      let (a, w1) := handle E F r w in
      let (l, w2) := serve E F rest w1 in
      (a :: l, w2)
  end.

(** What a request is answered while there is no loader. *)
Definition unloaded_answer (F : Disk) (r : Req)
    (a : Result (Answer * list (string * string))) : Prop :=
  match r with
  | Listing => a = Ok (no_documents, [])
  | Upload filename content =>
      match filename, content with
      | Some f, Some c =>
          if Js.truthy_str f && Js.truthy_str c then
            a = Ok (upload_failed,
                    match writeFile F f c with
                    | Ok _ => [(f, c)]
                    | Throw _ => []
                    end)
          else a = Ok (fields_needed, [])
      | _, _ => a = Ok (fields_needed, [])
      end
  end.

End Admin.

Module Shelf.

(** A disk that takes every file. *)
Definition disk : Admin.Disk :=
  {| Admin.writeFile := fun _ _ => Ok tt;
     Admin.getStatistics := fun docs =>
       Ok (VObj [("totalDocuments", VNum (Z.of_nat (length docs)))]);
     Admin.fields := fun doc =>
       VObj [("id", VStr doc); ("title", VStr doc); ("content", VStr doc)] |}.

(** A turn with the knowledge flag. *)
Definition turn : Body :=
  Demo.with_useKnowledge true (Demo.body "hello" "llama3").

End Shelf.

(** ** The helpers of the minutes

    The helpers cut the texts of a meeting by the position, so a text is
    here the list of its UTF-16 code units. *)

Module Meeting.

Definition Text : Type := list N.

(** The code units of a code point. *)
Definition units (cp : N) : Text :=
  if (cp <? 65536)%N then [cp]
  else [(55296 + (cp - 65536) / 1024)%N; (56320 + (cp - 65536) mod 1024)%N].

(** The code units of a literal of the source, which this file holds in
    UTF-8: [acc] is the code point so far and [need] the number of bytes
    that it still takes. *)
Fixpoint utf16_from (acc : N) (need : nat) (s : string) : Text :=
  match s with
  | EmptyString => []
  | String c rest =>
      let b := N_of_ascii c in
      match need with
      | 0 =>
          if (b <? 128)%N then b :: utf16_from 0 0 rest
          else if (b <? 224)%N then utf16_from (b - 192) 1 rest
          else if (b <? 240)%N then utf16_from (b - 224) 2 rest
          else utf16_from (b - 240) 3 rest
      | S k =>
          let acc' := (acc * 64 + (b - 128))%N in
          match k with
          | 0 => (units acc' ++ utf16_from 0 0 rest)%list
          | _ => utf16_from acc' k rest
          end
      end
  end.

Definition utf16 (s : string) : Text := utf16_from 0 0 s.

Fixpoint starts (p s : Text) : bool :=
  match p, s with
  | [], _ => true
  | _ :: _, [] => false
  | x :: p', y :: s' => (x =? y)%N && starts p' s'
  end.

(** [s.includes(p)] *)
Fixpoint includes (s p : Text) : bool :=
  starts p s || match s with [] => false | _ :: s' => includes s' p end.

(** [s.substring(0, n)] *)
Definition substring0 (n : nat) (s : Text) : Text := firstn n s.

(** [l.join(sep)] *)
Fixpoint join (sep : Text) (l : list Text) : Text :=
  match l with
  | [] => []
  | [x] => x
  | x :: rest => (x ++ sep ++ join sep rest)%list
  end.

(** An element of [transcripts], its two fields being strings. *)
Record Transcript : Type := { speaker : Text; text : Text }.

(** [transcripts.forEach(t => { if (cond) { acc.push(item) } })] *)
Definition collect {A} (cond : Transcript -> bool) (item : Transcript -> A)
    (transcripts : list Transcript) : list A :=
  fold_left (fun acc t => if cond t then (acc ++ [item t])%list else acc)
    transcripts [].

Definition agenda_line (t : Transcript) : bool :=
  includes (text t) (utf16 "議題") || includes (text t) (utf16 "について").

(** [extractAgenda] *)
Definition extractAgenda (transcripts : list Transcript) : list Text :=
  let agenda := collect agenda_line (fun t => substring0 50 (text t)) transcripts in
  if 0 <? length agenda then agenda else [utf16 "本日の議題"].

(** [summarizeDiscussion] *)
Definition summarizeDiscussion (transcripts : list Transcript) : Text :=
  let summary :=
    join (utf16 LF)
      (map (fun t => (speaker t ++ utf16 ": " ++ text t)%list)
         (firstn 5 transcripts)) in
  match summary with
  | [] => utf16 "議論内容の要約"
  | _ => summary
  end.

Definition decision_line (t : Transcript) : bool :=
  includes (text t) (utf16 "決定") || includes (text t) (utf16 "承認")
  || includes (text t) (utf16 "合意").

(** [extractDecisions] *)
Definition extractDecisions (transcripts : list Transcript) : list Text :=
  let decisions := collect decision_line text transcripts in
  if 0 <? length decisions then decisions else [utf16 "決定事項を確認中"].

Record ActionItem : Type := { task : Text; assignee : Text; deadline : Text }.

Definition action_line (t : Transcript) : bool :=
  includes (text t) (utf16 "お願い") || includes (text t) (utf16 "タスク")
  || includes (text t) (utf16 "TODO").

(** [extractActionItems] *)
Definition extractActionItems (transcripts : list Transcript)
  : list ActionItem :=
  let actions :=
    collect action_line
      (fun t => {| task := substring0 50 (text t); assignee := speaker t;
                   deadline := utf16 "未定" |})
      transcripts in
  if 0 <? length actions then actions
  else [{| task := utf16 "アクションアイテムなし"; assignee := utf16 "-";
           deadline := utf16 "-" |}].

(** *** The route that writes the minutes *)

Module Info.
(** [meetingInfo]; [None] is a field that is undefined. *)
Record t : Type := {
  title : option Text;
  dateTime : option Text;
  participants : option (list Text)
}.
End Info.

Record Minutes : Type := {
  title : Text;
  dateTime : Text;
  participants : list Text;
  agenda : list Text;
  discussion : Text;
  decisions : list Text;
  actionItems : list ActionItem;
  nextMeeting : Text
}.

(** The collaborators of the route: [generateContent] of the model
    gemini-1.5-pro with [response.text()], the reading of the minutes in
    the text of the model by [parseMinutesFromAI], which matches regular
    expressions and is not embedded here, and
    [new Date().toISOString()]. *)
Record Writer : Type := {
  generateContent : Text -> Result Text;
  parseMinutesFromAI : Text -> Info.t -> Minutes;
  now : Text
}.

(** [`${v}`] *)
Definition interp (v : option Text) : Text :=
  match v with Some s => s | None => utf16 "undefined" end.

(** [v || d] *)
Definition or_else (v : option Text) (d : Text) : Text :=
  match v with
  | Some (c :: s) => c :: s
  | _ => d
  end.

(** The prompt, up to the last transcript. *)
Definition prompt (meetingInfo : option Info.t)
    (transcripts : option (list Transcript)) : Result Text :=
  match meetingInfo with
  | None => Throw "Cannot read properties of undefined"
  | Some info =>
      match Info.participants info with
      | None => Throw "Cannot read properties of undefined"
      | Some ps =>
          match transcripts with
          | None => Throw "Cannot read properties of undefined"
          | Some ts =>
              Ok (fold_left
                    (fun prompt t =>
                       (prompt ++ speaker t ++ utf16 ": " ++ text t
                        ++ utf16 LF)%list)
                    ts
                    (utf16 ("以下の会議の文字起こしから議事録を作成してください。"
                            ++ LF ++ LF)
                     ++ utf16 "会議名: " ++ interp (Info.title info) ++ utf16 LF
                     ++ utf16 "日時: " ++ interp (Info.dateTime info) ++ utf16 LF
                     ++ utf16 "参加者: " ++ join (utf16 ", ") ps
                     ++ utf16 (LF ++ LF)
                     ++ utf16 ("文字起こし:" ++ LF))%list)
          end
      end
  end.

(** The minutes made without the model. *)
Definition fallback (G : Writer) (info : Info.t) (ts : list Transcript)
  : Minutes :=
  {| title := or_else (Info.title info) (utf16 "会議議事録");
     dateTime := or_else (Info.dateTime info) (now G);
     participants := match Info.participants info with
                     | Some ps => ps
                     | None => []
                     end;
     agenda := extractAgenda ts;
     discussion := summarizeDiscussion ts;
     decisions := extractDecisions ts;
     actionItems := extractActionItems ts;
     nextMeeting := utf16 "次回日程は別途調整" |}.

(** What the route answers: the minutes with the status 200, or the
    status 500. *)
Inductive Outcome : Type :=
| Written (minutes : Minutes)
| Failed.



End Meeting.

Module Minutes.

(** A meeting of three lines. *)
Definition opening : Meeting.Transcript :=
  {| Meeting.speaker := Meeting.utf16 "佐藤";
     Meeting.text := Meeting.utf16 "本日の議題は予算です" |}.

Definition replies : list Meeting.Transcript :=
  [ {| Meeting.speaker := Meeting.utf16 "鈴木";
       Meeting.text := Meeting.utf16 "予算案を承認します" |};
    {| Meeting.speaker := Meeting.utf16 "佐藤";
       Meeting.text := Meeting.utf16 "資料の送付をお願いします" |} ].

Definition lines : list Meeting.Transcript := opening :: replies.

(** The meeting, and a model that fails. *)
Definition info : Meeting.Info.t :=
  {| Meeting.Info.title := Some (Meeting.utf16 "定例会");
     Meeting.Info.dateTime := None;
     Meeting.Info.participants :=
       Some [Meeting.utf16 "佐藤"; Meeting.utf16 "鈴木"] |}.


End Minutes.

(** ** The keywords of the research manager *)

Module Research.

(** [\s] on a code unit *)
Definition is_space (c : N) : bool :=
  ((9 <=? c) && (c <=? 13) || (c =? 32) || (c =? 160) || (c =? 5760)
   || (8192 <=? c) && (c <=? 8202) || (c =? 8232) || (c =? 8233)
   || (c =? 8239) || (c =? 8287) || (c =? 12288) || (c =? 65279))%N.

(** The ideographic comma and the ideographic full stop. *)
Definition is_mark (c : N) : bool := ((c =? 12289) || (c =? 12290))%N.

(** [message.split(/\s+|、|。/)]: [cur] is the piece that is being read,
    and [in_space] says that the last code unit belongs to a run of white
    space, which a further white space carries on. *)
Fixpoint split_from (cur : Meeting.Text) (in_space : bool) (s : Meeting.Text)
  : list Meeting.Text :=
  match s with
  | [] => [cur]
  | c :: rest =>
      if is_space c then
        if in_space then split_from [] true rest
        else cur :: split_from [] true rest
      else if is_mark c then cur :: split_from [] false rest
      else split_from (cur ++ [c])%list false rest
  end.

Definition split (message : Meeting.Text) : list Meeting.Text :=
  split_from [] false message.

Definition text_eqb (a b : Meeting.Text) : bool :=
  (length a =? length b) && Meeting.starts a b.

Definition stopWords : list Meeting.Text :=
  map Meeting.utf16
    ["について"; "の"; "は"; "が"; "を"; "に"; "で"; "と"; "から"; "まで";
     "より"; "けど"; "だけど"; "でも"; "しかし"; "最新"; "情報"; "教えて";
     "調べて"; "検索"].

(** [extractKeywords] *)
Definition extractKeywords (message : Meeting.Text) : list Meeting.Text :=
  let words :=
    filter (fun word => (1 <? length word)
                        && negb (existsb (text_eqb word) stopWords))
      (split message) in
  firstn 3 words.

End Research.

(** * Properties *)

(** ** Which part of the state a computation leaves alone *)

Section Keeps.

Context {T : Type} (f : World -> T).

(** [m] does not change the component [f] of the state. *)
Definition keeps {A} (m : M A) : Prop := forall w, f (snd (m w)) = f w.

Lemma keeps_ret {A} (a : A) : keeps (ret a).
Proof. intro w. reflexivity. Qed.

Lemma keeps_throw {A} e : keeps (@throw A e).
Proof. intro w. reflexivity. Qed.

Lemma keeps_lift {A} (r : Result A) : keeps (lift r).
Proof. intro w. reflexivity. Qed.

Lemma keeps_bind {A B} (m : M A) (k : A -> M B) :
  keeps m -> (forall a, keeps (k a)) -> keeps (bind m k).
Proof.
  intros Hm Hk w. unfold bind. specialize (Hm w).
  destruct (m w) as [[a|e] w']; simpl in *.
  - rewrite Hk. exact Hm.
  - exact Hm.
Qed.

Lemma keeps_try {A} (m : M A) (h : string -> M A) :
  keeps m -> (forall e, keeps (h e)) -> keeps (try_catch m h).
Proof.
  intros Hm Hh w. unfold try_catch. specialize (Hm w).
  destruct (m w) as [[a|e] w']; simpl in *.
  - exact Hm.
  - rewrite Hh. exact Hm.
Qed.

Lemma keeps_for_each {A} (l : list A) (g : A -> M unit) :
  (forall a, keeps (g a)) -> keeps (for_each l g).
Proof.
  intro Hg. induction l as [|x l IH]; simpl.
  - apply keeps_ret.
  - apply keeps_bind; [apply Hg | intros _; exact IH].
Qed.

Lemma keeps_if {A} (c : bool) (m1 m2 : M A) :
  keeps m1 -> keeps m2 -> keeps (if c then m1 else m2).
Proof. destruct c; auto. Qed.

End Keeps.

Create HintDb keeps discriminated.

#[local] Hint Resolve keeps_ret keeps_throw keeps_lift keeps_if : keeps.
#[local] Hint Extern 2 (keeps _ (bind _ _)) =>
  apply keeps_bind; [ | intro ] : keeps.
#[local] Hint Extern 2 (keeps _ (try_catch _ _)) =>
  apply keeps_try; [ | intro ] : keeps.
#[local] Hint Extern 2 (keeps _ (for_each _ _)) =>
  apply keeps_for_each; intro : keeps.

(** The components that the primitives leave alone. *)

Lemma console_error_res l : keeps res (console_error l).
Proof. intro w. reflexivity. Qed.
Lemma console_error_backend l : keeps backend (console_error l).
Proof. intro w. reflexivity. Qed.
Lemma console_error_kb l : keeps kbCalls (console_error l).
Proof. intro w. reflexivity. Qed.
Lemma console_error_loader l : keeps knowledgeLoader (console_error l).
Proof. intro w. reflexivity. Qed.

Lemma res_write_backend fr : keeps backend (res_write fr).
Proof. intro w. reflexivity. Qed.
Lemma res_write_kb fr : keeps kbCalls (res_write fr).
Proof. intro w. reflexivity. Qed.
Lemma res_write_loader fr : keeps knowledgeLoader (res_write fr).
Proof. intro w. reflexivity. Qed.

Lemma res_end_backend : keeps backend res_end.
Proof. intro w. reflexivity. Qed.
Lemma res_end_kb : keeps kbCalls res_end.
Proof. intro w. reflexivity. Qed.
Lemma res_end_loader : keeps knowledgeLoader res_end.
Proof. intro w. reflexivity. Qed.

Lemma send_res r : keeps res (send r).
Proof. intro w. reflexivity. Qed.
Lemma send_kb r : keeps kbCalls (send r).
Proof. intro w. reflexivity. Qed.
Lemma send_loader r : keeps knowledgeLoader (send r).
Proof. intro w. reflexivity. Qed.

Lemma kb_call_res c : keeps res (kb_call c).
Proof. intro w. reflexivity. Qed.
Lemma kb_call_backend c : keeps backend (kb_call c).
Proof. intro w. reflexivity. Qed.

Lemma set_loader_res l : keeps res (set_knowledgeLoader l).
Proof. intro w. reflexivity. Qed.
Lemma set_loader_backend l : keeps backend (set_knowledgeLoader l).
Proof. intro w. reflexivity. Qed.

Lemma get_loader_keeps {T} (f : World -> T) : keeps f get_knowledgeLoader.
Proof. intro w. reflexivity. Qed.

Lemma random_res {A} E (g : Rand (Result A)) : keeps res (random E g).
Proof. intro w. unfold random. destruct (g _ _). reflexivity. Qed.
Lemma random_backend {A} E (g : Rand (Result A)) : keeps backend (random E g).
Proof. intro w. unfold random. destruct (g _ _). reflexivity. Qed.
Lemma random_kb {A} E (g : Rand (Result A)) : keeps kbCalls (random E g).
Proof. intro w. unfold random. destruct (g _ _). reflexivity. Qed.
Lemma random_loader {A} E (g : Rand (Result A)) :
  keeps knowledgeLoader (random E g).
Proof. intro w. unfold random. destruct (g _ _). reflexivity. Qed.

#[local] Hint Resolve console_error_res console_error_backend console_error_kb
  console_error_loader res_write_backend res_write_kb res_write_loader
  res_end_backend res_end_kb res_end_loader send_res send_kb send_loader
  kb_call_res kb_call_backend set_loader_res set_loader_backend
  get_loader_keeps random_res random_backend random_kb random_loader : keeps.

Ltac keeps_step :=
  first
    [ apply keeps_ret | apply keeps_throw | apply keeps_lift
    | apply keeps_bind; [ | intro ]
    | apply keeps_try; [ | intro ]
    | apply keeps_for_each; intro
    | solve [ auto with keeps ]
    | match goal with
      | |- keeps _ (match ?x with _ => _ end) => destruct x
      | |- keeps _ (let _ := _ in _) => cbv zeta
      end ].

Ltac keeps_tac := repeat keeps_step.

(** The attachment stage only logs. *)
Lemma process_files_keeps {T} (f : World -> T) E fs ctx :
  (forall l, keeps f (console_error l)) ->
  keeps f (process_files E fs ctx).
Proof.
  intro Hc. revert ctx. induction fs as [|file fs IH]; intro ctx; simpl.
  - apply keeps_ret.
  - apply keeps_bind; [| intro; apply IH].
    unfold process_file, process_pdf, pdf_try. keeps_tac.
Qed.

Lemma attach_keeps {T} (f : World -> T) E fs e :
  (forall l, keeps f (console_error l)) ->
  keeps f (attach E fs e).
Proof.
  intro Hc. unfold attach. destruct fs.
  - apply keeps_ret.
  - apply keeps_bind; [apply process_files_keeps; exact Hc | intro; apply keeps_ret].
Qed.

Lemma retrieve_res E q : keeps res (retrieve E q).
Proof. unfold retrieve. keeps_tac. Qed.

Lemma retrieve_backend E q : keeps backend (retrieve E q).
Proof. unfold retrieve. keeps_tac. Qed.

Lemma augment_res E b : keeps res (augment E b).
Proof.
  unfold augment, add_knowledge.
  apply keeps_bind; [apply attach_keeps; auto with keeps | intro].
  apply keeps_bind; [| intro; apply keeps_ret].
  destruct (useKnowledge b); [| apply keeps_ret].
  apply keeps_bind; [apply retrieve_res | intro]. keeps_tac.
Qed.

Lemma augment_backend E b : keeps backend (augment E b).
Proof.
  unfold augment, add_knowledge.
  apply keeps_bind; [apply attach_keeps; auto with keeps | intro].
  apply keeps_bind; [| intro; apply keeps_ret].
  destruct (useKnowledge b); [| apply keeps_ret].
  apply keeps_bind; [apply retrieve_backend | intro]. keeps_tac.
Qed.

(** The handlers touch a component only through the primitives. *)
Lemma dispatch_keeps {T} (f : World -> T) E b e :
  (forall l, keeps f (console_error l)) ->
  (forall fr, keeps f (res_write fr)) ->
  keeps f res_end ->
  (forall r, keeps f (send r)) ->
  (forall A (g : Rand (Result A)), keeps f (random E g)) ->
  keeps f (dispatch E b e).
Proof.
  intros Hc Hw He Hs Hr.
  unfold dispatch.
  destruct (switch_provider _) as [[| |]|]; [| | | apply keeps_throw].
  - unfold handleGeminiChat. keeps_tac.
  - unfold handleOpenAIChat. keeps_tac.
    unfold openai_on_data. keeps_tac. unfold openai_line, parse_json. keeps_tac.
  - unfold handleOllamaChat, formatPrompt. keeps_tac.
    unfold ollama_on_data. keeps_tac. unfold ollama_line, parse_json. keeps_tac.
Qed.

(** ** The router (C10) *)

Lemma includes_prefix s p : String.prefix p s = true -> Js.includes s p = true.
Proof. intro H. destruct s; simpl in *; rewrite H; reflexivity. Qed.

(** C10.  [getProviderFromModel] sends every model identifier to one of
    the three tags gemini, openai and ollama: gemini when the identifier
    contains gemini, else openai when it starts with gpt, else ollama.  So
    the [switch] of the chat route never takes its default arm: what it
    runs is one of the three handlers, never the throw of Unknown
    provider. *)
Theorem getProviderFromModel_total :
  (forall m : string,
     (getProviderFromModel m = "gemini"
      \/ getProviderFromModel m = "openai"
      \/ getProviderFromModel m = "ollama")
     /\ getProviderFromModel m =
          (if Js.includes m "gemini" then "gemini"
           else if Js.startsWith m "gpt" then "openai" else "ollama")
     /\ switch_provider (getProviderFromModel m) <> None)
  /\ (forall E b e,
        dispatch E b e = handleGeminiChat E e (model b) (history b) (files b)
        \/ dispatch E b e = handleOpenAIChat E e (model b) (history b)
        \/ dispatch E b e = handleOllamaChat E e (model b) (history b)).
Proof.
  assert (Hm : forall m,
             getProviderFromModel m =
               (if Js.includes m "gemini" then "gemini"
                else if Js.startsWith m "gpt" then "openai" else "ollama")).
  { intro m. unfold getProviderFromModel, Js.startsWith.
    destruct (String.prefix "gemini" m) eqn:Hp.
    - rewrite (includes_prefix _ _ Hp). reflexivity.
    - reflexivity. }
  split.
  - intro m. rewrite Hm.
    destruct (Js.includes m "gemini"); [| destruct (Js.startsWith m "gpt")];
      (split; [auto | split; [reflexivity | discriminate]]).
  - intros E b e. unfold dispatch. rewrite Hm.
    destruct (Js.includes (model b) "gemini");
      [| destruct (Js.startsWith (model b) "gpt")]; simpl; auto.
Qed.

(** ** History windows (C2) *)

Lemma slice_last_app {A} (n : nat) (old recent : list A) :
  length recent = n -> slice_last n (old ++ recent) = recent.
Proof.
  intro H. unfold slice_last. rewrite length_app, H.
  replace (length old + n - n) with (length old + 0) by lia.
  rewrite skipn_app, Nat.add_0_r, skipn_all.
  replace (length old - length old) with 0 by lia. reflexivity.
Qed.

(** The transcript of [formatPrompt] is the one of the last six entries. *)
Lemma formatPrompt_window E message old recent w :
  length recent = 6 ->
  forall persona n,
    enhancePrompt (aiyuPersonality E) message (Math_random E) (draws w)
      = (Ok persona, n) ->
    fst (formatPrompt E message (old ++ recent) w)
      = Ok (persona ++ LF ++ LF ++ transcript "User: " "Assistant: " recent
            ++ "User: " ++ message ++ LF ++ "Assistant: ").
Proof.
  intros Hlen persona n Hp.
  unfold formatPrompt, bind, random. rewrite Hp. simpl.
  rewrite (slice_last_app 6 old recent Hlen). reflexivity.
Qed.

(** The message list of [handleOpenAIChat] carries the whole history. *)
Lemma openai_messages_length system message history :
  length (openai_messages system message history) = length history + 2.
Proof.
  unfold openai_messages. simpl. rewrite length_app, length_map. simpl. lia.
Qed.

(** Whatever the length of the history, the request of [handleOpenAIChat]
    carries every entry of it. *)
Lemma handleOpenAIChat_sends_history E message model history w system n :
  key_configured E = true ->
  enhancePrompt (aiyuPersonality E) message (Math_random E) (draws w)
    = (Ok system, n) ->
  backend (snd (handleOpenAIChat E message model history w))
  = (backend w ++ [OpenAIChat model (openai_messages system message history)])%list
  /\ length (openai_messages system message history) = length history + 2
  /\ (forall msg, In msg history ->
        In msg (openai_messages system message history)).
Proof.
  intros Hk Hp. split; [| split; [apply openai_messages_length |]].
  - unfold handleOpenAIChat. rewrite Hk. simpl.
    unfold bind at 1. unfold random. rewrite Hp.
    unfold bind at 1. unfold send at 1.
    match goal with |- backend (snd (?m ?w0)) = _ =>
      assert (Hkeep : keeps backend m)
    end.
    { keeps_tac; unfold openai_on_data; keeps_tac;
      unfold openai_line, parse_json; keeps_tac. }
    rewrite Hkeep. reflexivity.
  - intros msg Hin. unfold openai_messages. right. apply in_or_app. left.
    apply in_map_iff. exists msg. split; [destruct msg; reflexivity | exact Hin].
Qed.

(** C2, at a history of twenty turns.  The Ollama handler sends a prompt
    whose transcript is made of the last six entries, m15 to m20, in their
    order.  The OpenAI handler sends a message list that carries all
    twenty entries between the system message and the current turn:
    twenty-two messages, m1 among them, and not the list made of the last
    ten entries. *)
Theorem history_window_at_twenty :
  backend (snd (chat Demo.base
                  (Demo.with_history Demo.history20 (Demo.body "next" "llama2"))
                  (fresh None 0)))
  = [OllamaGenerate "llama2"
       ("PERSONA" ++ LF ++ LF
        ++ "User: m15" ++ LF ++ "Assistant: m16" ++ LF
        ++ "User: m17" ++ LF ++ "Assistant: m18" ++ LF
        ++ "User: m19" ++ LF ++ "Assistant: m20" ++ LF
        ++ "User: next" ++ LF ++ "Assistant: ")]
  /\ (exists messages,
        backend (snd (chat Demo.base
                        (Demo.with_history Demo.history20 (Demo.body "next" "gpt-4"))
                        (fresh None 0)))
          = [OpenAIChat "gpt-4" messages]
        /\ messages
           = ({| role := "system"; content := "PERSONA" |}
              :: Demo.history20 ++ [{| role := "user"; content := "next" |}])%list
        /\ length messages = 22
        /\ In {| role := "user"; content := "m1" |} messages
        /\ messages
           <> ({| role := "system"; content := "PERSONA" |}
               :: slice_last 10 Demo.history20
               ++ [{| role := "user"; content := "next" |}])%list).
Proof.
  split; [vm_compute; reflexivity |].
  eexists. split; [vm_compute; reflexivity |].
  split; [reflexivity |].
  split; [reflexivity |].
  split; [right; left; reflexivity |].
  intro H. apply (f_equal (@length Msg)) in H. vm_compute in H. discriminate.
Qed.

(** ** A missing OpenAI key (C5) *)

(** What the [catch] of the route does with an error. *)
Lemma chat_unfold E b w :
  chat E b w =
    match augment E b w with
    | (Ok e, w1) =>
        match dispatch E b e w1 with
        | (Ok a, w2) => (Ok a, w2)
        | (Throw err, w2) =>
            (console_error "Error in chat:" ;;;
             res_write (FError err) ;;; res_end) w2
        end
    | (Throw err, w1) =>
        (console_error "Error in chat:" ;;;
         res_write (FError err) ;;; res_end) w1
    end.
Proof.
  unfold chat, try_catch, bind at 1.
  destruct (augment E b w) as [[e|err] w1]; reflexivity.
Qed.

(** C5.  A turn whose model is routed to the OpenAI handler while no
    OpenAI key is configured sends no request to any backend, and writes
    exactly one frame, an error frame, then closes the stream: no content
    frame.  When the augmentation of the message went through, the error
    is the one of the missing key. *)
Theorem openai_without_key :
  forall E b w,
    getProviderFromModel (model b) = "openai" ->
    key_configured E = false ->
    backend (snd (chat E b w)) = backend w
    /\ (exists msg,
          res (snd (chat E b w)) = (res w ++ [Write (FError msg); End])%list
          /\ (forall e w1, augment E b w = (Ok e, w1) ->
                msg = "OpenAI API key not configured"))
    /\ count is_content (res (snd (chat E b w))) = count is_content (res w)
    /\ count is_error (res (snd (chat E b w))) = count is_error (res w) + 1.
Proof.
  intros E b w Hp Hk.
  assert (Hrun : exists msg w1,
             snd (augment E b w) = w1
             /\ snd (chat E b w)
                = snd ((console_error "Error in chat:" ;;;
                        res_write (FError msg) ;;; res_end) w1)
             /\ (forall e w2, augment E b w = (Ok e, w2) ->
                   msg = "OpenAI API key not configured")).
  { rewrite chat_unfold.
    destruct (augment E b w) as [[e|err] w1] eqn:Ha.
    - exists "OpenAI API key not configured", w1.
      split; [reflexivity |]. split; [| auto].
      unfold dispatch. rewrite Hp. simpl. unfold handleOpenAIChat.
      rewrite Hk. reflexivity.
    - exists err, w1. split; [reflexivity |]. split; [reflexivity |].
      intros e w2 H. discriminate H. }
  destruct Hrun as (msg & w1 & Hw1 & Hc & Hm).
  assert (Hr : res (snd (chat E b w)) = (res w ++ [Write (FError msg); End])%list).
  { rewrite Hc. simpl. rewrite <- Hw1, (augment_res E b w), <- app_assoc.
    reflexivity. }
  split.
  - rewrite Hc. simpl. rewrite <- Hw1. apply augment_backend.
  - split; [exists msg; auto |].
    rewrite Hr. unfold count. rewrite !filter_app, !length_app. simpl.
    split; lia.
Qed.

(** A turn of that kind: the model gpt-4 with no key. *)
Lemma openai_without_key_witness :
  getProviderFromModel (model (Demo.body "hello" "gpt-4")) = "openai"
  /\ key_configured (Demo.with_key None Demo.base) = false
  /\ res (snd (chat (Demo.with_key None Demo.base) (Demo.body "hello" "gpt-4")
                 (fresh None 0)))
     = [Write (FError "OpenAI API key not configured"); End].
Proof.
  split; [reflexivity |]. split; [reflexivity |].
  destruct (openai_without_key (Demo.with_key None Demo.base)
              (Demo.body "hello" "gpt-4") (fresh None 0)
              eq_refl eq_refl) as (_ & (msg & Hr & Hm) & _).
  rewrite Hr. rewrite (Hm "hello" (fresh None 0) eq_refl). reflexivity.
Defined.

(** ** The knowledge flag (C8) *)

(** C8.  A turn with [useKnowledge] false makes no call on the knowledge
    loader: the loader is not created, not initialized, no documents are
    loaded, nothing is searched and no context is generated; the loader
    of the process stays as it was. *)
Theorem no_retrieval_without_flag :
  forall E b w,
    useKnowledge b = false ->
    kbCalls (snd (chat E b w)) = kbCalls w
    /\ knowledgeLoader (snd (chat E b w)) = knowledgeLoader w.
Proof.
  intros E b w Hk.
  assert (H : keeps (fun w => (kbCalls w, knowledgeLoader w)) (chat E b)).
  { unfold chat. apply keeps_try.
    - apply keeps_bind.
      + unfold augment, add_knowledge. rewrite Hk.
        apply keeps_bind; [apply attach_keeps; intro; intro; reflexivity |].
        intro. keeps_tac.
      + intro e. apply dispatch_keeps; try (intro; intro; reflexivity).
        * intro; reflexivity.
        * intros A g w0. unfold random. destruct (g _ _). reflexivity.
    - intro e. keeps_tac; intro; reflexivity. }
  specialize (H w). simpl in H. inversion H. split; reflexivity.
Qed.

(** A turn with the flag off, on a process whose loader does not exist
    yet. *)
Lemma no_retrieval_without_flag_witness :
  useKnowledge (Demo.body "hello" "llama2") = false
  /\ kbCalls (snd (chat Demo.base (Demo.body "hello" "llama2") (fresh None 0)))
     = []
  /\ knowledgeLoader
       (snd (chat Demo.base (Demo.body "hello" "llama2") (fresh None 0)))
     = None.
Proof.
  split; [reflexivity |].
  exact (no_retrieval_without_flag Demo.base (Demo.body "hello" "llama2")
           (fresh None 0) eq_refl).
Defined.

(** ** PDF attachments (C7) *)






















(** The attachment stage never throws. *)
Lemma process_pdf_total E file w : exists frag, fst (process_pdf E file w) = Ok frag.
Proof.
  unfold process_pdf, bind, try_catch.
  destruct (pdf_try E file w) as [[body|err] w1]; simpl; eauto.
Qed.

Lemma process_files_total E fs :
  forall ctx w, exists ctx', fst (process_files E fs ctx w) = Ok ctx'.
Proof.
  induction fs as [|file fs IH]; intros ctx w; simpl.
  - eexists. reflexivity.
  - unfold bind.
    assert (H : exists frag, fst (process_file E file w) = Ok frag).
    { unfold process_file.
      destruct (is_text_file file); [eexists; reflexivity |].
      destruct (is_image_file file); [eexists; reflexivity |].
      destruct (is_pdf_file file); [apply process_pdf_total |].
      eexists; reflexivity. }
    destruct H as [frag Hf].
    destruct (process_file E file w) as [[x|x] w1]; simpl in Hf;
      [| discriminate]. apply IH.
Qed.

Lemma attach_total E fs e w : exists e', fst (attach E fs e w) = Ok e'.
Proof.
  unfold attach. destruct fs as [|file fs]; [eexists; reflexivity |].
  unfold bind.
  destruct (process_files_total E (file :: fs) files_intro w) as [ctx H].
  destruct (process_files E (file :: fs) files_intro w) as [[x|x] w1];
    simpl in H; [| discriminate].
  eexists. reflexivity.
Qed.





(** A text of 5003 characters: 5000 are shown, 3 are announced as left
    out. *)
Example pdf_text_truncates :
  pdf_text (String.concat EmptyString (repeat "a" 5003))
  = "内容 (5003文字):" ++ LF
    ++ String.concat EmptyString (repeat "a" 5000) ++ LF
    ++ LF ++ "... (残り 3 文字省略) ..." ++ LF.
Proof. vm_compute. reflexivity. Qed.

(** ** The order of the augmented message (C4) *)

Lemma append_assoc (a b c : string) : (a ++ b) ++ c = a ++ b ++ c.
Proof. induction a as [|x a IH]; simpl; [| rewrite IH]; reflexivity. Qed.

Lemma append_nil_r (a : string) : a ++ EmptyString = a.
Proof. induction a as [|x a IH]; simpl; [| rewrite IH]; reflexivity. Qed.

Lemma append_length (a b : string) :
  String.length (a ++ b) = String.length a + String.length b.
Proof. induction a as [|x a IH]; simpl; [| rewrite IH]; reflexivity. Qed.

Lemma slice_from_append (a b : string) : Js.slice_from (String.length a) (a ++ b) = b.
Proof. induction a as [|x a IH]; simpl; [destruct b |]; auto. Qed.

Lemma endsWith_append (a b : string) : Js.endsWith (a ++ b) b = true.
Proof.
  unfold Js.endsWith. rewrite append_length.
  replace (String.length a + String.length b - String.length b)
    with (String.length a) by lia.
  rewrite slice_from_append, String.eqb_refl.
  apply andb_true_iff. split; [apply Nat.leb_le; lia | reflexivity].
Qed.





(** ** A failing knowledge base (C3) *)

(** What [retrieve] returns depends on the state through the loader only. *)
Lemma retrieve_fst E q w w' :
  knowledgeLoader w = knowledgeLoader w' ->
  fst (retrieve E q w) = fst (retrieve E q w').
Proof.
  intro H.
  unfold retrieve, bind, get_knowledgeLoader, kb_call, set_knowledgeLoader,
    lift, ret. simpl. rewrite H.
  destruct (knowledgeLoader w') as [[|d ds]|]; simpl.
  - destruct (kb_loadDocuments E); simpl; [| reflexivity].
    destruct (kb_searchDocuments E _ q); reflexivity.
  - destruct (kb_searchDocuments E _ q); reflexivity.
  - destruct (kb_new E); simpl; [| reflexivity].
    destruct (kb_initialize E); simpl; [| reflexivity].
    destruct (kb_loadDocuments E); simpl; [| reflexivity].
    destruct (kb_searchDocuments E _ q); reflexivity.
Qed.

Lemma attach_loader E fs e : keeps knowledgeLoader (attach E fs e).
Proof. apply attach_keeps. auto with keeps. Qed.

(** C3, as the route has it.  In a turn with the knowledge flag on:
    - when the retrieval throws, the throw reaches the [catch] of the
      route: it is logged, the stream gets exactly one more frame, the
      error frame with the message of the failure, and is closed, and no
      request is sent to a provider;
    - when the retrieval returns no context, the message is the one the
      turn would have with the flag off: the knowledge section is left
      out. *)
Theorem retrieval_failure_surfaces :
  forall E b w,
    useKnowledge b = true ->
    (forall msg,
       fst (retrieve E (message b) w) = Throw msg ->
       res (snd (chat E b w)) = (res w ++ [Write (FError msg); End])%list
       /\ backend (snd (chat E b w)) = backend w
       /\ In "Error in chat:" (errors (snd (chat E b w))))
    /\ (forall k,
          fst (retrieve E (message b) w) = Ok k ->
          Js.or_else k EmptyString = EmptyString ->
          fst (augment E b w)
          = fst (augment E (Demo.with_useKnowledge false b) w)).
Proof.
  intros E b w Hflag.
  destruct (attach_total E (files b) (message b) w) as [m1 Hm1].
  pose proof (attach_loader E (files b) (message b) w) as Hl.
  pose proof (attach_keeps res E (files b) (message b) console_error_res w) as Hr.
  pose proof (attach_keeps backend E (files b) (message b)
                console_error_backend w) as Hb.
  destruct (attach E (files b) (message b) w) as [[m|err] w2] eqn:Ha;
    simpl in Hm1, Hl, Hr, Hb; [| discriminate].
  pose proof (retrieve_fst E (message b) w2 w Hl) as Hfst.
  pose proof (retrieve_res E (message b) w2) as Hr3.
  pose proof (retrieve_backend E (message b) w2) as Hb3.
  split.
  - intros msg Hthrow. rewrite Hthrow in Hfst.
    assert (Haug : exists w3, augment E b w = (Throw msg, w3)
                     /\ res w3 = res w /\ backend w3 = backend w).
    { unfold augment, add_knowledge, bind. rewrite Ha, Hflag.
      destruct (retrieve E (message b) w2) as [[k|err] w3]; simpl in Hfst;
        [discriminate |].
      inversion Hfst; subst err. exists w3. simpl in Hr3, Hb3.
      split; [reflexivity | split; congruence]. }
    destruct Haug as (w3 & Haug & Hres & Hback).
    rewrite chat_unfold, Haug. simpl.
    rewrite Hres, Hback, <- app_assoc.
    split; [reflexivity |]. split; [reflexivity |].
    apply in_or_app. right. left. reflexivity.
  - intros k Hk Hempty. rewrite Hk in Hfst.
    unfold augment, add_knowledge, bind. simpl. rewrite Ha, Hflag.
    destruct (retrieve E (message b) w2) as [[k'|err] w3]; simpl in Hfst;
      [| discriminate].
    inversion Hfst; subst k'.
    destruct k as [s|]; [| reflexivity].
    simpl in Hempty. destruct (Js.truthy_str s) eqn:Hs; [| reflexivity].
    subst s. discriminate Hs.
Qed.

(** A turn with the flag on and a loader whose search fails. *)
Lemma retrieval_failure_surfaces_witness :
  useKnowledge (Demo.with_useKnowledge true (Demo.body "hello" "llama2")) = true
  /\ fst (retrieve (Demo.with_broken_search Demo.base) "hello" (fresh None 0))
     = Throw "index unavailable"
  /\ res (snd (chat (Demo.with_broken_search Demo.base)
                 (Demo.with_useKnowledge true (Demo.body "hello" "llama2"))
                 (fresh None 0)))
     = [Write (FError "index unavailable"); End].
Proof.
  split; [reflexivity |]. split; [reflexivity |].
  destruct (retrieval_failure_surfaces (Demo.with_broken_search Demo.base)
              (Demo.with_useKnowledge true (Demo.body "hello" "llama2"))
              (fresh None 0) eq_refl) as (Hthrow & _).
  destruct (Hthrow "index unavailable" eq_refl) as (Hres & _).
  exact Hres.
Defined.

(** C3 as it is stated fails on that turn: the failure of the search is
    surfaced as the error frame of the stream, no provider is called, and
    the turn ends there. *)
Lemma retrieval_failure_counterexample :
  res (Demo.run (Demo.with_broken_search Demo.base)
         (Demo.with_useKnowledge true (Demo.body "hello" "llama2")))
  = [Write (FError "index unavailable"); End]
  /\ count is_error
       (res (Demo.run (Demo.with_broken_search Demo.base)
               (Demo.with_useKnowledge true (Demo.body "hello" "llama2")))) = 1
  /\ backend (Demo.run (Demo.with_broken_search Demo.base)
                (Demo.with_useKnowledge true (Demo.body "hello" "llama2")))
     = []
  /\ kbCalls (Demo.run (Demo.with_broken_search Demo.base)
                (Demo.with_useKnowledge true (Demo.body "hello" "llama2")))
     = [KbNew; KbInitialize; KbLoadDocuments; KbSearchDocuments "hello"]
  /\ errors (Demo.run (Demo.with_broken_search Demo.base)
               (Demo.with_useKnowledge true (Demo.body "hello" "llama2")))
     = ["Error in chat:"]
  /\ backend (Demo.run Demo.base (Demo.body "hello" "llama2"))
     = [OllamaGenerate "llama2"
          ("PERSONA" ++ LF ++ LF ++ "User: hello" ++ LF ++ "Assistant: ")].
Proof. vm_compute. repeat split; reflexivity. Qed.

(** ** Frames of a backend stream (C1, C6) *)



Lemma appends_for_each {A} (l : list A) (f : A -> M unit)
    (fr : A -> list ResOp) :
  (forall x, In x l -> appends (f x) (fr x)) ->
  appends (for_each l f) (flat_map fr l).
Proof.
  induction l as [|x l IH]; intros H w; simpl.
  - split; [eexists; reflexivity | symmetry; apply app_nil_r].
  - unfold bind. destruct (H x (or_introl eq_refl) w) as [[a Ha] Hr].
    destruct (f x w) as [[u|err] w1]; simpl in *; [| discriminate].
    destruct (IH (fun y Hy => H y (or_intror Hy)) w1) as [Hok Hres].
    split; [exact Hok |]. rewrite Hres, Hr, app_assoc. reflexivity.
Qed.



Lemma openai_line_appends E line :
  appends (openai_line E line) (openai_frames E line).
Proof.
  intro w. unfold openai_line, openai_frames.
  destruct (Js.startsWith line "data: ");
    [| split; [eexists; reflexivity | symmetry; apply app_nil_r]].
  destruct (String.eqb (Js.slice_from 6 line) "[DONE]").
  - simpl. split; [eexists; reflexivity |].
    rewrite <- app_assoc. reflexivity.
  - unfold try_catch, bind, parse_json, lift, ret, throw.
    destruct (JSON_parse E (Js.slice_from 6 line)) as [parsed|]; simpl;
      [| split; [eexists; reflexivity | symmetry; apply app_nil_r]].
    destruct (openai_content parsed) as [content|err]; simpl;
      [| split; [eexists; reflexivity | symmetry; apply app_nil_r]].
    destruct (Val.truthy content); simpl;
      (split; [eexists; reflexivity |]);
      rewrite ?app_nil_r; reflexivity.
Qed.

Lemma openai_on_data_appends E chunk :
  appends (openai_on_data E chunk) (flat_map (openai_frames E) (lines_of chunk)).
Proof.
  apply appends_for_each. intros x _. apply openai_line_appends.
Qed.










Lemma prefix_slice p l :
  String.prefix p l = true -> p ++ Js.slice_from (String.length p) l = l.
Proof.
  revert l. induction p as [|a p IH]; intros [|b l]; simpl; try discriminate;
    try reflexivity.
  destruct (ascii_dec a b) as [->|]; [| discriminate].
  intro H. rewrite (IH l H). reflexivity.
Qed.














(** ** Malformed lines (C6) *)

(** The listeners return on every chunk: nothing that happens in them
    reaches the [catch] of the route. *)
Lemma ollama_on_data_returns E chunk w : fst (ollama_on_data E chunk w) = Ok tt.
Proof.
  unfold ollama_on_data, try_catch.
  destruct (for_each (lines_of chunk) (ollama_line E) w) as [[[]|err] w1];
    reflexivity.
Qed.

Lemma openai_on_data_returns E chunk w : fst (openai_on_data E chunk w) = Ok tt.
Proof.
  destruct (openai_on_data_appends E chunk w) as [[[] H] _]. exact H.
Qed.

(** A chunk of the Ollama stream whose first line is not JSON is lost as
    a whole: nothing of it is written, whatever its other lines are. *)
Lemma ollama_chunk_lost E chunk line rest w :
  lines_of chunk = line :: rest ->
  JSON_parse E line = None ->
  fst (ollama_on_data E chunk w) = Ok tt
  /\ res (snd (ollama_on_data E chunk w)) = res w
  /\ errors (snd (ollama_on_data E chunk w))
     = (errors w ++ ["Error parsing Ollama response:"])%list.
Proof.
  intros Hl Hp. unfold ollama_on_data, try_catch. rewrite Hl. simpl.
  unfold bind, ollama_line, parse_json. rewrite Hp. simpl. auto.
Qed.

(** A malformed data line of the OpenAI stream is logged and gives no
    frame; the other lines of the stream are not touched by it. *)
Lemma openai_line_skipped E line w :
  Js.startsWith line "data: " = true ->
  String.eqb (Js.slice_from 6 line) "[DONE]" = false ->
  JSON_parse E (Js.slice_from 6 line) = None ->
  openai_frames E line = []
  /\ fst (openai_line E line w) = Ok tt
  /\ res (snd (openai_line E line w)) = res w
  /\ errors (snd (openai_line E line w))
     = (errors w ++ ["Error parsing OpenAI response:"])%list.
Proof.
  intros Hs Hd Hp. unfold openai_frames, openai_line. rewrite Hs, Hd.
  unfold try_catch, bind, parse_json. rewrite Hp. simpl. auto.
Qed.

(** C6, at a chunk whose first line is not JSON and whose two other lines
    are well formed.  The two well-formed lines stand for a content frame
    and the done frame; the Ollama listener, whose [try] is around the
    whole loop, logs once and writes nothing: both lines are lost with
    the malformed one, and the stream is left without a terminal frame.
    The OpenAI listener, whose [try] is inside the loop, logs the
    malformed line and writes the frames of the two others. *)
Theorem malformed_line_drops_chunk :
  flat_map lines_of Demo.ollama_garbled
  = ["upstream timeout"; Demo.ollama_json "Hi" false;
     Demo.ollama_json EmptyString true]
  /\ map (ollama_well_formed Demo.base) (flat_map lines_of Demo.ollama_garbled)
     = [false; true; true]
  /\ flat_map (ollama_frames Demo.base) (flat_map lines_of Demo.ollama_garbled)
     = [Write (FContent (VStr "Hi")); Write FDone; End]
  /\ res (Demo.run (Demo.with_streams (Ok Demo.ollama_garbled)
                      (Ok Demo.openai_garbled) Demo.base)
            (Demo.body "hello" "llama2"))
     = []
  /\ errors (Demo.run (Demo.with_streams (Ok Demo.ollama_garbled)
                         (Ok Demo.openai_garbled) Demo.base)
               (Demo.body "hello" "llama2"))
     = ["Error parsing Ollama response:"]
  /\ res (Demo.run (Demo.with_streams (Ok Demo.ollama_garbled)
                      (Ok Demo.openai_garbled) Demo.base)
            (Demo.body "hello" "gpt-4"))
     = [Write (FContent (VStr "Hi")); Write FDone; End]
  /\ errors (Demo.run (Demo.with_streams (Ok Demo.ollama_garbled)
                         (Ok Demo.openai_garbled) Demo.base)
               (Demo.body "hello" "gpt-4"))
     = ["Error parsing OpenAI response:"].
Proof. vm_compute. repeat split; reflexivity. Qed.

(** ** The draw of the persona (C9) *)

(** The worker draws once when the persona is on, and not at all when it
    is off; what it returns does not depend on the draw. *)
Lemma worker_draws_once fetch message model usePersonality draws n :
  snd (Worker.callGemini fetch message model usePersonality draws n)
  = if usePersonality then S n else n.
Proof. unfold Worker.callGemini, Worker.systemPrompt. destruct usePersonality; reflexivity. Qed.

(** Each hook of the persona takes its own draw. *)
Lemma spec_persona_draws preamble tic prompt reply draws n :
  enhancePrompt (spec_persona true preamble tic) prompt draws n
  = (Ok (preamble (Worker.below_threshold (draws n)) ++ prompt), S n)
  /\ processResponse (spec_persona true preamble tic) prompt reply draws (S n)
     = (Ok (if Worker.below_threshold (draws (S n)) then reply ++ tic else reply),
        S (S n)).
Proof. split; reflexivity. Qed.

(** C9, at a Gemini turn whose first draw is 0.1 and whose second draw is
    0.9: two draws are made in the turn; the preamble sent to the model
    asks for the suffix, and the reply is emitted without the suffix.
    With the draws 0.9 and then 0.1 the preamble asks to hold the suffix
    back and the reply is emitted with it.  In the worker one draw is
    made, for the preamble, and the reply is returned as it came. *)
Theorem persona_draws_disagree :
  backend (Demo.run (Demo.with_persona (Demo.draws_of (1 # 10) (9 # 10))
                       Demo.aiyu Demo.base)
             (Demo.body "hello" "gemini-1.5-pro"))
  = [GeminiGenerate "gemini-1.5-pro"
       [Text (Worker.persona_prompt true ++ "hello"
              ++ "ユーザー: hello" ++ LF ++ "アシスタント: ")]]
  /\ res (Demo.run (Demo.with_persona (Demo.draws_of (1 # 10) (9 # 10))
                      Demo.aiyu Demo.base)
            (Demo.body "hello" "gemini-1.5-pro"))
     = [Write (FContent (VStr "Hello")); Write FDone; End]
  /\ draws (Demo.run (Demo.with_persona (Demo.draws_of (1 # 10) (9 # 10))
                        Demo.aiyu Demo.base)
              (Demo.body "hello" "gemini-1.5-pro"))
     = 2
  /\ backend (Demo.run (Demo.with_persona (Demo.draws_of (9 # 10) (1 # 10))
                          Demo.aiyu Demo.base)
                (Demo.body "hello" "gemini-1.5-pro"))
     = [GeminiGenerate "gemini-1.5-pro"
          [Text (Worker.persona_prompt false ++ "hello"
                 ++ "ユーザー: hello" ++ LF ++ "アシスタント: ")]]
  /\ res (Demo.run (Demo.with_persona (Demo.draws_of (9 # 10) (1 # 10))
                      Demo.aiyu Demo.base)
            (Demo.body "hello" "gemini-1.5-pro"))
     = [Write (FContent (VStr "Helloワン")); Write FDone; End]
  /\ Worker.callGemini (Demo.worker_fetch "Hello") "hello" "gemini-2.5-flash"
       true (Demo.draws_of (1 # 10) (9 # 10)) 0
     = (Worker.persona_prompt true ++ "hello", Ok (VStr "Hello"), 1).
Proof. vm_compute. repeat split; reflexivity. Qed.

(** * Further properties of the chat route *)

(** ** The requests of a turn *)

Lemma sends_keeps {A} P (m : M A) : keeps backend m -> sends P m.
Proof.
  intros H w. exists []. rewrite H, app_nil_r. simpl. auto.
Qed.

Lemma sends_bind {A B} P (m : M A) (k : A -> M B) :
  keeps backend m -> (forall a, sends P (k a)) -> sends P (bind m k).
Proof.
  intros Hm Hk w. unfold bind. specialize (Hm w).
  destruct (m w) as [[a|err] w1]; simpl in *.
  - destruct (Hk a w1) as (reqs & H1 & H2 & H3).
    exists reqs. rewrite H1, Hm. auto.
  - exists []. rewrite Hm, app_nil_r. simpl. auto.
Qed.

Lemma sends_send {B} (P : BackendReq -> Prop) r (k : M B) :
  P r -> keeps backend k -> sends P (bind (send r) (fun _ => k)).
Proof.
  intros Hr Hk w. unfold bind, send. simpl.
  exists [r]. rewrite Hk. simpl. auto.
Qed.

Lemma sends_try {A} P (m : M A) (h : string -> M A) :
  sends P m -> (forall e, keeps backend (h e)) -> sends P (try_catch m h).
Proof.
  intros Hm Hh w. unfold try_catch. destruct (Hm w) as (reqs & H1 & H2 & H3).
  destruct (m w) as [[a|err] w1]; simpl in *.
  - exists reqs. auto.
  - exists reqs. rewrite Hh. auto.
Qed.

Lemma ollama_stream_keeps_backend E chunks :
  keeps backend (for_each chunks (ollama_on_data E)).
Proof.
  keeps_tac; unfold ollama_on_data; keeps_tac;
    unfold ollama_line, parse_json; keeps_tac.
Qed.

Lemma openai_stream_keeps_backend E chunks :
  keeps backend (for_each chunks (openai_on_data E)).
Proof.
  keeps_tac; unfold openai_on_data; keeps_tac;
    unfold openai_line, parse_json; keeps_tac.
Qed.

Lemma dispatch_sends E b e : sends (routed_request b) (dispatch E b e).
Proof.
  unfold dispatch, routed_request.
  destruct (switch_provider (getProviderFromModel (model b))) as [[| |]|].
  - unfold handleGeminiChat.
    destruct (genAI E); simpl; [| apply sends_keeps; keeps_tac].
    apply sends_try; [| intro; keeps_tac].
    apply sends_bind; [keeps_tac | intro persona]. cbv zeta.
    apply sends_try; [| intro; keeps_tac].
    apply sends_send; [eexists; reflexivity | keeps_tac].
  - unfold handleOpenAIChat.
    destruct (key_configured E); simpl; [| apply sends_keeps; keeps_tac].
    apply sends_bind; [keeps_tac | intro system]. cbv zeta.
    apply sends_send; [eexists _, _; reflexivity |].
    apply keeps_bind; [keeps_tac | intro]. apply openai_stream_keeps_backend.
  - unfold handleOllamaChat.
    apply sends_bind; [unfold formatPrompt; keeps_tac | intro prompt].
    apply sends_send; [eexists; reflexivity |].
    apply keeps_bind; [keeps_tac | intro]. apply ollama_stream_keeps_backend.
  - apply sends_keeps. keeps_tac.
Qed.

(** X1.  A turn sends at most one request to a model backend, whatever
    happens in it, and only to the backend that the router chose for its
    model: the Ollama and OpenAI requests carry the model identifier of
    the turn unchanged, the OpenAI request carries the history of the
    turn, and the Gemini request names the mapped model and carries the
    inline parts of the image files followed by one text part. *)
Theorem one_request_per_turn :
  forall E b w,
    exists reqs,
      backend (snd (chat E b w)) = (backend w ++ reqs)%list
      /\ length reqs <= 1
      /\ Forall (routed_request b) reqs.
Proof.
  intros E b. unfold chat.
  apply sends_try; [| intro; keeps_tac].
  apply sends_bind; [apply augment_backend | intro e].
  apply dispatch_sends.
Qed.

(** ** The request to Gemini *)

Lemma router_characterised m :
  getProviderFromModel m =
    (if Js.includes m "gemini" then "gemini"
     else if Js.startsWith m "gpt" then "openai" else "ollama").
Proof.
  unfold getProviderFromModel, Js.startsWith.
  destruct (String.prefix "gemini" m) eqn:Hp; [| reflexivity].
  rewrite (includes_prefix _ _ Hp). reflexivity.
Qed.

Lemma gemini_model_name_known m :
  In (gemini_model_name m)
     ["gemini-2.0-flash-exp"; "gemini-1.5-pro"; "gemini-1.5-flash"].
Proof.
  unfold gemini_model_name.
  repeat match goal with
         | |- context [String.eqb ?a ?b] => destruct (String.eqb a b)
         end; simpl; auto.
Qed.

Lemma image_parts_images fs : forallb is_image_part (image_parts fs) = true.
Proof.
  induction fs as [|file fs IH]; simpl; [reflexivity |].
  destruct (File.type file) as [t|]; [| exact IH].
  destruct (File.data file) as [d|]; [| exact IH].
  destruct (Js.truthy_str t && Js.startsWith t "image/" && Js.truthy_str d)
    eqn:H; [| exact IH].
  simpl. rewrite IH, andb_true_r.
  apply andb_true_iff in H. destruct H as [H _].
  apply andb_true_iff in H. tauto.
Qed.

Lemma image_parts_length fs :
  length (image_parts fs) = length (filter has_image_data fs).
Proof.
  induction fs as [|file fs IH]; simpl; [reflexivity |].
  unfold has_image_data at 1.
  destruct (File.type file) as [t|]; [| exact IH].
  destruct (File.data file) as [d|]; [| exact IH].
  destruct (Js.truthy_str t && Js.startsWith t "image/" && Js.truthy_str d);
    simpl; [rewrite IH; reflexivity | exact IH].
Qed.

(** X2.  A request to Gemini is only sent for a model identifier that
    contains gemini; it names one of the three models of the table
    (gemini-2.0-flash-exp, gemini-1.5-pro, gemini-1.5-flash), and its parts
    are one inline part for each file that has an image type and data, in
    the order of the files, followed by the text part, which is last. *)
Theorem gemini_request_shape :
  forall E b w modelName parts,
    backend w = [] ->
    In (GeminiGenerate modelName parts) (backend (snd (chat E b w))) ->
    Js.includes (model b) "gemini" = true
    /\ In modelName ["gemini-2.0-flash-exp"; "gemini-1.5-pro"; "gemini-1.5-flash"]
    /\ (exists prompt, parts = (image_parts (files b) ++ [Text prompt])%list)
    /\ forallb is_image_part (image_parts (files b)) = true
    /\ length (image_parts (files b))
       = length (filter has_image_data (files b)).
Proof.
  intros E b w modelName parts Hw Hin.
  assert (Hs : sends (routed_request b) (chat E b)).
  { unfold chat. apply sends_try; [| intro; keeps_tac].
    apply sends_bind; [apply augment_backend | intro e]. apply dispatch_sends. }
  destruct (Hs w) as (reqs & Hb & _ & Hall).
  rewrite Hb, Hw in Hin. simpl in Hin.
  pose proof (proj1 (Forall_forall _ _) Hall _ Hin) as Hr.
  unfold routed_request in Hr. rewrite router_characterised in Hr.
  destruct (Js.includes (model b) "gemini") eqn:Hinc.
  - simpl in Hr. destruct Hr as [prompt Hr]. inversion Hr; subst.
    split; [reflexivity |].
    split; [apply gemini_model_name_known |].
    split; [eexists; reflexivity |].
    split; [apply image_parts_images | apply image_parts_length].
  - destruct (Js.startsWith (model b) "gpt"); simpl in Hr.
    + destruct Hr as (sy & e & Hr). discriminate Hr.
    + destruct Hr as (pr & Hr). discriminate Hr.
Qed.

(** A turn with a picture and a note, sent to the default model of the
    table. *)
Lemma gemini_request_shape_witness :
  backend (fresh None 0) = []
  /\ backend (Demo.run Demo.base
                (Demo.with_files [Demo.notes; Sample.photo]
                   (Demo.body "look" "gemini-pro")))
     = [GeminiGenerate "gemini-1.5-flash"
          [InlineData "image/png" "iVBORw0KGgo=";
           Text ("PERSONA" ++ "ユーザー: look"
                 ++ LF ++ LF ++ "以下のファイルが添付されています：" ++ LF
                 ++ LF ++ "=== ファイル名: notes.txt ===" ++ LF
                 ++ "ファイルタイプ: text/plain" ++ LF
                 ++ "内容:" ++ LF ++ "alpha" ++ LF
                 ++ "=== ファイル終了 ===" ++ LF
                 ++ LF ++ "[画像ファイル: photo.png]" ++ LF
                 ++ LF ++ "アシスタント: ")]]
  /\ In "gemini-1.5-flash"
        ["gemini-2.0-flash-exp"; "gemini-1.5-pro"; "gemini-1.5-flash"].
Proof.
  split; [reflexivity |]. split; [vm_compute; reflexivity |].
  refine (proj1 (proj2 (gemini_request_shape Demo.base
            (Demo.with_files [Demo.notes; Sample.photo]
               (Demo.body "look" "gemini-pro"))
            (fresh None 0) "gemini-1.5-flash" _ eq_refl _))).
  vm_compute. left. reflexivity.
Defined.

(** ** Data URLs *)

Lemma split_without c s : mentions c s = false -> Js.split c s = [s].
Proof.
  induction s as [|a s IH]; simpl; [reflexivity |].
  intro H. apply orb_false_iff in H. destruct H as [Ha Hs].
  rewrite Ha, (IH Hs). reflexivity.
Qed.

Lemma split_at c h p :
  mentions c h = false -> Js.split c (h ++ String c p) = h :: Js.split c p.
Proof.
  induction h as [|a h IH]; simpl.
  - intros _. rewrite Ascii.eqb_refl. reflexivity.
  - intro H. apply orb_false_iff in H. destruct H as [Ha Hh].
    rewrite Ha, (IH Hh). reflexivity.
Qed.

Lemma split_head c s : exists w ws, Js.split c s = w :: ws.
Proof.
  destruct s as [|a s]; simpl; [eauto |].
  destruct (Ascii.eqb a c); [eauto |].
  destruct (Js.split c s); eauto.
Qed.

Lemma prefix_append p h x :
  String.prefix p h = true -> String.prefix p (h ++ x) = true.
Proof.
  revert h. induction p as [|a p IH]; intros h H;
    [destruct (h ++ x); reflexivity |].
  destruct h as [|b h]; simpl in *; [discriminate H |].
  destruct (ascii_dec a b); [apply IH; exact H | discriminate H].
Qed.

(** X3.  Of a data URL, what is handed on is the text between the first
    and the second comma: for a header and a payload without commas it is
    the payload, both for the PDF extraction and for the inline image
    parts.  A PDF data URL with an empty payload or without a comma is
    answered by the error fragment of an invalid format, and the
    extraction is not asked; an image whose data has no comma or an empty
    payload is sent with its whole data. *)
Theorem data_url_payload :
  forall header payload,
    mentions ","%char header = false ->
    mentions ","%char payload = false ->
    base64_of (header ++ "," ++ payload) = Some payload
    /\ base64_of header = None
    /\ (forall name t,
          Js.startsWith t "image/" = true ->
          image_parts [{| File.name := name; File.type := Some t;
                          File.data := Some (header ++ "," ++ payload) |}]
          = [InlineData t (if Js.truthy_str payload then payload
                           else header ++ ",")]
          /\ (Js.truthy_str header = true ->
              image_parts [{| File.name := name; File.type := Some t;
                              File.data := Some header |}]
              = [InlineData t header]))
    /\ (forall E name t w,
          Js.startsWith header "data:" = true ->
          fst (process_pdf E {| File.name := name; File.type := t;
                                File.data := Some header |} w)
          = Ok (pdf_header name ++ pdf_failure "Invalid PDF data format"
                ++ file_footer)
          /\ fst (process_pdf E {| File.name := name; File.type := t;
                                   File.data := Some (header ++ ",") |} w)
             = Ok (pdf_header name ++ pdf_failure "Invalid PDF data format"
                   ++ file_footer)
          /\ (Js.truthy_str payload = true ->
              forall reason,
                pdf E payload = Throw reason ->
                fst (process_pdf E {| File.name := name; File.type := t;
                                      File.data := Some (header ++ "," ++ payload) |} w)
                = Ok (pdf_header name
                      ++ pdf_failure ("PDF解析エラー: " ++ reason)
                      ++ file_footer))).
Proof.
  intros header payload Hh Hp.
  assert (Hsplit : forall p, mentions ","%char p = false ->
            Js.split ","%char (header ++ "," ++ p) = [header; p]).
  { intros p Hpp. change (header ++ "," ++ p) with (header ++ String ","%char p).
    rewrite (split_at _ _ _ Hh), (split_without _ _ Hpp). reflexivity. }
  assert (Hb : base64_of (header ++ "," ++ payload) = Some payload).
  { unfold base64_of. rewrite (Hsplit payload Hp). reflexivity. }
  assert (Hn : base64_of header = None).
  { unfold base64_of. rewrite (split_without _ _ Hh). reflexivity. }
  assert (He : base64_of (header ++ ",") = Some EmptyString).
  { unfold base64_of.
    change (header ++ ",") with (header ++ String ","%char EmptyString).
    rewrite (split_at _ _ _ Hh). reflexivity. }
  assert (Hstart : forall p, Js.startsWith header "data:" = true ->
            Js.truthy_str (header ++ p) && Js.startsWith (header ++ p) "data:"
            = true).
  { intros p H. unfold Js.startsWith in *.
    rewrite (prefix_append _ _ p H), andb_true_r.
    destruct header; [discriminate H | reflexivity]. }
  split; [exact Hb |]. split; [exact Hn |]. split.
  - intros name t Ht.
    assert (Htr : Js.truthy_str t = true).
    { destruct t; [discriminate Ht | reflexivity]. }
    split.
    + cbn [image_parts File.type File.data]. rewrite Htr, Ht.
      assert (Hd : Js.truthy_str (header ++ "," ++ payload) = true).
      { destruct header; reflexivity. }
      rewrite Hd. cbn [andb].
      fold (base64_of (header ++ "," ++ payload)). rewrite Hb.
      unfold Js.or_else. destruct payload; reflexivity.
    + intro Hht. cbn [image_parts File.type File.data].
      rewrite Htr, Ht, Hht. cbn [andb].
      fold (base64_of header). rewrite Hn. reflexivity.
  - intros E name t w Hs.
    pose proof (Hstart EmptyString Hs) as H0. rewrite append_nil_r in H0.
    split; [| split].
    + unfold process_pdf, pdf_try. cbn [File.data File.name].
      rewrite H0, Hn. reflexivity.
    + unfold process_pdf, pdf_try. cbn [File.data File.name].
      rewrite (Hstart "," Hs), He. reflexivity.
    + intros Hpt reason Hthrow.
      unfold process_pdf, pdf_try. cbn [File.data File.name].
      rewrite (Hstart ("," ++ payload) Hs), Hb.
      destruct payload as [|c p]; [discriminate Hpt |].
      unfold bind, try_catch, lift. rewrite Hthrow. reflexivity.
Qed.

(** A PNG data URL. *)
Lemma data_url_payload_witness :
  mentions ","%char "data:image/png;base64" = false
  /\ mentions ","%char "iVBORw0KGgo=" = false
  /\ base64_of "data:image/png;base64,iVBORw0KGgo=" = Some "iVBORw0KGgo="
  /\ image_parts [Sample.photo] = [InlineData "image/png" "iVBORw0KGgo="].
Proof.
  split; [reflexivity |]. split; [reflexivity |].
  destruct (data_url_payload "data:image/png;base64" "iVBORw0KGgo="
              eq_refl eq_refl) as (Hb & _ & Hi & _).
  split; [exact Hb |].
  exact (proj1 (Hi "photo.png" "image/png" eq_refl)).
Defined.

(** ** The user profile *)






(** ** The knowledge loader over several turns *)

Lemma retrieve_kb_state E q w w' :
  kb_state w = kb_state w' ->
  kb_state (snd (retrieve E q w)) = kb_state (snd (retrieve E q w')).
Proof.
  unfold kb_state. intro H. injection H as Hc Hl.
  unfold retrieve, bind, get_knowledgeLoader, kb_call, set_knowledgeLoader,
    lift, ret. simpl. rewrite Hl.
  destruct (knowledgeLoader w') as [[|d ds]|] eqn:Hw'; simpl.
  - destruct (kb_loadDocuments E); simpl; rewrite ?Hc, ?Hl, ?Hw';
      [| reflexivity].
    destruct (kb_searchDocuments E _ q); reflexivity.
  - destruct (kb_searchDocuments E _ q); simpl; rewrite ?Hc, ?Hl, ?Hw';
      reflexivity.
  - destruct (kb_new E); simpl; rewrite ?Hc, ?Hl, ?Hw'; [| reflexivity].
    destruct (kb_initialize E); simpl; [| reflexivity].
    destruct (kb_loadDocuments E); simpl; [| reflexivity].
    destruct (kb_searchDocuments E _ q); reflexivity.
Qed.

Lemma retrieve_loaded E q w d docs :
  knowledgeLoader w = Some (d :: docs) ->
  kb_state (snd (retrieve E q w))
  = ((kbCalls w ++ KbSearchDocuments q :: after_search E (d :: docs) q)%list,
     Some (d :: docs)).
Proof.
  intro H. unfold kb_state, after_search, retrieve, bind, get_knowledgeLoader,
    kb_call, set_knowledgeLoader, lift, ret. simpl. rewrite H. simpl.
  destruct (kb_searchDocuments E (d :: docs) q); simpl; rewrite H;
    rewrite <- ?app_assoc; reflexivity.
Qed.

Lemma retrieve_first E q w d docs :
  knowledgeLoader w = None ->
  kb_new E = Ok tt -> kb_initialize E = Ok tt ->
  kb_loadDocuments E = Ok (d :: docs) ->
  kb_state (snd (retrieve E q w))
  = ((kbCalls w
      ++ [KbNew; KbInitialize; KbLoadDocuments; KbSearchDocuments q]
      ++ after_search E (d :: docs) q)%list,
     Some (d :: docs)).
Proof.
  intros H Hn Hi Hl. unfold kb_state, after_search, retrieve, bind,
    get_knowledgeLoader, kb_call, set_knowledgeLoader, lift, ret. simpl.
  rewrite H, Hn. simpl. rewrite Hi. simpl. rewrite Hl. simpl.
  destruct (kb_searchDocuments E (d :: docs) q); simpl;
    rewrite <- ?app_assoc; reflexivity.
Qed.

Lemma retrieve_empty E q w :
  knowledgeLoader w = Some [] ->
  exists tail,
    kbCalls (snd (retrieve E q w)) = (kbCalls w ++ KbLoadDocuments :: tail)%list.
Proof.
  intro H. unfold retrieve, bind, get_knowledgeLoader, kb_call,
    set_knowledgeLoader, lift, ret. simpl. rewrite H. simpl.
  destruct (kb_loadDocuments E) as [loaded|err]; simpl;
    [| eexists; reflexivity].
  destruct (kb_searchDocuments E loaded q); simpl; eexists;
    rewrite <- ?app_assoc; reflexivity.
Qed.

Lemma snd_try_keeps {T A} (f : World -> T) (m : M A) h w :
  (forall e, keeps f (h e)) -> f (snd (try_catch m h w)) = f (snd (m w)).
Proof.
  intro H. unfold try_catch. destruct (m w) as [[a|err] w1]; simpl;
    [reflexivity | apply H].
Qed.

Lemma snd_bind_keeps {T A B} (f : World -> T) (m : M A) (k : A -> M B) w :
  (forall a, keeps f (k a)) -> f (snd (bind m k w)) = f (snd (m w)).
Proof.
  intro H. unfold bind. destruct (m w) as [[a|err] w1]; simpl;
    [apply H | reflexivity].
Qed.

(** After the files, the only part of a turn with the flag on that
    touches the loader is the retrieval. *)
Lemma chat_kb_state E b w :
  useKnowledge b = true ->
  kb_state (snd (chat E b w)) = kb_state (snd (retrieve E (message b) w)).
Proof.
  intro Hflag.
  assert (Hk : forall A (m : M A),
             keeps kbCalls m -> keeps knowledgeLoader m -> keeps kb_state m).
  { intros A m H1 H2 w0. unfold kb_state. rewrite H1, H2. reflexivity. }
  assert (Ha : kb_state (snd (attach E (files b) (message b) w)) = kb_state w).
  { unfold kb_state.
    rewrite (attach_keeps kbCalls E _ _ console_error_kb w),
      (attach_loader E _ _ w). reflexivity. }
  rewrite <- (retrieve_kb_state E (message b) _ _ Ha).
  unfold chat.
  rewrite snd_try_keeps; [| intro; apply Hk; keeps_tac].
  rewrite snd_bind_keeps;
    [| intro; apply Hk; apply dispatch_keeps; auto with keeps].
  unfold augment.
  destruct (attach_total E (files b) (message b) w) as [m1 Hm1].
  unfold bind at 1.
  destruct (attach E (files b) (message b) w) as [[m|err] w1];
    simpl in Hm1; [| discriminate]. simpl.
  rewrite snd_bind_keeps; [| intro; apply Hk; keeps_tac].
  unfold add_knowledge. rewrite Hflag.
  rewrite snd_bind_keeps; [reflexivity |].
  intro k. apply Hk; keeps_tac.
Qed.

(** X5.  The knowledge loader is created and filled once.  On a process
    without a loader, a first turn with the flag on creates the loader,
    initializes it, loads the documents and searches; when documents were
    found, a second turn with the flag on only searches (and generates
    the context when the search returned): it neither creates a loader
    nor loads documents again, and the loader keeps its documents. *)
Theorem knowledge_loader_reused :
  forall E b1 b2 w d docs,
    useKnowledge b1 = true ->
    useKnowledge b2 = true ->
    knowledgeLoader w = None ->
    kb_new E = Ok tt ->
    kb_initialize E = Ok tt ->
    kb_loadDocuments E = Ok (d :: docs) ->
    kbCalls (snd (chat E b1 w))
    = (kbCalls w
       ++ [KbNew; KbInitialize; KbLoadDocuments; KbSearchDocuments (message b1)]
       ++ after_search E (d :: docs) (message b1))%list
    /\ knowledgeLoader (snd (chat E b1 w)) = Some (d :: docs)
    /\ kbCalls (snd (chat E b2 (snd (chat E b1 w))))
       = (kbCalls (snd (chat E b1 w))
          ++ KbSearchDocuments (message b2)
             :: after_search E (d :: docs) (message b2))%list
    /\ knowledgeLoader (snd (chat E b2 (snd (chat E b1 w)))) = Some (d :: docs).
Proof.
  intros E b1 b2 w d docs H1 H2 Hw Hn Hi Hl.
  pose proof (chat_kb_state E b1 w H1) as Hfirst.
  rewrite (retrieve_first E (message b1) w d docs Hw Hn Hi Hl) in Hfirst.
  unfold kb_state in Hfirst. injection Hfirst as Hc1 Hl1.
  pose proof (chat_kb_state E b2 (snd (chat E b1 w)) H2) as Hsecond.
  rewrite (retrieve_loaded E (message b2) _ d docs Hl1) in Hsecond.
  unfold kb_state in Hsecond. injection Hsecond as Hc2 Hl2.
  rewrite Hc2, Hl2, Hc1, Hl1. auto.
Qed.

(** Two turns with the flag on, on a fresh process. *)
Lemma knowledge_loader_reused_witness :
  kbCalls (snd (chat Demo.base
                  (Demo.with_useKnowledge true (Demo.body "second" "llama2"))
                  (Demo.run Demo.base
                     (Demo.with_useKnowledge true (Demo.body "first" "llama2")))))
  = [KbNew; KbInitialize; KbLoadDocuments; KbSearchDocuments "first";
     KbGenerateContext; KbSearchDocuments "second"; KbGenerateContext].
Proof.
  destruct (knowledge_loader_reused Demo.base
              (Demo.with_useKnowledge true (Demo.body "first" "llama2"))
              (Demo.with_useKnowledge true (Demo.body "second" "llama2"))
              (fresh None 0) "doc" []
              eq_refl eq_refl eq_refl eq_refl eq_refl eq_refl)
    as (H1 & _ & H2 & _).
  unfold Demo.run. rewrite H2, H1. reflexivity.
Defined.

(** X6.  A loader without documents loads again: on a process whose
    loader exists and has no document (an empty knowledge directory, or a
    first load that found nothing), every turn with the flag on starts
    with a new load of the documents. *)
Theorem empty_knowledge_reloaded :
  forall E b w,
    useKnowledge b = true ->
    knowledgeLoader w = Some [] ->
    exists tail,
      kbCalls (snd (chat E b w)) = (kbCalls w ++ KbLoadDocuments :: tail)%list.
Proof.
  intros E b w Hflag Hw.
  pose proof (chat_kb_state E b w Hflag) as H.
  unfold kb_state in H. injection H as Hc Hl.
  rewrite Hc. apply retrieve_empty. exact Hw.
Qed.

(** A process whose loader found nothing. *)
Lemma empty_knowledge_reloaded_witness :
  exists tail,
    kbCalls (snd (chat Demo.base
                    (Demo.with_useKnowledge true (Demo.body "hello" "llama2"))
                    (fresh (Some []) 0)))
    = ([] ++ KbLoadDocuments :: tail)%list.
Proof.
  exact (empty_knowledge_reloaded Demo.base
           (Demo.with_useKnowledge true (Demo.body "hello" "llama2"))
           (fresh (Some []) 0) eq_refl eq_refl).
Defined.

(** ** The roles of the history *)

Lemma concat_cons (x : string) l :
  String.concat EmptyString (x :: l) = x ++ String.concat EmptyString l.
Proof. destruct l; simpl; [symmetry; apply append_nil_r | reflexivity]. Qed.

Lemma transcript_speaks user assistant l :
  transcript user assistant (filter speaks l) = transcript user assistant l.
Proof.
  unfold transcript. induction l as [|msg l IH]; [reflexivity |].
  cbn [filter map]. rewrite concat_cons.
  destruct (speaks msg) eqn:Hs.
  - cbn [map]. rewrite concat_cons, IH. reflexivity.
  - rewrite IH. unfold history_line, speaks in *.
    apply orb_false_iff in Hs. destruct Hs as [-> ->]. reflexivity.
Qed.

Lemma slice_last_short {A} n (l : list A) : length l <= n -> slice_last n l = l.
Proof.
  intro H. unfold slice_last.
  replace (length l - n) with 0 by lia. reflexivity.
Qed.

Lemma slice_last_length {A} n (l : list A) : length (slice_last n l) <= n.
Proof. unfold slice_last. rewrite length_skipn. lia. Qed.

(** X7.  A history entry whose role is neither user nor assistant is left
    out of the prompts of Ollama and Gemini, after the window was taken:
    the prompt is the one of the entries of the window that have one of
    the two roles.  For Gemini the heading of the history is written as
    soon as the window is not empty, also when all of its entries are
    left out.  The OpenAI message list carries every entry, with its role
    as it was sent. *)
Theorem other_roles_dropped :
  (forall E message h w,
     formatPrompt E message h w
     = formatPrompt E message (filter speaks (slice_last 6 h)) w)
  /\ (forall h,
        gemini_history h
        = match slice_last 10 h with
          | [] => EmptyString
          | _ => "以下は最近の会話履歴です：" ++ LF
                 ++ transcript "ユーザー: " "アシスタント: "
                      (filter speaks (slice_last 10 h))
                 ++ LF
          end)
  /\ (forall system message h msg,
        In msg h -> In msg (openai_messages system message h)).
Proof.
  split; [| split].
  - intros E message h w. unfold formatPrompt.
    rewrite (slice_last_short 6 (filter speaks (slice_last 6 h))).
    + rewrite transcript_speaks. reflexivity.
    + pose proof (filter_length_le speaks (slice_last 6 h)).
      pose proof (slice_last_length 6 h). lia.
  - intro h. unfold gemini_history.
    destruct (slice_last 10 h) as [|msg l]; [reflexivity |].
    rewrite transcript_speaks. reflexivity.
  - intros system message h msg Hin. unfold openai_messages.
    right. apply in_or_app. left. apply in_map_iff.
    exists msg. split; [destruct msg; reflexivity | exact Hin].
Qed.

(** ** Failures of the backends *)

Lemma random_returns {A} E (g : Rand (Result A)) w :
  (exists s n', g (Math_random E) (draws w) = (Ok s, n')) ->
  exists s w', random E g w = (Ok s, w')
               /\ res w' = res w /\ errors w' = errors w
               /\ backend w' = backend w.
Proof.
  intros (s & n' & H). unfold random. rewrite H. eexists _, _.
  split; [reflexivity |]. auto.
Qed.

(** X8.  When the backend of a turn fails, the failure is the one
    terminal frame of the turn.  With a persona that returns and a message
    that was augmented: a failure of the request to Ollama, or to OpenAI
    with a key configured, is written as the error frame with the message
    of the failure, unchanged; a failure of the Gemini call is written
    with the prefix of Gemini errors; and a Gemini turn on a process
    without a Gemini key is answered by the error of the missing key,
    without the prefix.  In each case the stream is closed after that
    frame. *)
Theorem backend_failure_frame :
  forall E b w e w1 msg,
    res w = [] ->
    persona_returns (aiyuPersonality E) ->
    augment E b w = (Ok e, w1) ->
    (forall req, axios_post E req = Throw msg) ->
    (forall m parts, generateContent E m parts = Throw msg) ->
    (switch_provider (getProviderFromModel (model b)) = Some HOllama ->
     res (snd (chat E b w)) = [Write (FError msg); End])
    /\ (switch_provider (getProviderFromModel (model b)) = Some HOpenAI ->
        key_configured E = true ->
        res (snd (chat E b w)) = [Write (FError msg); End])
    /\ (switch_provider (getProviderFromModel (model b)) = Some HGemini ->
        res (snd (chat E b w))
        = [Write (FError (if genAI E then "Gemini APIエラー: " ++ msg
                          else "Gemini API key not configured")); End]).
Proof.
  intros E b w e w1 msg Hw [Hpe Hpr] Ha Hpost Hgen.
  pose proof (augment_res E b w) as Hres. rewrite Ha in Hres. simpl in Hres.
  assert (Hw1 : res w1 = []) by congruence.
  rewrite chat_unfold, Ha. unfold dispatch.
  split; [| split].
  - intros ->. unfold handleOllamaChat, formatPrompt.
    unfold bind at 1 2.
    destruct (random_returns E (enhancePrompt (aiyuPersonality E) e) w1
                (Hpe _ _ _)) as (s & w2 & -> & Hr2 & _).
    unfold ret, bind, send, lift. simpl. rewrite Hpost. simpl.
    rewrite Hr2, Hw1. reflexivity.
  - intros -> Hk. unfold handleOpenAIChat. rewrite Hk. simpl.
    unfold bind at 1.
    destruct (random_returns E (enhancePrompt (aiyuPersonality E) e) w1
                (Hpe _ _ _)) as (s & w2 & -> & Hr2 & _).
    unfold bind, send, lift. simpl. rewrite Hpost. simpl.
    rewrite Hr2, Hw1. reflexivity.
  - intros ->. unfold handleGeminiChat.
    destruct (genAI E); simpl; [| rewrite Hw1; reflexivity].
    unfold try_catch at 1. unfold bind at 1.
    destruct (random_returns E (enhancePrompt (aiyuPersonality E) e) w1
                (Hpe _ _ _)) as (s & w2 & -> & Hr2 & _).
    unfold try_catch, bind, send, lift. simpl. rewrite Hgen. simpl.
    rewrite Hr2, Hw1. reflexivity.
Qed.

(** A backend that refuses the connection, for a turn to Ollama. *)
Lemma backend_failure_frame_witness :
  res (Demo.run (Demo.with_streams (Throw "connect ECONNREFUSED")
                   (Throw "connect ECONNREFUSED") gemini_down_env)
         (Demo.body "hello" "llama2"))
  = [Write (FError "connect ECONNREFUSED"); End].
Proof.
  refine (proj1 (backend_failure_frame
            (Demo.with_streams (Throw "connect ECONNREFUSED")
               (Throw "connect ECONNREFUSED") gemini_down_env)
            (Demo.body "hello" "llama2") (fresh None 0) "hello" (fresh None 0)
            "connect ECONNREFUSED" eq_refl _ eq_refl _ _) eq_refl).
  - split; intros; eexists _, _; reflexivity.
  - intros [m p | m ms | m ps]; reflexivity.
  - intros m parts. reflexivity.
Defined.

(** ** The attachment section *)

Lemma process_file_stateless E file w w' :
  fst (process_file E file w) = fst (process_file E file w').
Proof.
  unfold process_file.
  destruct (is_text_file file); [reflexivity |].
  destruct (is_image_file file); [reflexivity |].
  destruct (is_pdf_file file); [| reflexivity].
  unfold process_pdf, pdf_try, bind, try_catch, lift, ret, throw, console_error.
  destruct (File.data file) as [d|]; [| reflexivity].
  destruct (Js.truthy_str d && Js.startsWith d "data:"); [| reflexivity].
  destruct (base64_of d) as [[|c b]|]; try reflexivity.
  destruct (pdf E (String c b)) as [text|err]; simpl; [| reflexivity].
  destruct (0 <? String.length text); reflexivity.
Qed.

Lemma process_file_fragment E file w :
  fst (process_file E file w) = Ok (fragment_of E file).
Proof.
  unfold fragment_of.
  rewrite (process_file_stateless E file (fresh None 0) w).
  assert (H : exists frag, fst (process_file E file w) = Ok frag).
  { unfold process_file.
    destruct (is_text_file file); [eexists; reflexivity |].
    destruct (is_image_file file); [eexists; reflexivity |].
    destruct (is_pdf_file file); [apply process_pdf_total |].
    eexists; reflexivity. }
  destruct H as [frag ->]. reflexivity.
Qed.

Lemma process_files_fragments E fs :
  forall ctx w,
    fst (process_files E fs ctx w)
    = Ok (ctx ++ String.concat EmptyString (map (fragment_of E) fs)).
Proof.
  induction fs as [|file fs IH]; intros ctx w.
  - simpl. rewrite append_nil_r. reflexivity.
  - cbn [process_files map]. rewrite concat_cons. unfold bind.
    pose proof (process_file_fragment E file w) as Hf.
    destruct (process_file E file w) as [[frag|err] w1]; simpl in Hf;
      [| discriminate].
    injection Hf as ->. rewrite IH, append_assoc. reflexivity.
Qed.

(** X9.  The attachment section is built file by file, in the order of
    the files: it is the heading followed by one fragment for each file,
    and the fragment of a file depends on that file only, not on the
    other files nor on what happened before.  Without files nothing is
    added, not even the heading.  The fragment of a text file carries the
    name, the type and, between the two markers, the data as it was sent. *)
Theorem attachments_in_order :
  forall E fs enhancedMessage w,
    fst (attach E fs enhancedMessage w)
    = Ok (enhancedMessage
          ++ match fs with
             | [] => EmptyString
             | _ => LF ++ LF ++ "以下のファイルが添付されています：" ++ LF
                    ++ String.concat EmptyString (map (fragment_of E) fs)
             end)
    /\ (forall file w',
          fst (process_file E file w') = Ok (fragment_of E file))
    /\ (forall file,
          is_text_file file = true ->
          fragment_of E file
          = LF ++ "=== ファイル名: " ++ File.name file ++ " ===" ++ LF
            ++ "ファイルタイプ: " ++ Js.or_else (File.type file) "unknown" ++ LF
            ++ "内容:" ++ LF ++ Js.interp (File.data file) ++ LF
            ++ "=== ファイル終了 ===" ++ LF).
Proof.
  intros E fs e w. split; [| split].
  - unfold attach. destruct fs as [|file fs].
    + simpl. rewrite append_nil_r. reflexivity.
    + unfold bind.
      pose proof (process_files_fragments E (file :: fs) files_intro w) as H.
      destruct (process_files E (file :: fs) files_intro w)
        as [[ctx|err] w1]; simpl in H; [| discriminate].
      injection H as ->. cbn [fst]. unfold files_intro, LF.
      cbn [append]. reflexivity.
  - intros file w'. apply process_file_fragment.
  - intros file Ht. unfold fragment_of, process_file. rewrite Ht. reflexivity.
Qed.

(** X10.  A file that comes without a type (or with an empty one) is
    never read as text and never taken as an image, whatever its name: a
    name in .txt or .md is not enough.  It goes through the PDF branch
    when its name ends in .pdf, and is otherwise only named, with the
    type unknown. *)
Theorem untyped_file :
  forall E (file : File.t),
    type_truthy file = false ->
    is_text_file file = false
    /\ is_image_file file = false
    /\ image_parts [file] = []
    /\ process_file E file
       = if Js.endsWith (File.name file) ".pdf" then process_pdf E file
         else ret (LF ++ "[ファイル: " ++ File.name file
                   ++ " (タイプ: unknown)]" ++ LF).
Proof.
  intros E file Ht.
  assert (Htext : is_text_file file = false).
  { unfold is_text_file. rewrite Ht. reflexivity. }
  assert (Himage : is_image_file file = false).
  { unfold is_image_file. rewrite Ht. reflexivity. }
  split; [exact Htext |]. split; [exact Himage |]. split.
  - unfold type_truthy in Ht. simpl.
    destruct (File.type file) as [t|]; [| reflexivity].
    rewrite Ht. destruct (File.data file); reflexivity.
  - unfold process_file. rewrite Htext, Himage.
    unfold is_pdf_file, type_is, other_fragment, type_truthy in *.
    destruct (File.type file) as [t|]; simpl.
    + destruct t; [| discriminate Ht]. simpl. reflexivity.
    + reflexivity.
Qed.

(** A text file that was sent without a type. *)
Lemma untyped_file_witness :
  type_truthy Sample.untyped_notes = false
  /\ fst (process_file Demo.base Sample.untyped_notes (fresh None 0))
     = Ok (LF ++ "[ファイル: notes.txt (タイプ: unknown)]" ++ LF).
Proof.
  split; [reflexivity |].
  destruct (untyped_file Demo.base Sample.untyped_notes eq_refl)
    as (_ & _ & _ & H).
  rewrite H. reflexivity.
Defined.

(** * Properties of the other routes of the server *)

(** ** The list of models and the router *)

Lemma ollama_entries_provider l e :
  In e (Proc.ollama_entries l) -> Proc.provider e = "ollama".
Proof.
  induction l as [|m l IH]; simpl; [contradiction |].
  destruct (Val.get m "name"); simpl; [| contradiction].
  intros [<- | H]; [reflexivity | exact (IH H)].
Qed.

Lemma ollama_models_provider tags e :
  In e (Proc.ollama_models tags) -> Proc.provider e = "ollama".
Proof.
  unfold Proc.ollama_models. destruct tags as [data|]; [| contradiction].
  destruct (Val.truthy data); [| contradiction].
  destruct (Val.get_opt data "models"); try contradiction.
  apply ollama_entries_provider.
Qed.

(** X11.  The provider shown for a model in the list of models is the
    one its turns are routed to, except for the models reported by
    Ollama whose name contains gemini or starts with gpt: these are
    listed as local models, and their turns are routed to Gemini or
    OpenAI.  For all other entries the list and the router agree. *)
Theorem models_agree_with_router :
  forall P tags e s,
    In e (Proc.models P tags) ->
    Proc.name e = VStr s ->
    (getProviderFromModel s = Proc.provider e
     <-> ~ (Proc.provider e = "ollama"
            /\ (Js.includes s "gemini" = true \/ Js.startsWith s "gpt" = true))).
Proof.
  intros P tags e s Hin Hname. unfold Proc.models in Hin.
  apply in_app_or in Hin. destruct Hin as [Hg | Hin].
  - destruct (Proc.set (Proc.GEMINI_API_KEY P)); [| contradiction].
    simpl in Hg. destruct Hg as [<- | [<- | []]]; simpl in Hname;
      injection Hname as <-; (split; [intros _ [H _]; discriminate H
                                     | intros _; reflexivity]).
  - apply in_app_or in Hin. destruct Hin as [Ho | Hl].
    + destruct (Proc.set (Proc.OPENAI_API_KEY P)); [| contradiction].
      simpl in Ho.
      destruct Ho as [<- | [<- | [<- | [<- | [<- | []]]]]]; simpl in Hname;
        injection Hname as <-; (split; [intros _ [H _]; discriminate H
                                       | intros _; reflexivity]).
    + rewrite (ollama_models_provider tags e Hl), router_characterised.
      destruct (Js.includes s "gemini"); [| destruct (Js.startsWith s "gpt")].
      * split; [discriminate | intro H; contradiction H; auto].
      * split; [discriminate | intro H; contradiction H; auto].
      * split; [intros _ [_ [H | H]]; discriminate H | reflexivity].
Qed.

(** An Ollama that reports a model whose name starts with gpt. *)
Lemma models_agree_with_router_witness :
  In {| Proc.name := VStr "gpt-oss:20b"; Proc.provider := "ollama";
        Proc.description := "Ollama gpt-oss:20b (ローカル)" |}
     (Proc.models (Proc.start None None) (Ok Sample.tags))
  /\ getProviderFromModel "gpt-oss:20b" = "openai"
  /\ ~ (getProviderFromModel "gpt-oss:20b" = "ollama").
Proof.
  assert (Hin : In {| Proc.name := VStr "gpt-oss:20b"; Proc.provider := "ollama";
                      Proc.description := "Ollama gpt-oss:20b (ローカル)" |}
                   (Proc.models (Proc.start None None) (Ok Sample.tags))).
  { vm_compute. right. left. reflexivity. }
  split; [exact Hin |]. split; [reflexivity |].
  intro H.
  apply (proj1 (models_agree_with_router (Proc.start None None)
                  (Ok Sample.tags) _ "gpt-oss:20b" Hin eq_refl) H).
  split; [reflexivity | right; reflexivity].
Defined.

(** ** Keys saved while the process runs *)

(** X12.  A Gemini key saved through the settings route of a process
    that started without one does not bring Gemini up: the health route
    then reports Gemini as available and the list of models shows the
    Gemini models, but the Gemini client of the process is still missing,
    so a turn for a Gemini model sends no request and ends with one error
    frame, the one of the missing key when the message was augmented. *)
Theorem gemini_key_saved_at_run_time :
  forall gemini openai k other tags E b w,
    Proc.set gemini = false ->
    Js.truthy_str k = true ->
    switch_provider (getProviderFromModel (model b)) = Some HGemini ->
    let P := Proc.settings (Some k) other (Proc.start gemini openai) in
    Proc.gemini (Proc.health P) = true
    /\ In {| Proc.name := VStr "gemini-1.5-pro"; Proc.provider := "gemini";
             Proc.description := "Google Gemini 1.5 Pro" |} (Proc.models P tags)
    /\ Proc.genAI P = false
    /\ backend (snd (chat (Proc.env P E) b w)) = backend w
    /\ exists msg,
         res (snd (chat (Proc.env P E) b w))
         = (res w ++ [Write (FError msg); End])%list
         /\ (forall e w1, augment (Proc.env P E) b w = (Ok e, w1) ->
               msg = "Gemini API key not configured").
Proof.
  intros gemini openai k other tags E b w Hg Hk Hroute P.
  assert (Hgen : Proc.genAI P = false) by exact Hg.
  assert (Hset : Proc.set (Some k) = true) by exact Hk.
  assert (HG : Proc.GEMINI_API_KEY P = Some k).
  { unfold P, Proc.settings. cbn [Proc.GEMINI_API_KEY]. rewrite Hset.
    reflexivity. }
  split; [unfold Proc.health; cbn [Proc.gemini]; rewrite HG; exact Hset |].
  split; [unfold Proc.models; rewrite HG, Hset; left; reflexivity |].
  split; [exact Hgen |].
  assert (Hrun : exists msg w1,
             snd (augment (Proc.env P E) b w) = w1
             /\ snd (chat (Proc.env P E) b w)
                = snd ((console_error "Error in chat:" ;;;
                        res_write (FError msg) ;;; res_end) w1)
             /\ (forall e w2, augment (Proc.env P E) b w = (Ok e, w2) ->
                   msg = "Gemini API key not configured")).
  { rewrite chat_unfold.
    destruct (augment (Proc.env P E) b w) as [[e|err] w1] eqn:Ha.
    - exists "Gemini API key not configured", w1.
      split; [reflexivity |]. split; [| auto].
      unfold dispatch. rewrite Hroute. unfold handleGeminiChat.
      change (genAI (Proc.env P E)) with (Proc.genAI P). rewrite Hgen.
      reflexivity.
    - exists err, w1. split; [reflexivity |]. split; [reflexivity |].
      intros e w2 H. discriminate H. }
  destruct Hrun as (msg & w1 & Hw1 & Hc & Hm).
  split.
  - rewrite Hc. simpl. rewrite <- Hw1. apply augment_backend.
  - exists msg. split; [| exact Hm].
    rewrite Hc. simpl. rewrite <- Hw1, (augment_res _ b w), <- app_assoc.
    reflexivity.
Qed.

(** A process started without keys, a Gemini key saved, a Gemini turn. *)
Lemma gemini_key_saved_at_run_time_witness :
  Proc.gemini (Proc.health (Proc.settings (Some "AIza-key") None
                              (Proc.start None None))) = true
  /\ res (Demo.run (Proc.env (Proc.settings (Some "AIza-key") None
                                (Proc.start None None)) Demo.base)
            (Demo.body "hello" "gemini-1.5-pro"))
     = [Write (FError "Gemini API key not configured"); End].
Proof.
  destruct (gemini_key_saved_at_run_time None None "AIza-key" None
              (Throw "offline") Demo.base (Demo.body "hello" "gemini-1.5-pro")
              (fresh None 0) eq_refl eq_refl eq_refl)
    as (Hh & _ & _ & _ & msg & Hres & Hmsg).
  split; [exact Hh |].
  unfold Demo.run. rewrite Hres, (Hmsg "hello" (fresh None 0) eq_refl).
  reflexivity.
Defined.

(** X13.  The settings route never removes a key and never touches the
    Gemini client: a key of the process stays set when the route is
    called without that key or with an empty one.  An OpenAI key saved
    through it is in force at once: the next turn for a gpt model, with a
    persona that returns and a message that was augmented, passes the
    check of the key and sends its request to OpenAI. *)
Theorem openai_key_saved_at_run_time :
  forall P geminiApiKey openaiApiKey,
    Proc.set (Proc.OPENAI_API_KEY (Proc.settings geminiApiKey openaiApiKey P))
    = Proc.set openaiApiKey || Proc.set (Proc.OPENAI_API_KEY P)
    /\ Proc.set (Proc.GEMINI_API_KEY (Proc.settings geminiApiKey openaiApiKey P))
       = Proc.set geminiApiKey || Proc.set (Proc.GEMINI_API_KEY P)
    /\ Proc.genAI (Proc.settings geminiApiKey openaiApiKey P) = Proc.genAI P
    /\ (Proc.set openaiApiKey = false ->
        Proc.OPENAI_API_KEY (Proc.settings geminiApiKey openaiApiKey P)
        = Proc.OPENAI_API_KEY P)
    /\ (Proc.set openaiApiKey = true ->
        forall E b w e w1,
          switch_provider (getProviderFromModel (model b)) = Some HOpenAI ->
          persona_returns (aiyuPersonality E) ->
          augment (Proc.env (Proc.settings geminiApiKey openaiApiKey P) E) b w
          = (Ok e, w1) ->
          exists messages,
            backend (snd (chat (Proc.env (Proc.settings geminiApiKey openaiApiKey P) E)
                            b w))
            = (backend w ++ [OpenAIChat (model b) messages])%list).
Proof.
  intros P g o.
  split; [unfold Proc.settings; simpl; destruct (Proc.set o) eqn:Ho;
          [exact Ho | reflexivity] |].
  split; [unfold Proc.settings; simpl; destruct (Proc.set g) eqn:Hg;
          [exact Hg | reflexivity] |].
  split; [reflexivity |].
  split; [intro Ho; unfold Proc.settings; simpl; rewrite Ho; reflexivity |].
  intros Ho E b w e w1 Hroute [Hpe _] Ha.
  set (E' := Proc.env (Proc.settings g o P) E) in *.
  assert (Hkey : key_configured E' = true).
  { unfold E', key_configured, Proc.env, with_keys, Proc.settings. simpl.
    rewrite Ho. exact Ho. }
  pose proof (augment_backend E' b w) as Hb. rewrite Ha in Hb. simpl in Hb.
  destruct (Hpe e (Math_random E') (draws w1)) as (system & n & Hp).
  destruct (handleOpenAIChat_sends_history E' e (model b) (history b) w1
              system n Hkey Hp) as (Hsend & _).
  exists (openai_messages system e (history b)).
  unfold chat. rewrite snd_try_keeps; [| intro; keeps_tac].
  unfold bind. rewrite Ha. unfold dispatch. rewrite Hroute.
  rewrite Hsend, Hb. reflexivity.
Qed.

(** A process started without keys, an OpenAI key saved, a gpt turn. *)
Lemma openai_key_saved_at_run_time_witness :
  Proc.set (Some "sk-live") = true
  /\ exists messages,
       backend (Demo.run (Proc.env (Proc.settings None (Some "sk-live")
                                      (Proc.start None None)) Demo.base)
                  (Demo.body "hello" "gpt-4"))
       = [OpenAIChat "gpt-4" messages].
Proof.
  split; [reflexivity |].
  destruct (openai_key_saved_at_run_time (Proc.start None None) None
              (Some "sk-live")) as (_ & _ & _ & _ & H).
  apply (H eq_refl Demo.base (Demo.body "hello" "gpt-4") (fresh None 0)
           "hello" (fresh None 0) eq_refl).
  - split; intros; eexists _, _; reflexivity.
  - reflexivity.
Defined.

(** * Properties of the CORS options and of the worker *)

(** ** The origin check *)

Lemma span_append p s :
  fst (Cors.span p s) ++ snd (Cors.span p s) = s.
Proof.
  induction s as [|a s IH]; simpl; [reflexivity |].
  destruct (p a); [| reflexivity].
  destruct (Cors.span p s) as [run rest]. simpl in *. rewrite IH. reflexivity.
Qed.

Lemma preview_shape s :
  Cors.preview s = true ->
  Js.startsWith s "https://" = true /\ Js.endsWith s ".pages.dev" = true.
Proof.
  unfold Cors.preview. destruct (Js.startsWith s "https://") eqn:Hs;
    [| discriminate].
  intro H. split; [reflexivity |].
  pose proof (prefix_slice _ _ Hs) as H1.
  change (String.length "https://") with 8 in H1.
  pose proof (span_append Cors.is_label (Js.slice_from 8 s)) as H2.
  destruct (Cors.span Cors.is_label (Js.slice_from 8 s)) as [label rest].
  cbn [fst snd] in H2.
  apply andb_true_iff in H. destruct H as [H H3].
  apply andb_true_iff in H. destruct H as [_ Hr].
  pose proof (prefix_slice _ _ Hr) as H4.
  change (String.length ".ai-chat-frontend-") with 18 in H4.
  pose proof (span_append Cors.is_alnum (Js.slice_from 18 rest)) as H5.
  destruct (Cors.span Cors.is_alnum (Js.slice_from 18 rest)) as [id tail].
  cbn [fst snd] in H5.
  apply andb_true_iff in H3. destruct H3 as [_ Ht].
  apply String.eqb_eq in Ht. subst tail.
  rewrite <- H1, <- H2, <- H4, <- H5.
  rewrite <- !append_assoc. apply endsWith_append.
Qed.

(** X14.  The origin check of the CORS options never rejects: for every
    origin, and without one, the callback is called with [true].  The
    list of allowed origins and the pattern of the preview deployments
    (an https origin that ends in .pages.dev) only decide whether the
    origin is written on the console as blocked. *)
Theorem cors_never_rejects :
  forall o : option string,
    Cors.allow (Cors.origin o) = true
    /\ (forall s,
          Cors.blocked_log (Cors.origin o) = Some s <->
          o = Some s /\ s <> EmptyString
          /\ ~ In s Cors.allowedOrigins /\ Cors.preview s = false)
    /\ (forall s, Cors.preview s = true ->
          Js.startsWith s "https://" = true
          /\ Js.endsWith s ".pages.dev" = true).
Proof.
  intro o. split; [| split; [| exact preview_shape]].
  - destruct o as [s|]; [| reflexivity]. unfold Cors.origin.
    destruct (negb (Js.truthy_str s)); [reflexivity |].
    destruct (existsb (String.eqb s) Cors.allowedOrigins || Cors.preview s);
      reflexivity.
  - intro s. unfold Cors.origin. destruct o as [t|].
    + destruct t as [|a t].
      * simpl. split; [intro X; discriminate X |]. intros (H & Hne & _).
        injection H as <-. contradiction Hne. reflexivity.
      * cbn [Js.truthy_str negb].
        destruct (existsb (String.eqb (String a t)) Cors.allowedOrigins) eqn:Hl.
        -- cbn [orb Cors.blocked_log]. split; [intro X; discriminate X |]. intros (H & _ & Hn & _).
           injection H as <-. exfalso. apply Hn.
           apply existsb_exists in Hl. destruct Hl as (x & Hx & He).
           apply String.eqb_eq in He. subst x. exact Hx.
        -- cbn [orb]. destruct (Cors.preview (String a t)) eqn:Hp;
             cbn [Cors.blocked_log].
           ++ split; [intro X; discriminate X |]. intros (H & _ & _ & Hf).
              injection H as <-. rewrite Hp in Hf. discriminate Hf.
           ++ split.
              ** intro H. injection H as <-.
                 split; [reflexivity |]. split; [intro X; discriminate X |].
                 split; [| exact Hp]. intro Hin.
                 assert (He : existsb (String.eqb (String a t))
                                Cors.allowedOrigins = true).
                 { apply existsb_exists. exists (String a t).
                   split; [exact Hin | apply String.eqb_refl]. }
                 rewrite Hl in He. discriminate He.
              ** intros (H & _). injection H as <-. reflexivity.
    + cbn [Cors.blocked_log].
      split; [intro X; discriminate X | intros (H & _); discriminate H].
Qed.

(** ** The answers of the worker *)

(** X15.  Every answer of the worker carries the three CORS headers, the
    failures and the answer to an unknown path included, and its status
    is 200, 404 or 500.  A request with the method OPTIONS is answered
    with 200 and no content whatever its path, without any request to a
    backend and without a draw; so is every answer with the status 404. *)
Theorem worker_response_headers :
  forall env net jst request draws n,
    (forall h, In h Api.corsHeaders ->
       In h (Api.headers (fst (fst (Api.fetch env net jst request draws n)))))
    /\ In (Api.code (fst (fst (Api.fetch env net jst request draws n))))
          [200; 404; 500]
    /\ (Api.method request = "OPTIONS" ->
        Api.fetch env net jst request draws n
        = (({| Api.code := 200; Api.headers := Api.corsHeaders;
               Api.content := Api.CNull |}, []), n))
    /\ (Api.code (fst (fst (Api.fetch env net jst request draws n))) = 404 ->
        snd (fst (Api.fetch env net jst request draws n)) = []
        /\ snd (Api.fetch env net jst request draws n) = n).
Proof.
  intros env net jst request draws n.
  assert (Hj : forall h, In h Api.corsHeaders -> In h Api.jsonHeaders).
  { intros h Hh. unfold Api.jsonHeaders. apply in_or_app. left. exact Hh. }
  unfold Api.fetch.
  destruct (String.eqb (Api.method request) "OPTIONS") eqn:Hm.
  { simpl. repeat split; auto. }
  destruct (String.eqb (Api.pathname request) "/api/health").
  { simpl. split; [exact Hj |]. split; [auto |].
    split; [intro H; rewrite H in Hm; discriminate Hm |].
    intro H. discriminate H. }
  destruct (String.eqb (Api.pathname request) "/api/models").
  { simpl. split; [exact Hj |]. split; [auto |].
    split; [intro H; rewrite H in Hm; discriminate Hm |].
    intro H. discriminate H. }
  destruct (String.eqb (Api.pathname request) "/api/chat"
            && String.eqb (Api.method request) "POST").
  - destruct (Api.body request) as [b|e].
    + destruct (Api.chat env net jst b draws n) as [[r calls] n'].
      destruct r as [v|e]; simpl; (split; [exact Hj |]); (split; [auto |]);
        (split; [intro H; rewrite H in Hm; discriminate Hm |]);
        intro H; discriminate H.
    + simpl. split; [exact Hj |]. split; [auto |].
      split; [intro H; rewrite H in Hm; discriminate Hm |].
      intro H. discriminate H.
  - simpl. split; [auto |]. split; [auto |].
    split; [intro H; rewrite H in Hm; discriminate Hm | auto].
Qed.

(** ** What the worker adds to a message *)

(** X16.  In the worker the date comes before the search: a message with
    one of the date keywords gets the date of the day and no search is
    made for it, also in research mode.  Without a date keyword a search
    is made exactly when research mode is on or the message has one of
    the search keywords, and both the search key and the engine
    identifier are set; what is found is added only when it is not empty.
    In every case the message is the start of what is sent on. *)
Theorem worker_date_before_search :
  forall env net jst b,
    (Api.isDateQuery (Api.message b) = true ->
     snd (Api.enhance env net jst b) = []
     /\ fst (Api.enhance env net jst b)
        = Api.message b ++ LF ++ LF ++ "現在の日付情報：今日は"
          ++ Api.fullFormatted (Api.getCurrentDateInfo jst)
          ++ "です。西暦" ++ Js.of_nat (Api.fullYear jst) ++ "年、"
          ++ Api.wareki (Api.getCurrentDateInfo jst)
          ++ "です。この情報を使って正確に回答してください。")
    /\ (Api.isDateQuery (Api.message b) = false ->
        snd (Api.enhance env net jst b)
        = if (Api.useResearch b || Api.shouldSearch (Api.message b))
             && Api.set (Api.SEARCH_API_KEY env)
             && Api.set (Api.SEARCH_ENGINE_ID env)
          then [Api.SearchCall (Api.message b)] else [])
    /\ (snd (Api.enhance env net jst b) = [] ->
        Api.isDateQuery (Api.message b) = false ->
        fst (Api.enhance env net jst b) = Api.message b)
    /\ Js.startsWith (fst (Api.enhance env net jst b)) (Api.message b) = true.
Proof.
  intros env net jst b.
  assert (Hpre : forall x, Js.startsWith (Api.message b ++ x) (Api.message b) = true).
  { intro x. unfold Js.startsWith.
    rewrite <- (append_nil_r (Api.message b)) at 1.
    apply prefix_append.
    induction (Api.message b) as [|a m IH]; simpl; [reflexivity |].
    destruct (ascii_dec a a); [exact IH | contradiction]. }
  unfold Api.enhance.
  destruct (Api.isDateQuery (Api.message b)).
  - split; [intros _; split; reflexivity |].
    split; [intro H; discriminate H |].
    split; [intros _ H; discriminate H | apply Hpre].
  - split; [intro H; discriminate H |].
    unfold Api.searchWeb.
    destruct (Api.useResearch b || Api.shouldSearch (Api.message b)).
    + destruct (Api.set (Api.SEARCH_API_KEY env));
        destruct (Api.set (Api.SEARCH_ENGINE_ID env)); simpl;
        try (split; [reflexivity |]; split; [reflexivity |];
             rewrite <- (append_nil_r (Api.message b)) at 1; apply Hpre).
      split; [reflexivity |]. split; [intro H; discriminate H |].
      match goal with |- context [Js.truthy_str ?t] => destruct (Js.truthy_str t) end;
        [apply Hpre |].
      rewrite <- (append_nil_r (Api.message b)) at 1. apply Hpre.
    + simpl. split; [reflexivity |]. split; [reflexivity |].
      rewrite <- (append_nil_r (Api.message b)) at 1. apply Hpre.
Qed.

(** A question about the date, asked in research mode. *)
Lemma worker_date_before_search_witness :
  Api.isDateQuery "今日は何曜日？" = true
  /\ snd (Api.enhance Edge.bindings Edge.net Edge.jst
            {| Api.message := "今日は何曜日？"; Api.model := None;
               Api.usePersonality := false; Api.useResearch := true |})
     = [].
Proof.
  split; [vm_compute; reflexivity |].
  destruct (worker_date_before_search Edge.bindings Edge.net Edge.jst
              {| Api.message := "今日は何曜日？"; Api.model := None;
                 Api.usePersonality := false; Api.useResearch := true |})
    as (H & _).
  assert (Hd : Api.isDateQuery "今日は何曜日？" = true) by (vm_compute; reflexivity).
  exact (proj1 (H Hd)).
Defined.

(** ** The providers of the worker *)

Lemma route_prefix :
  forall model,
    Api.route model
    = if Js.startsWith model "gemini" then Some HGemini
      else if Js.startsWith model "gpt" then Some HOpenAI else None.
Proof. reflexivity. Qed.

Lemma enhance_calls_search :
  forall env net jst b c,
    In c (snd (Api.enhance env net jst b)) -> c = Api.SearchCall (Api.message b).
Proof.
  intros env net jst b c. unfold Api.enhance, Api.searchWeb.
  destruct (Api.isDateQuery (Api.message b)); [intros [] |].
  destruct (Api.useResearch b || Api.shouldSearch (Api.message b)); [| intros []].
  destruct (negb (Api.set (Api.SEARCH_API_KEY env))
            || negb (Api.set (Api.SEARCH_ENGINE_ID env))); simpl.
  - intros [].
  - intros [H | []]. symmetry. exact H.
Qed.

(** X17.  A model whose name starts neither with gemini nor with gpt
    is refused by the worker: the chat throws the message of the
    unsupported model, which the route answers with the status 500.  No
    model is asked and no draw is made; the only request that can have
    been made is the search for the message, which comes before the
    check of the model. *)
Theorem worker_unsupported_model :
  forall env net jst b draws n m,
    Api.model b = Some m ->
    Js.startsWith m "gemini" = false ->
    Js.startsWith m "gpt" = false ->
    Api.chat env net jst b draws n
    = ((Throw Api.unsupported, snd (Api.enhance env net jst b)), n)
    /\ (forall c, In c (snd (fst (Api.chat env net jst b draws n))) ->
          c = Api.SearchCall (Api.message b))
    /\ forall meth,
         meth = "POST" ->
         fst (fst (Api.fetch env net jst
                     {| Api.method := meth; Api.pathname := "/api/chat";
                        Api.body := Ok b |} draws n))
         = {| Api.code := 500; Api.headers := Api.jsonHeaders;
              Api.content := Api.CJson (VObj [("error", VStr Api.unsupported)]) |}.
Proof.
  intros env net jst b draws n m Hm Hg Ho.
  assert (Hc : Api.chat env net jst b draws n
               = ((Throw Api.unsupported, snd (Api.enhance env net jst b)), n)).
  { unfold Api.chat. rewrite Hm.
    destruct (Api.enhance env net jst b) as [e calls].
    rewrite route_prefix, Hg, Ho. reflexivity. }
  split; [exact Hc |]. split.
  - rewrite Hc. simpl. apply enhance_calls_search.
  - intros meth ->. unfold Api.fetch. cbn [Api.method Api.pathname Api.body].
    change (String.eqb "POST" "OPTIONS") with false.
    change (String.eqb "/api/chat" "/api/health") with false.
    change (String.eqb "/api/chat" "/api/models") with false.
    change (String.eqb "/api/chat" "/api/chat" && String.eqb "POST" "POST")
      with true.
    cbv iota. rewrite Hc. reflexivity.
Qed.

(** A model of the local provider, which the worker does not have. *)
Lemma worker_unsupported_model_witness :
  Api.chat Edge.bindings Edge.net Edge.jst
    {| Api.message := "hello"; Api.model := Some "llama3";
       Api.usePersonality := true; Api.useResearch := true |}
    (Demo.draws_of (1 # 10) (9 # 10)) 0
  = ((Throw Api.unsupported, [Api.SearchCall "hello"]), 0).
Proof.
  destruct (worker_unsupported_model Edge.bindings Edge.net Edge.jst
              {| Api.message := "hello"; Api.model := Some "llama3";
                 Api.usePersonality := true; Api.useResearch := true |}
              (Demo.draws_of (1 # 10) (9 # 10)) 0 "llama3" eq_refl eq_refl eq_refl) as (H & _).
  rewrite H. vm_compute. reflexivity.
Defined.

Lemma gpt_not_gemini :
  forall m, Js.startsWith m "gpt" = true -> Js.startsWith m "gemini" = false.
Proof.
  intros m. unfold Js.startsWith.
  destruct m as [|a [|b m]]; cbn [String.prefix].
  - intro H. discriminate H.
  - destruct (ascii_dec "g" a); intro H; discriminate H.
  - destruct (ascii_dec "g" a); [| intro H; discriminate H].
    destruct (ascii_dec "p" b) as [Hp|]; [| intro H; discriminate H].
    destruct (ascii_dec "e" b) as [He|]; [| reflexivity].
    rewrite <- He in Hp. discriminate Hp.
Qed.

(** X18.  Every model in the list that the worker serves is routed, to
    the provider that the server picks for the same name.  For a name
    without the word gemini the server picks what the worker picks, and
    the local provider where the worker refuses.  A name with the word
    gemini always goes to Gemini on the server, so a name that starts
    with gpt and has the word gemini later goes to OpenAI in the worker
    and to Gemini on the server. *)
Theorem worker_router_agrees :
  (forall name title, In (name, title) Api.listed ->
     exists h, Api.route name = Some h
               /\ switch_provider (getProviderFromModel name) = Some h)
  /\ (forall model, Js.includes model "gemini" = false ->
        switch_provider (getProviderFromModel model)
        = Some (match Api.route model with Some h => h | None => HOllama end))
  /\ (forall model, Js.includes model "gemini" = true ->
        switch_provider (getProviderFromModel model) = Some HGemini)
  /\ (forall model, Js.startsWith model "gpt" = true ->
        Js.includes model "gemini" = true ->
        Api.route model = Some HOpenAI
        /\ switch_provider (getProviderFromModel model) = Some HGemini).
Proof.
  split; [| split; [| split]].
  - intros name title H.
    repeat (destruct H as [H | H];
            [injection H as <- _; eexists; split; vm_compute; reflexivity |]).
    destruct H.
  - intros model Hi. rewrite route_prefix, router_characterised, Hi.
    destruct (Js.startsWith model "gemini") eqn:E1.
    + unfold Js.startsWith in E1. rewrite (includes_prefix _ _ E1) in Hi.
      discriminate Hi.
    + destruct (Js.startsWith model "gpt"); reflexivity.
  - intros model Hi. rewrite router_characterised, Hi. reflexivity.
  - intros model Hp Hi. split.
    + rewrite route_prefix, (gpt_not_gemini model Hp), Hp. reflexivity.
    + rewrite router_characterised, Hi. reflexivity.
Qed.

(** A model name that the two routers send to different providers. *)
Lemma worker_router_agrees_witness :
  Api.route "gpt-gemini" = Some HOpenAI
  /\ switch_provider (getProviderFromModel "gpt-gemini") = Some HGemini.
Proof.
  destruct worker_router_agrees as (_ & _ & _ & H).
  apply (H "gpt-gemini"); vm_compute; reflexivity.
Defined.

(** ** The search of the worker *)

Lemma startsWith_append :
  forall a x, Js.startsWith (a ++ x) a = true.
Proof.
  intros a x. unfold Js.startsWith. apply prefix_append.
  induction a as [|c a IH]; cbn [String.prefix]; [reflexivity |].
  destruct (ascii_dec c c) as [_ | N]; [exact IH | contradiction].
Qed.

Lemma item_text_numbered :
  forall i item t,
    Api.item_text i item = Ok t ->
    Js.startsWith t (Js.of_nat (i + 1) ++ ". ") = true.
Proof.
  intros i item t. unfold Api.item_text.
  destruct (Val.get item "title") as [a|]; [| intro H; discriminate H].
  destruct (Val.get item "snippet") as [b|]; [| intro H; discriminate H].
  destruct (Val.get item "link") as [c|]; [| intro H; discriminate H].
  intro H. injection H as <-.
  match goal with
  | |- Js.startsWith (_ ++ String _ (String _ ?rest)) _ = true =>
      change (Js.startsWith (Js.of_nat (i + 1) ++ ". " ++ rest)
                (Js.of_nat (i + 1) ++ ". ") = true)
  end.
  rewrite <- (append_assoc (Js.of_nat (i + 1)) ". ").
  apply startsWith_append.
Qed.

Lemma items_text_numbered :
  forall items i ts,
    Api.items_text i items = Ok ts ->
    length ts = length items
    /\ forall k t, nth_error ts k = Some t ->
         Js.startsWith t (Js.of_nat (i + k + 1) ++ ". ") = true.
Proof.
  induction items as [|item rest IH]; intros i ts; cbn [Api.items_text].
  - intro H. injection H as <-. split; [reflexivity |].
    intros [|k] t H; discriminate H.
  - destruct (Api.item_text i item) as [t0|] eqn:E0; [| intro H; discriminate H].
    destruct (Api.items_text (S i) rest) as [ts0|] eqn:E1;
      [| intro H; discriminate H].
    intro H. injection H as <-.
    destruct (IH (S i) ts0 E1) as (Hl & Hn).
    split; [simpl; rewrite Hl; reflexivity |].
    intros [|k] t Ht; simpl in Ht.
    + injection Ht as <-. rewrite Nat.add_0_r.
      exact (item_text_numbered i item t0 E0).
    + replace (i + S k + 1) with (S i + k + 1) by lia. exact (Hn k t Ht).
Qed.

(** X19.  The search of the worker never fails and makes at most one
    request.  Without the search key or without the engine identifier it
    returns the empty text and makes no request; with both it makes one
    request, for the query as it is.  A request that fails, data without
    items and an item that cannot be read all give the empty text.
    Otherwise there is one text for each item, the texts are joined by an
    empty line, and the text of the item of index [k] starts with the
    number [k + 1] and a full stop. *)
Theorem search_numbered :
  forall env net query,
    (Api.set (Api.SEARCH_API_KEY env) && Api.set (Api.SEARCH_ENGINE_ID env)
     = false ->
     Api.searchWeb env net query = (EmptyString, []))
    /\ (Api.set (Api.SEARCH_API_KEY env) && Api.set (Api.SEARCH_ENGINE_ID env)
        = true ->
        snd (Api.searchWeb env net query) = [Api.SearchCall query]
        /\ (forall e, Api.search net query = Throw e ->
              fst (Api.searchWeb env net query) = EmptyString)
        /\ (forall data, Api.search net query = Ok data ->
              Val.get data "items" = Ok VUndefined ->
              fst (Api.searchWeb env net query) = EmptyString)
        /\ (forall data items,
              Api.search net query = Ok data ->
              Val.get data "items" = Ok (VArr items) ->
              (forall e, Api.items_text 0 items = Throw e ->
                 fst (Api.searchWeb env net query) = EmptyString)
              /\ (forall ts, Api.items_text 0 items = Ok ts ->
                    fst (Api.searchWeb env net query)
                    = String.concat (LF ++ LF) ts
                    /\ length ts = length items
                    /\ forall k t, nth_error ts k = Some t ->
                         Js.startsWith t (Js.of_nat (k + 1) ++ ". ") = true))).
Proof.
  intros env net query. unfold Api.searchWeb.
  destruct (Api.set (Api.SEARCH_API_KEY env));
    destruct (Api.set (Api.SEARCH_ENGINE_ID env)); cbn [andb negb orb];
    try (split; [reflexivity | intro H; discriminate H]).
  split; [intro H; discriminate H | intros _].
  cbn [fst snd]. split; [reflexivity |]. split; [| split].
  - intros e ->. reflexivity.
  - intros data -> Hi. unfold Api.search_text. rewrite Hi. reflexivity.
  - intros data items -> Hi. unfold Api.search_text. rewrite Hi.
    cbn [Val.truthy negb orb]. split.
    + intros e He. destruct items as [|x l]; [discriminate He |].
      cbn [Api.length_is_zero]. rewrite He. reflexivity.
    + intros ts Hts. destruct (items_text_numbered items 0 ts Hts) as (Hl & Hn).
      split; [| split; [exact Hl | exact Hn]].
      destruct items as [|x l].
      * cbn [Api.length_is_zero]. simpl in Hts. injection Hts as <-. reflexivity.
      * cbn [Api.length_is_zero]. rewrite Hts. reflexivity.
Qed.

(** Two pages found for a query. *)
Lemma search_numbered_witness :
  snd (Api.searchWeb Edge.bindings Edge.net "rocq") = [Api.SearchCall "rocq"]
  /\ Js.startsWith (fst (Api.searchWeb Edge.bindings Edge.net "rocq"))
       "1. Rocq" = true.
Proof.
  destruct (search_numbered Edge.bindings Edge.net "rocq") as (_ & H).
  destruct (H eq_refl) as (Hc & _).
  split; [exact Hc | vm_compute; reflexivity].
Defined.

(** ** The OpenAI request of the worker *)

Lemma or_truthy :
  forall a b, Val.truthy b = true -> Val.truthy (Val.or a b) = true.
Proof.
  intros a b Hb. unfold Val.or.
  destruct (Val.truthy a) eqn:E; [exact E | exact Hb].
Qed.

Lemma openai_reply_not_ok :
  forall response, Api.ok response = false ->
    exists e, Api.openai_reply response = Throw e.
Proof.
  intros response Hok. unfold Api.openai_reply. rewrite Hok. cbn [negb].
  destruct (Api.json response) as [d|e]; [| eexists; reflexivity].
  destruct (Api.status response =? 401); [eexists; reflexivity |].
  destruct (Api.status response =? 429); [eexists; reflexivity |].
  destruct (Api.status response =? 400).
  - destruct (Api.error_message d _); eexists; reflexivity.
  - destruct (Api.error_message d _); eexists; reflexivity.
Qed.

Lemma openai_reply_truthy :
  forall response v, Api.openai_reply response = Ok v ->
    Api.ok response = true /\ Val.truthy v = true.
Proof.
  intros response v H.
  destruct (Api.ok response) eqn:Hok.
  - split; [reflexivity |]. unfold Api.openai_reply in H. rewrite Hok in H.
    cbn [negb] in H.
    destruct (Api.json response) as [d|]; [| discriminate H].
    destruct (Val.get d "choices") as [ch|]; [| discriminate H].
    destruct (negb (Val.truthy ch) || Api.length_is_zero ch); [discriminate H |].
    destruct (Val.index0 ch) as [first|]; [| discriminate H].
    injection H as <-. apply or_truthy. reflexivity.
  - destruct (openai_reply_not_ok response Hok) as (e & He).
    rewrite He in H. discriminate H.
Qed.

(** X20.  The OpenAI request of the worker.  Without a key it throws the
    message of the missing key before any request; with a key it makes
    exactly one request, with the model and the message it was given.  A
    failed connection is rethrown, and so is whatever is thrown with the
    word fetch in its message, under the message of the failed
    connection.  A response that is not ok never gives a reply: with a
    readable body the status 401 gives the message of the wrong key and
    the status 429 that of the quota.  What is returned comes from a
    response that is ok and is never an empty or missing reply. *)
Theorem worker_openai_errors :
  forall env net message model,
    (Api.set (Api.OPENAI_API_KEY env) = false ->
     Api.callOpenAI env net message model = (Throw Api.missing_key, []))
    /\ (Api.set (Api.OPENAI_API_KEY env) = true ->
        snd (Api.callOpenAI env net message model)
        = [Api.OpenAICall model message]
        /\ (forall e, Api.openai net model message = Throw e ->
              fst (Api.callOpenAI env net message model)
              = Throw (if Js.includes e "fetch" then Api.no_connection else e))
        /\ (forall response, Api.openai net model message = Ok response ->
              Api.ok response = false ->
              (exists e, fst (Api.callOpenAI env net message model) = Throw e)
              /\ (forall d, Api.json response = Ok d ->
                    (Api.status response = 401 ->
                     fst (Api.callOpenAI env net message model)
                     = Throw Api.invalid_key)
                    /\ (Api.status response = 429 ->
                        fst (Api.callOpenAI env net message model)
                        = Throw Api.over_quota)))
        /\ (forall v, fst (Api.callOpenAI env net message model) = Ok v ->
              Val.truthy v = true
              /\ exists response,
                   Api.openai net model message = Ok response
                   /\ Api.ok response = true)).
Proof.
  intros env net message model. unfold Api.callOpenAI.
  destruct (Api.set (Api.OPENAI_API_KEY env)); cbn [negb];
    [| split; [reflexivity | intro H; discriminate H]].
  split; [intro H; discriminate H | intros _].
  cbn [fst snd]. split; [reflexivity |]. split; [| split].
  - intros e ->. cbn [Api.openai_catch].
    destruct (Js.includes e "fetch"); reflexivity.
  - intros response -> Hok. split.
    + destruct (openai_reply_not_ok response Hok) as (e & ->).
      cbn [Api.openai_catch]. destruct (Js.includes e "fetch"); eexists; reflexivity.
    + intros d Hd. unfold Api.openai_reply. rewrite Hok, Hd. cbn [negb].
      split; intros ->; reflexivity.
  - intros v. destruct (Api.openai net model message) as [response|e].
    + destruct (Api.openai_reply response) as [w|e] eqn:E.
      * cbn [Api.openai_catch]. intro H. injection H as <-.
        destruct (openai_reply_truthy response w E) as (Hok & Hv).
        split; [exact Hv |]. exists response. split; [reflexivity | exact Hok].
      * cbn [Api.openai_catch].
        destruct (Js.includes e "fetch"); intro H; discriminate H.
    + cbn [Api.openai_catch].
      destruct (Js.includes e "fetch"); intro H; discriminate H.
Qed.

(** A key that OpenAI refuses. *)
Lemma worker_openai_errors_witness :
  Api.callOpenAI Edge.bindings Edge.net "hello" "gpt-4o"
  = (Throw Api.invalid_key, [Api.OpenAICall "gpt-4o" "hello"]).
Proof.
  destruct (worker_openai_errors Edge.bindings Edge.net "hello" "gpt-4o")
    as (_ & H).
  destruct (H eq_refl) as (Hc & _ & Hr & _).
  destruct (Hr _ eq_refl eq_refl) as (_ & Hd).
  destruct (Hd _ eq_refl) as (H401 & _).
  specialize (H401 eq_refl).
  destruct (Api.callOpenAI Edge.bindings Edge.net "hello" "gpt-4o") as [r c].
  cbn [fst snd] in *. rewrite Hc, H401. reflexivity.
Defined.

(** ** The Gemini request of the worker *)

Lemma reply_of_truthy :
  forall data v, Worker.reply_of data = Ok v -> Val.truthy v = true.
Proof.
  intros data v. unfold Worker.reply_of.
  destruct (Val.get data "candidates"); [| intro H; discriminate H].
  intro H. injection H as <-. apply or_truthy. reflexivity.
Qed.

(** The text sent by [callGemini] ends with the message, and a draw is
    made exactly when the persona is on. *)
Lemma worker_gemini_shape :
  forall fetch message model usePersonality draws n,
    Js.endsWith
      (fst (fst (Worker.callGemini fetch message model usePersonality draws n)))
      message = true
    /\ snd (Worker.callGemini fetch message model usePersonality draws n)
       = (if usePersonality then S n else n).
Proof.
  intros fetch message model usePersonality draws n.
  unfold Worker.callGemini, Worker.systemPrompt.
  destruct usePersonality; cbn [fst snd].
  - split; [apply endsWith_append | reflexivity].
  - split; [apply (endsWith_append EmptyString) | reflexivity].
Qed.

(** X21.  The Gemini request of the worker is made to one of three
    models, whatever the model asked for, and a model that the switch
    does not know is replaced by the default one.  The message is the end
    of the text that is sent; without the persona it is all of it and no
    draw is made, with the persona exactly one draw is made.  A response
    that is not ok throws its text after a fixed prefix, and what is
    returned is never an empty or missing reply. *)
Theorem worker_gemini_request :
  forall fetch message model usePersonality draws n,
    In (Worker.apiModel model)
       ["gemini-2.0-flash-exp"; "gemini-1.5-pro-latest";
        "gemini-1.5-flash-latest"]
    /\ Js.endsWith
         (fst (fst (Worker.callGemini fetch message model usePersonality draws n)))
         message = true
    /\ snd (Worker.callGemini fetch message model usePersonality draws n)
       = (if usePersonality then S n else n)
    /\ (usePersonality = false ->
        fst (fst (Worker.callGemini fetch message model usePersonality draws n))
        = message)
    /\ (forall sent,
          sent = fst (fst (Worker.callGemini fetch message model
                             usePersonality draws n)) ->
          Worker.ok (fetch (Worker.apiModel model) sent) = false ->
          snd (fst (Worker.callGemini fetch message model usePersonality draws n))
          = Throw ("Gemini API error: "
                   ++ Worker.text (fetch (Worker.apiModel model) sent)))
    /\ (forall v,
          snd (fst (Worker.callGemini fetch message model usePersonality draws n))
          = Ok v -> Val.truthy v = true).
Proof.
  intros fetch message model usePersonality draws n.
  split.
  { unfold Worker.apiModel.
    repeat match goal with
           | |- context [String.eqb ?a ?b] => destruct (String.eqb a b)
           end; simpl; auto. }
  unfold Worker.callGemini, Worker.systemPrompt.
  destruct usePersonality; cbn [fst snd].
  - split; [apply endsWith_append |]. split; [reflexivity |].
    split; [intro H; discriminate H |]. split.
    + intros sent -> Hok. rewrite Hok. reflexivity.
    + intros v.
      match goal with |- context [negb (Worker.ok ?r)] => destruct r as [o t [d|e]] end;
        cbn [Worker.ok Worker.json]; destruct o; cbn [negb]; intro H;
        try discriminate H.
      exact (reply_of_truthy d v H).
  - split; [apply (endsWith_append EmptyString) |]. split; [reflexivity |].
    split; [reflexivity |]. split.
    + intros sent -> Hok. cbn [append] in Hok |- *. rewrite Hok. reflexivity.
    + intros v. cbn [append].
      match goal with |- context [negb (Worker.ok ?r)] => destruct r as [o t [d|e]] end;
        cbn [Worker.ok Worker.json]; destruct o; cbn [negb]; intro H;
        try discriminate H.
      exact (reply_of_truthy d v H).
Qed.

(** ** The persona and the requests of a chat of the worker *)

(** X22.  The worker applies the persona to Gemini only.  For a model
    that starts with gpt the persona flag changes nothing: no draw is
    made, and after the search, if any, one request goes to OpenAI with
    the message as it was enhanced, or none when the key is missing.  For
    a model that starts with gemini one request goes to the model that
    the switch names, after the search, if any; it ends with the enhanced
    message, and one draw is made exactly when the persona is on. *)
Theorem worker_persona_only_gemini :
  forall env net jst message model useResearch draws n,
    let b p := {| Api.message := message; Api.model := Some model;
                  Api.usePersonality := p; Api.useResearch := useResearch |} in
    (Js.startsWith model "gpt" = true ->
     Api.chat env net jst (b true) draws n = Api.chat env net jst (b false) draws n
     /\ snd (Api.chat env net jst (b true) draws n) = n
     /\ snd (fst (Api.chat env net jst (b true) draws n))
        = (snd (Api.enhance env net jst (b true))
           ++ if Api.set (Api.OPENAI_API_KEY env)
              then [Api.OpenAICall model (fst (Api.enhance env net jst (b true)))]
              else [])%list)
    /\ (Js.startsWith model "gemini" = true ->
        forall p,
          snd (Api.chat env net jst (b p) draws n) = (if p then S n else n)
          /\ exists sent,
               snd (fst (Api.chat env net jst (b p) draws n))
               = (snd (Api.enhance env net jst (b p))
                  ++ [Api.GeminiCall (Worker.apiModel model) sent])%list
               /\ Js.endsWith sent (fst (Api.enhance env net jst (b p))) = true).
Proof.
  intros env net jst message model useResearch draws n b.
  assert (He : forall p, Api.enhance env net jst (b p)
                         = Api.enhance env net jst (b true)).
  { intro p. reflexivity. }
  split.
  - intro Hp.
    assert (Hc : forall p,
               Api.chat env net jst (b p) draws n
               = ((fst (Api.callOpenAI env net
                          (fst (Api.enhance env net jst (b true))) model),
                   (snd (Api.enhance env net jst (b true))
                    ++ snd (Api.callOpenAI env net
                              (fst (Api.enhance env net jst (b true))) model))%list),
                  n)).
    { intro p. unfold Api.chat. cbn [Api.model b]. rewrite He.
      destruct (Api.enhance env net jst (b true)) as [e calls].
      rewrite route_prefix, (gpt_not_gemini model Hp), Hp. cbn [fst snd].
      destruct (Api.callOpenAI env net e model) as [r calls']. reflexivity. }
    split; [rewrite (Hc true), (Hc false); reflexivity |].
    split; [rewrite (Hc true); reflexivity |].
    rewrite (Hc true). cbn [fst snd]. f_equal.
    unfold Api.callOpenAI.
    destruct (Api.set (Api.OPENAI_API_KEY env)); reflexivity.
  - intros Hg p. unfold Api.chat. cbn [Api.model b].
    destruct (Api.enhance env net jst (b p)) as [e calls].
    rewrite route_prefix, Hg. cbn [fst snd].
    pose proof (worker_gemini_shape (Api.gemini net) e model p draws n) as Hs.
    destruct (Worker.callGemini (Api.gemini net) e model
                (Api.usePersonality (b p)) draws n) as [[sent r] n'] eqn:E.
    cbn [b Api.usePersonality] in E. rewrite E in Hs. cbn [fst snd] in Hs.
    destruct Hs as (Hend & Hn). cbn [fst snd].
    split; [exact Hn |]. exists sent. split; [reflexivity | exact Hend].
Qed.

(** A GPT model asked with the persona on. *)
Lemma worker_persona_only_gemini_witness :
  Api.chat Edge.bindings Edge.net Edge.jst
    {| Api.message := "hello"; Api.model := Some "gpt-4o";
       Api.usePersonality := true; Api.useResearch := false |}
    (Demo.draws_of (1 # 10) (9 # 10)) 0
  = Api.chat Edge.bindings Edge.net Edge.jst
      {| Api.message := "hello"; Api.model := Some "gpt-4o";
         Api.usePersonality := false; Api.useResearch := false |}
      (Demo.draws_of (1 # 10) (9 # 10)) 0.
Proof.
  destruct (worker_persona_only_gemini Edge.bindings Edge.net Edge.jst
              "hello" "gpt-4o" false (Demo.draws_of (1 # 10) (9 # 10)) 0)
    as (H & _).
  exact (proj1 (H eq_refl)).
Defined.

(** ** The date of the worker *)

Lemma padStart2_length :
  forall n, n < 100 -> String.length (Api.padStart2 n) = 2.
Proof.
  intros n H.
  do 100 (destruct n as [|n]; [reflexivity |]).
  lia.
Qed.

(** A natural number is written in a template as [Js.of_nat] writes it. *)
Lemma of_lu_nat_pos d :
  N.of_nat (DecimalNat.Unsigned.of_lu d) = DecimalPos.Unsigned.of_lu d.
Proof.
  induction d; cbn [DecimalNat.Unsigned.of_lu DecimalPos.Unsigned.of_lu];
    rewrite <- ?IHd; lia.
Qed.

Lemma to_uint_nat_N n : N.to_uint (N.of_nat n) = Nat.to_uint n.
Proof.
  assert (H : Pos.of_uint (Nat.to_uint n) = N.of_nat n).
  { rewrite DecimalPos.Unsigned.of_uint_alt, <- of_lu_nat_pos,
      <- DecimalNat.Unsigned.of_uint_alt, DecimalNat.Unsigned.of_to.
    reflexivity. }
  rewrite <- H, DecimalPos.Unsigned.to_of.
  rewrite <- DecimalNat.Unsigned.to_of, DecimalNat.Unsigned.of_to. reflexivity.
Qed.

Lemma to_string_of_nat n : to_string (VNum (Z.of_nat n)) = Js.of_nat n.
Proof.
  cbn [to_string]. unfold Js.of_nat. rewrite <- to_uint_nat_N.
  destruct n as [|n]; [reflexivity |].
  cbn [Z.of_nat N.of_nat Z.to_int N.to_uint NilZero.string_of_int].
  unfold NilZero.string_of_uint.
  pose proof (DecimalPos.Unsigned.to_uint_nonnil (Pos.of_succ_nat n)) as H.
  destruct (Pos.to_uint (Pos.of_succ_nat n)); [contradiction | reflexivity ..].
Qed.

(** X23.  The date that the worker gives.  For a month index below 12, a
    day of the month from 1 to 31 and a day of the week below 7, the
    month is between 1 and 12, the name of the day is one of the seven
    names, and the ISO date is the year followed by six characters, the
    month and the day taking two each.  From 2019 on the era year is the
    year less 2018, written without a sign, so the first year of the era
    is written with the digit 1. *)
Theorem worker_date_shape :
  forall jst,
    Api.monthIndex jst < 12 ->
    1 <= Api.dayOfMonth jst <= 31 ->
    Api.dayOfWeek jst < 7 ->
    1 <= Api.month (Api.getCurrentDateInfo jst) <= 12
    /\ In (Api.dayName (Api.getCurrentDateInfo jst)) Api.dayNames
    /\ String.length (Api.iso (Api.getCurrentDateInfo jst))
       = String.length (Js.of_nat (Api.fullYear jst)) + 6
    /\ (2019 <= Api.fullYear jst ->
        Api.wareki (Api.getCurrentDateInfo jst)
        = "令和" ++ Js.of_nat (Api.fullYear jst - 2018) ++ "年").
Proof.
  intros jst Hm Hd Hw. unfold Api.getCurrentDateInfo.
  cbn [Api.month Api.dayName Api.iso Api.wareki].
  split; [lia |]. split; [| split].
  - apply nth_In. exact Hw.
  - rewrite !append_length.
    rewrite (padStart2_length (Api.monthIndex jst + 1)) by lia.
    rewrite (padStart2_length (Api.dayOfMonth jst)) by lia.
    change (String.length "-") with 1. lia.
  - intro Hy.
    replace (Z.of_nat (Api.fullYear jst) - 2018)%Z
      with (Z.of_nat (Api.fullYear jst - 2018)) by lia.
    rewrite to_string_of_nat. reflexivity.
Qed.

(** The seventh of January 2025, a Tuesday. *)
Lemma worker_date_shape_witness :
  Api.iso (Api.getCurrentDateInfo Edge.jst) = "2025-01-07"
  /\ String.length (Api.iso (Api.getCurrentDateInfo Edge.jst)) = 10.
Proof.
  split; [vm_compute; reflexivity |].
  assert (H1 : Api.monthIndex Edge.jst < 12) by (vm_compute; lia).
  assert (H2 : 1 <= Api.dayOfMonth Edge.jst <= 31) by (vm_compute; lia).
  assert (H3 : Api.dayOfWeek Edge.jst < 7) by (vm_compute; lia).
  destruct (worker_date_shape Edge.jst H1 H2 H3) as (_ & _ & H & _).
  rewrite H. reflexivity.
Defined.

(** * Properties of the knowledge routes *)

Lemma upload_unloaded E F filename content w :
  knowledgeLoader w = None ->
  Admin.unloaded_answer F (Admin.Upload filename content)
    (fst (Admin.upload E F filename content w))
  /\ kb_state (snd (Admin.upload E F filename content w)) = kb_state w.
Proof.
  intro H. unfold Admin.unloaded_answer, Admin.upload.
  destruct filename as [f|]; [| split; reflexivity].
  destruct content as [c|]; [| split; reflexivity].
  destruct (Js.truthy_str f); [| split; reflexivity].
  destruct (Js.truthy_str c); [| split; reflexivity].
  cbn [negb orb andb].
  destruct (Admin.writeFile F f c) as [u|e]; [| split; reflexivity].
  unfold try_catch, bind, get_knowledgeLoader, throw, console_error, ret.
  cbn [fst snd]. rewrite H. split; reflexivity.
Qed.

Lemma handle_unloaded E F r w :
  knowledgeLoader w = None ->
  Admin.unloaded_answer F r (fst (Admin.handle E F r w))
  /\ kb_state (snd (Admin.handle E F r w)) = kb_state w.
Proof.
  intro H. destruct r as [|filename content].
  - unfold Admin.handle, Admin.knowledge, bind, get_knowledgeLoader, ret.
    cbn [fst snd]. rewrite H. split; reflexivity.
  - apply upload_unloaded. exact H.
Qed.

(** X24.  The knowledge routes of the administration page never make the
    loader.  In a process where no turn has made it yet, whatever
    listings and uploads arrive, no call reaches the loader and there is
    still no loader afterwards; every listing shows no documents; and
    every upload with a file name and a content is answered with the
    status 500, after the file has been written when the write succeeds.
    An upload that lacks one of the two is answered with the status 400
    and writes nothing. *)
Theorem admin_never_makes_loader :
  forall E F rs w,
    knowledgeLoader w = None ->
    Forall2 (Admin.unloaded_answer F) rs (fst (Admin.serve E F rs w))
    /\ knowledgeLoader (snd (Admin.serve E F rs w)) = None
    /\ kbCalls (snd (Admin.serve E F rs w)) = kbCalls w.
Proof.
  intros E F rs. induction rs as [|r rest IH]; intros w H.
  - simpl. repeat split; [constructor | exact H].
  - cbn [Admin.serve].
    destruct (handle_unloaded E F r w H) as (Ha & Hs).
    destruct (Admin.handle E F r w) as [a w1]. cbn [fst snd] in Ha, Hs.
    unfold kb_state in Hs. injection Hs as Hc Hl.
    assert (H1 : knowledgeLoader w1 = None) by (rewrite Hl; exact H).
    destruct (IH w1 H1) as (Hf & Hn & Hk).
    destruct (Admin.serve E F rest w1) as [l w2]. cbn [fst snd] in *.
    split; [constructor; assumption |].
    split; [exact Hn | rewrite Hk; exact Hc].
Qed.

(** A listing, an upload and a listing in a process that has just
    started. *)
Lemma admin_never_makes_loader_witness :
  knowledgeLoader (fresh None 0) = None
  /\ Forall2 (Admin.unloaded_answer Shelf.disk)
       [Admin.Listing; Admin.Upload (Some "faq.md") (Some "Q and A");
        Admin.Listing]
       [Ok (Admin.no_documents, []);
        Ok (Admin.upload_failed, [("faq.md", "Q and A")]);
        Ok (Admin.no_documents, [])]
  /\ knowledgeLoader
       (snd (Admin.serve Demo.base Shelf.disk
               [Admin.Listing; Admin.Upload (Some "faq.md") (Some "Q and A");
                Admin.Listing] (fresh None 0))) = None.
Proof.
  split; [reflexivity |].
  destruct (admin_never_makes_loader Demo.base Shelf.disk
              [Admin.Listing; Admin.Upload (Some "faq.md") (Some "Q and A");
               Admin.Listing] (fresh None 0) eq_refl) as (H & Hn & _).
  split; [exact H | exact Hn].
Defined.

Lemma retrieve_makes_loader E q w loaded :
  kb_new E = Ok tt -> kb_initialize E = Ok tt ->
  kb_loadDocuments E = Ok loaded ->
  exists docs, knowledgeLoader (snd (retrieve E q w)) = Some docs.
Proof.
  intros Hn Hi Hl.
  unfold retrieve, bind, get_knowledgeLoader, kb_call, set_knowledgeLoader,
    lift, ret. simpl.
  destruct (knowledgeLoader w) as [[|d ds]|] eqn:Hw; simpl;
    rewrite ?Hn; simpl; rewrite ?Hi; simpl; rewrite ?Hl; simpl.
  - destruct (kb_searchDocuments E loaded q); simpl; eexists; reflexivity.
  - destruct (kb_searchDocuments E (d :: ds) q); simpl; rewrite ?Hw;
      eexists; reflexivity.
  - destruct (kb_searchDocuments E loaded q); simpl; eexists; reflexivity.
Qed.

(** X25.  An upload works once a turn has made the loader.  After a chat
    turn with the knowledge flag, in a process where the loader can be
    made and the documents can be read, an upload with a file name and a
    content that the disk takes is answered with the status 200: the file
    is written, the documents are read again, once, and the number of
    documents in the answer is the number of those just read, which are
    the documents of the loader afterwards. *)
Theorem upload_after_knowledge_turn :
  forall E F b w f c loaded,
    useKnowledge b = true ->
    kb_new E = Ok tt -> kb_initialize E = Ok tt ->
    kb_loadDocuments E = Ok loaded ->
    Js.truthy_str f = true -> Js.truthy_str c = true ->
    Admin.writeFile F f c = Ok tt ->
    let w1 := snd (chat E b w) in
    fst (Admin.upload E F (Some f) (Some c) w1)
    = Ok (Admin.uploaded f (length loaded), [(f, c)])
    /\ kbCalls (snd (Admin.upload E F (Some f) (Some c) w1))
       = (kbCalls w1 ++ [KbLoadDocuments])%list
    /\ knowledgeLoader (snd (Admin.upload E F (Some f) (Some c) w1))
       = Some loaded.
Proof.
  intros E F b w f c loaded Hflag Hn Hi Hl Hf Hc Hw w1.
  assert (Hs : exists docs, knowledgeLoader w1 = Some docs).
  { pose proof (chat_kb_state E b w Hflag) as Hk.
    unfold kb_state in Hk. injection Hk as _ Hk. unfold w1. rewrite Hk.
    exact (retrieve_makes_loader E (message b) w loaded Hn Hi Hl). }
  destruct Hs as (docs & Hd).
  unfold Admin.upload. rewrite Hf, Hc, Hw. cbn [negb orb].
  unfold try_catch, bind, get_knowledgeLoader, kb_call, set_knowledgeLoader,
    lift, ret. cbn [fst snd]. rewrite Hd. cbn [fst snd]. rewrite Hl.
  cbn [fst snd kbCalls knowledgeLoader]. repeat split.
Qed.

(** An upload after a turn with the flag, in a process that has just
    started. *)
Lemma upload_after_knowledge_turn_witness :
  fst (Admin.upload Demo.base Shelf.disk (Some "faq.md") (Some "Q and A")
         (snd (chat Demo.base Shelf.turn (fresh None 0))))
  = Ok (Admin.uploaded "faq.md" 1, [("faq.md", "Q and A")]).
Proof.
  exact (proj1 (upload_after_knowledge_turn Demo.base Shelf.disk Shelf.turn
                  (fresh None 0) "faq.md" "Q and A" ["doc"]
                  eq_refl eq_refl eq_refl eq_refl eq_refl eq_refl eq_refl)).
Defined.

(** * Properties of the helpers of the minutes *)

Lemma collect_filter_map {A} (cond : Meeting.Transcript -> bool)
    (item : Meeting.Transcript -> A) (ts : list Meeting.Transcript) :
  Meeting.collect cond item ts = map item (filter cond ts).
Proof.
  unfold Meeting.collect.
  assert (H : forall acc,
             fold_left (fun acc t => if cond t then (acc ++ [item t])%list else acc)
               ts acc
             = (acc ++ map item (filter cond ts))%list).
  { induction ts as [|t rest IH]; intro acc; simpl.
    - rewrite app_nil_r. reflexivity.
    - rewrite IH. destruct (cond t); simpl; [| reflexivity].
      rewrite <- app_assoc. reflexivity. }
  exact (H []).
Qed.

Lemma or_default {A} (l : list A) (d : A) :
  (if 0 <? length l then l else [d]) = match l with [] => [d] | _ => l end.
Proof. destruct l; reflexivity. Qed.

(** X26.  The agenda of the minutes is never empty.  It is the single
    default entry exactly when no transcript has one of the two agenda
    words; otherwise it has one entry for each transcript that has one,
    in the order of the transcripts: the first fifty code units of its
    text.  No entry is longer than fifty code units. *)
Theorem agenda_entries :
  forall ts,
    Meeting.extractAgenda ts <> []
    /\ (forall a, In a (Meeting.extractAgenda ts) -> length a <= 50)
    /\ (filter Meeting.agenda_line ts = [] ->
        Meeting.extractAgenda ts = [Meeting.utf16 "本日の議題"])
    /\ (filter Meeting.agenda_line ts <> [] ->
        Meeting.extractAgenda ts
        = map (fun t => firstn 50 (Meeting.text t))
            (filter Meeting.agenda_line ts)).
Proof.
  intro ts. unfold Meeting.extractAgenda.
  rewrite collect_filter_map, or_default. unfold Meeting.substring0.
  destruct (filter Meeting.agenda_line ts) as [|t rest] eqn:E; cbn [map].
  - split; [intro H; discriminate H |]. split.
    + intros a [<- | []]. apply Nat.leb_le. vm_compute. reflexivity.
    + split; [reflexivity | intro H; contradiction].
  - split; [intro H; discriminate H |]. split.
    + intros a Ha.
      change (In a (map (fun t => firstn 50 (Meeting.text t)) (t :: rest))) in Ha.
      apply in_map_iff in Ha. destruct Ha as (x & <- & _).
      apply firstn_le_length.
    + split; [intro H; discriminate H | reflexivity].
Qed.

(** The agenda of a meeting of three lines. *)
Lemma agenda_entries_witness :
  Meeting.extractAgenda Minutes.lines = [Meeting.utf16 "本日の議題は予算です"].
Proof.
  destruct (agenda_entries Minutes.lines) as (_ & _ & _ & H).
  rewrite H; [vm_compute; reflexivity | vm_compute; intro X; discriminate X].
Defined.

(** X27.  The decisions and the action items of the minutes.  A decision
    is the whole text of a transcript that has one of the three decision
    words, and every such transcript gives one; without any there is the
    single default entry.  An action item comes from a transcript that
    has one of the three action words: its task is the first fifty code
    units of the text, its assignee the speaker, and its deadline the
    fixed text for an open deadline; without any there is the single
    placeholder item.  Neither list is ever empty. *)
Theorem decisions_and_actions :
  forall ts,
    Meeting.extractDecisions ts <> []
    /\ Meeting.extractActionItems ts <> []
    /\ (forall t, In t ts -> Meeting.decision_line t = true ->
          In (Meeting.text t) (Meeting.extractDecisions ts))
    /\ (forall d, In d (Meeting.extractDecisions ts) ->
          d = Meeting.utf16 "決定事項を確認中"
          \/ exists t, In t ts /\ Meeting.decision_line t = true
                       /\ d = Meeting.text t)
    /\ (forall a, In a (Meeting.extractActionItems ts) ->
          a = {| Meeting.task := Meeting.utf16 "アクションアイテムなし";
                 Meeting.assignee := Meeting.utf16 "-";
                 Meeting.deadline := Meeting.utf16 "-" |}
          \/ (Meeting.deadline a = Meeting.utf16 "未定"
              /\ exists t, In t ts /\ Meeting.action_line t = true
                           /\ Meeting.assignee a = Meeting.speaker t
                           /\ Meeting.task a = firstn 50 (Meeting.text t)))
    /\ length (Meeting.extractActionItems ts)
       = Nat.max 1 (length (filter Meeting.action_line ts)).
Proof.
  intro ts. unfold Meeting.extractDecisions, Meeting.extractActionItems.
  rewrite !collect_filter_map, !or_default. unfold Meeting.substring0.
  split; [destruct (filter Meeting.decision_line ts); intro H; discriminate H |].
  split; [destruct (filter Meeting.action_line ts); intro H; discriminate H |].
  split; [| split; [| split]].
  - intros t Ht Hd.
    assert (Hin : In (Meeting.text t)
                    (map Meeting.text (filter Meeting.decision_line ts))).
    { apply in_map. apply filter_In. split; assumption. }
    destruct (map Meeting.text (filter Meeting.decision_line ts));
      [destruct Hin | exact Hin].
  - intros d Hd.
    destruct (map Meeting.text (filter Meeting.decision_line ts)) as [|x l] eqn:E.
    + destruct Hd as [<- | []]. left. reflexivity.
    + right. rewrite <- E in Hd. apply in_map_iff in Hd.
      destruct Hd as (t & <- & Hf). apply filter_In in Hf.
      exists t. split; [apply Hf |]. split; [apply Hf | reflexivity].
  - intros a Ha.
    match type of Ha with In _ (match ?m with _ => _ end) =>
      destruct m as [|x l] eqn:E end.
    + destruct Ha as [<- | []]. left. reflexivity.
    + right. rewrite <- E in Ha. apply in_map_iff in Ha.
      destruct Ha as (t & <- & Hf). apply filter_In in Hf.
      split; [reflexivity |]. exists t.
      split; [apply Hf |]. split; [apply Hf |]. split; reflexivity.
  - destruct (filter Meeting.action_line ts) as [|t rest]; [reflexivity |].
    cbn [map length]. rewrite length_map. reflexivity.
Qed.

Lemma join_head (sep x : Meeting.Text) (l : list Meeting.Text) :
  exists tail, Meeting.join sep (x :: l) = (x ++ tail)%list.
Proof.
  destruct l as [|y l].
  - exists []. cbn [Meeting.join]. rewrite app_nil_r. reflexivity.
  - exists (sep ++ Meeting.join sep (y :: l))%list. reflexivity.
Qed.

Lemma starts_app (p s : Meeting.Text) : Meeting.starts p (p ++ s)%list = true.
Proof.
  induction p as [|x p IH]; simpl; [reflexivity |].
  rewrite N.eqb_refl. exact IH.
Qed.

(** X28.  The summary of the discussion reads the first five transcripts
    only.  Without transcripts it is the default text; otherwise it
    starts with the speaker of the first one, a colon, a blank and the
    text of the first one, and it is never the default text. *)
Theorem summary_of_five :
  forall ts,
    Meeting.summarizeDiscussion ts = Meeting.summarizeDiscussion (firstn 5 ts)
    /\ (ts = [] ->
        Meeting.summarizeDiscussion ts = Meeting.utf16 "議論内容の要約")
    /\ (forall t rest, ts = t :: rest ->
          Meeting.starts
            (Meeting.speaker t ++ Meeting.utf16 ": " ++ Meeting.text t)%list
            (Meeting.summarizeDiscussion ts) = true
          /\ Meeting.summarizeDiscussion ts <> Meeting.utf16 "議論内容の要約").
Proof.
  intro ts. split; [| split].
  - unfold Meeting.summarizeDiscussion. rewrite firstn_firstn. reflexivity.
  - intros ->. reflexivity.
  - intros t rest ->. unfold Meeting.summarizeDiscussion. cbv zeta.
    change (firstn 5 (t :: rest)) with (t :: firstn 4 rest). cbn [map].
    match goal with
    | |- context [match ?j with [] => _ | _ :: _ => _ end] =>
        assert (Hj : exists tail,
                   j = ((Meeting.speaker t ++ Meeting.utf16 ": " ++ Meeting.text t)
                        ++ tail)%list) by apply join_head;
        destruct Hj as (tail & Hj); rewrite Hj
    end.
    assert (Hin : In 58%N
                    ((Meeting.speaker t ++ Meeting.utf16 ": " ++ Meeting.text t)
                     ++ tail)%list).
    { apply in_or_app. left. apply in_or_app. right.
      change (Meeting.utf16 ": ") with [58%N; 32%N]. left. reflexivity. }
    destruct ((Meeting.speaker t ++ Meeting.utf16 ": " ++ Meeting.text t)
              ++ tail)%list as [|c r] eqn:E; [destruct Hin |].
    split.
    + rewrite <- E. apply starts_app.
    + intro Heq. rewrite Heq in Hin. vm_compute in Hin.
      repeat (destruct Hin as [Hin | Hin]; [discriminate Hin |]). destruct Hin.
Qed.

(** The summary of a meeting of three lines. *)
Lemma summary_of_five_witness :
  Meeting.starts
    (Meeting.speaker Minutes.opening ++ Meeting.utf16 ": "
     ++ Meeting.text Minutes.opening)%list
    (Meeting.summarizeDiscussion Minutes.lines) = true
  /\ Meeting.summarizeDiscussion Minutes.lines
     <> Meeting.utf16 "議論内容の要約".
Proof.
  destruct (summary_of_five Minutes.lines) as (_ & _ & H).
  exact (H Minutes.opening Minutes.replies eq_refl).
Defined.

(** ** The minutes *)

Lemma starts_app_r (p l b : Meeting.Text) :
  Meeting.starts p l = true -> Meeting.starts p (l ++ b)%list = true.
Proof.
  revert l. induction p as [|y p IH]; intros l H; [reflexivity |].
  destruct l as [|x l]; [discriminate H |].
  cbn [app Meeting.starts] in *. apply andb_true_iff in H.
  destruct H as (Hx & Hp). rewrite Hx, (IH l Hp). reflexivity.
Qed.


Lemma includes_app_l (a b p : Meeting.Text) :
  Meeting.includes a p = true -> Meeting.includes (a ++ b)%list p = true.
Proof.
  induction a as [|x a IH]; intro H.
  - cbn [Meeting.includes] in H. rewrite orb_false_r in H.
    destruct p as [|y p]; [destruct b; reflexivity | discriminate H].
  - cbn [Meeting.includes] in H. apply orb_true_iff in H.
    change ((x :: a) ++ b)%list with (x :: (a ++ b))%list.
    cbn [Meeting.includes]. apply orb_true_iff. destruct H as [H | H].
    + left. exact (starts_app_r p (x :: a) b H).
    + right. apply IH. exact H.
Qed.

Lemma includes_self (p : Meeting.Text) : Meeting.includes p p = true.
Proof.
  assert (H : Meeting.starts p p = true).
  { rewrite <- (app_nil_r p) at 2. apply starts_app. }
  destruct p; cbn [Meeting.includes]; rewrite H; reflexivity.
Qed.





(** * Properties of the keywords of the research manager *)

(** A text without white space and without the two marks. *)
Definition solid_text (p : Meeting.Text) : Prop :=
  forall c, In c p -> Research.is_space c = false /\ Research.is_mark c = false.

Lemma includes_cons (c : N) (s p : Meeting.Text) :
  Meeting.includes s p = true -> Meeting.includes (c :: s) p = true.
Proof. intro H. cbn [Meeting.includes]. rewrite H. apply orb_true_r. Qed.

Lemma includes_nil (s : Meeting.Text) : Meeting.includes s [] = true.
Proof. destruct s; reflexivity. Qed.

(** Every piece is the piece being read followed by a start of the text,
    or a part of the text; and it has no separator. *)
Lemma split_from_pieces :
  forall s cur in_space p,
    solid_text cur ->
    In p (Research.split_from cur in_space s) ->
    solid_text p
    /\ ((exists pre post, p = (cur ++ pre)%list /\ s = (pre ++ post)%list)
        \/ Meeting.includes s p = true).
Proof.
  induction s as [|c rest IH]; intros cur in_space p Hcur Hp.
  - destruct Hp as [<- | []]. split; [exact Hcur |].
    left. exists [], []. rewrite app_nil_r. split; reflexivity.
  - assert (Hnil : solid_text []) by (intros x []).
    assert (Hsub : forall ws, In p (Research.split_from [] ws rest) ->
                   solid_text p /\ Meeting.includes (c :: rest) p = true).
    { intros ws Hin. destruct (IH [] ws p Hnil Hin) as (Hs & [Hpre | Hinc]).
      - split; [exact Hs |]. destruct Hpre as (pre & post & -> & ->).
        apply includes_cons. apply includes_app_l. apply includes_self.
      - split; [exact Hs | apply includes_cons; exact Hinc]. }
    assert (Hcurp : p = cur ->
                    solid_text p
                    /\ ((exists pre post, p = (cur ++ pre)%list
                                          /\ c :: rest = (pre ++ post)%list)
                        \/ Meeting.includes (c :: rest) p = true)).
    { intros ->. split; [exact Hcur |]. left. exists [], (c :: rest).
      rewrite app_nil_r. split; reflexivity. }
    cbn [Research.split_from] in Hp.
    destruct (Research.is_space c) eqn:Es.
    + destruct in_space.
      * destruct (Hsub true Hp) as (H1 & H2). split; [exact H1 | right; exact H2].
      * destruct Hp as [<- | Hp]; [apply Hcurp; reflexivity |].
        destruct (Hsub true Hp) as (H1 & H2). split; [exact H1 | right; exact H2].
    + destruct (Research.is_mark c) eqn:Em.
      * destruct Hp as [<- | Hp]; [apply Hcurp; reflexivity |].
        destruct (Hsub false Hp) as (H1 & H2). split; [exact H1 | right; exact H2].
      * assert (Hc : solid_text (cur ++ [c])%list).
        { intros x Hx. apply in_app_or in Hx. destruct Hx as [Hx | [<- | []]];
            [apply Hcur; exact Hx | split; assumption]. }
        destruct (IH (cur ++ [c])%list false p Hc Hp) as (Hs & [Hpre | Hinc]).
        -- split; [exact Hs |]. left. destruct Hpre as (pre & post & -> & ->).
           exists (c :: pre), post. rewrite <- app_assoc. split; reflexivity.
        -- split; [exact Hs | right; apply includes_cons; exact Hinc].
Qed.

Lemma in_first {A} (n : nat) (l : list A) (x : A) :
  In x (firstn n l) -> In x l.
Proof.
  revert l. induction n as [|n IH]; intros [|y l] H; simpl in H;
    try contradiction.
  destruct H as [-> | H]; [left; reflexivity | right; apply IH; exact H].
Qed.

Lemma text_eqb_refl (a : Meeting.Text) : Research.text_eqb a a = true.
Proof.
  unfold Research.text_eqb. rewrite Nat.eqb_refl.
  rewrite <- (app_nil_r a) at 2. apply starts_app.
Qed.

(** X30.  The keywords that the research manager takes from a message.
    There are at most three.  Each has two code units or more, is not one
    of the stop words, has no white space and neither of the two marks
    that separate the words, and is a part of the message. *)
Theorem keywords_of_message :
  forall message,
    length (Research.extractKeywords message) <= 3
    /\ forall k, In k (Research.extractKeywords message) ->
         2 <= length k
         /\ ~ In k Research.stopWords
         /\ (forall c, In c k ->
               Research.is_space c = false /\ Research.is_mark c = false)
         /\ Meeting.includes message k = true.
Proof.
  intro message. unfold Research.extractKeywords.
  split; [apply firstn_le_length |].
  intros k Hk. apply in_first in Hk. apply filter_In in Hk.
  destruct Hk as (Hin & Hf). apply andb_true_iff in Hf.
  destruct Hf as (Hl & Hs). apply Nat.ltb_lt in Hl.
  split; [exact Hl |]. split.
  - intro Hstop. apply negb_true_iff in Hs.
    assert (He : existsb (Research.text_eqb k) Research.stopWords = true).
    { apply existsb_exists. exists k. split; [exact Hstop | apply text_eqb_refl]. }
    rewrite He in Hs. discriminate Hs.
  - assert (Hnil : solid_text []) by (intros x []).
    destruct (split_from_pieces message [] false k Hnil Hin)
      as (Hsolid & [Hpre | Hinc]).
    + split; [exact Hsolid |]. destruct Hpre as (pre & post & -> & ->).
      cbn [app]. apply includes_app_l. apply includes_self.
    + split; [exact Hsolid | exact Hinc].
Qed.
